(** * galaxy: the service registry and the service runtime

    A shallow embedding of the registry (registry/registry.go,
    registry/notify.go, the service registration file) and of the runtime
    (runtime/runtime.go), with the properties their specification states.

    Go values are embedded as follows.  A [string] is a Go string, a
    [(T, error)] result is a pair whose second component is an
    [option error] ([None] is Go's [nil]), a pointer result is an [option],
    [int64] values are integers in [Z] with the wrap-around written where the
    code computes, maps are [gmap]s, a panic is the [Panicked] outcome. *)

From Stdlib Require Import ZArith Ascii String.
From stdpp Require Import base tactics option list strings pretty gmap sets.

Open Scope list_scope.
Open Scope Z_scope.

(** ** Go's library functions used by the code *)

Module Go.

(** Errors.  [NoSuchContainer] is the docker client's distinguished
    error type, which the runtime tells apart by a type assertion. *)
Inductive error :=
| ErrMsg (msg : string)              (* errors.New, fmt.Errorf *)
| ErrWrongType (key : string)        (* backend: key holds another kind of value *)
| ErrSyntax (input : string)         (* encoding/json: the text is no JSON document *)
| ErrUnmarshalType (field : string)  (* encoding/json: a value of the wrong JSON type *)
| ErrTimeFormat                      (* time: a timestamp that cannot be written or read *)
| NoSuchContainer (id : string)      (* docker.NoSuchContainer *)
| ErrNotRunning (id : string)        (* stopping a container that does not run *)
| ErrPullFailed (repository : string)(* the engine could not pull *)
| ErrUnreachable.                    (* no connection to the engine *)

(** A call either returns or panics. *)
Inductive outcome (A : Type) :=
| Returned (a : A)
| Panicked (why : string).
Arguments Returned {A} a.
Arguments Panicked {A} why.

Definition obind {A B} (m : outcome A) (k : A -> outcome B) : outcome B :=
  match m with
  | Returned a => k a
  | Panicked why => Panicked why
  end.

(** The [ok] of the type assertion of [err] to docker.NoSuchContainer. *)
Definition isNoSuchContainer (e : option error) : bool :=
  match e with
  | Some (NoSuchContainer _) => true
  | _ => false
  end.

Definition isNil {A} (o : option A) : bool :=
  match o with None => true | Some _ => false end.

(** int64 wrap-around. *)
Definition wrap64 (z : Z) : Z := (z + 2 ^ 63) mod 2 ^ 64 - 2 ^ 63.

(** *** package strings *)

Definition slash : ascii := "/"%char.

(** [strings.HasPrefix]. *)
Fixpoint HasPrefix (s p : string) {struct p} : bool :=
  match p with
  | EmptyString => true
  | String c p' =>
      match s with
      | String d s' => Ascii.eqb c d && HasPrefix s' p'
      | EmptyString => false
      end
  end.

Fixpoint drop (n : nat) (s : string) : string :=
  match n, s with
  | S n', String _ s' => drop n' s'
  | _, _ => s
  end.

Fixpoint take (n : nat) (s : string) : string :=
  match n, s with
  | S n', String c s' => String c (take n' s')
  | _, _ => EmptyString
  end.

(** [strings.TrimPrefix]. *)
Definition TrimPrefix (s p : string) : string :=
  if HasPrefix s p then drop (String.length p) s else s.

(** [s[0:n]]: a slice past the end of the string panics. *)
Definition slice_to (s : string) (n : nat) : outcome string :=
  if (n <=? String.length s)%nat then Returned (take n s)
  else Panicked "slice bounds out of range".

(** [strings.Split] with a one-byte separator: the pieces between the
    separators, so the empty string splits into one empty piece. *)
Fixpoint Split (s : string) (sep : ascii) : list string :=
  match s with
  | EmptyString => [EmptyString]
  | String c s' =>
      if Ascii.eqb c sep then EmptyString :: Split s' sep
      else match Split s' sep with
           | p :: ps => String c p :: ps
           | [] => [String c EmptyString]
           end
  end.

(** [strings.Join]. *)
Fixpoint Join (l : list string) (sep : string) : string :=
  match l with
  | [] => EmptyString
  | [x] => x
  | x :: l' => x +:+ sep +:+ Join l' sep
  end.

(** [strings.Index] with a one-byte pattern: [None] is Go's [-1]. *)
Fixpoint Index (s : string) (c : ascii) : option nat :=
  match s with
  | EmptyString => None
  | String d s' => if Ascii.eqb d c then Some O else S <$> Index s' c
  end.

(** White space as [strings.TrimSpace] sees it in ASCII text. *)
Definition isSpace (c : ascii) : bool :=
  let n := nat_of_ascii c in
  ((n =? 32) || (n =? 9) || (n =? 10) || (n =? 11) || (n =? 12) || (n =? 13))%nat.

(** [strings.TrimSpace(s) != ""]: some byte of [s] is no white space. *)
Fixpoint notBlank (s : string) : bool :=
  match s with
  | EmptyString => false
  | String c s' => negb (isSpace c) || notBlank s'
  end.

Definition upper (c : ascii) : ascii :=
  let n := nat_of_ascii c in
  if ((97 <=? n) && (n <=? 122))%nat then ascii_of_nat (n - 32) else c.

(** [strings.ToUpper] on ASCII text. *)
Fixpoint ToUpper (s : string) : string :=
  match s with
  | EmptyString => EmptyString
  | String c s' => String (upper c) (ToUpper s')
  end.

(** [utils.StringInSlice]. *)
Definition StringInSlice (a : string) (l : list string) : bool :=
  existsb (String.eqb a) l.

(** *** package path *)

(** The lexical processing of [path.Clean], on the components between
    slashes: empty and [.] components go, [..] removes the component
    before it, or stays when there is none and the path is not rooted.
    [acc] is the output so far, last component first. *)
Fixpoint cleanParts (rooted : bool) (parts acc : list string) : list string :=
  match parts with
  | [] => rev acc
  | p :: parts' =>
      if String.eqb p "" || String.eqb p "." then cleanParts rooted parts' acc
      else if String.eqb p ".." then
        match acc with
        | q :: acc' =>
            if String.eqb q ".." then cleanParts rooted parts' (p :: acc)
            else cleanParts rooted parts' acc'
        | [] =>
            if rooted then cleanParts rooted parts' acc
            else cleanParts rooted parts' [p]
        end
      else cleanParts rooted parts' (p :: acc)
  end.

(** [path.Clean]. *)
Definition Clean (p : string) : string :=
  let rooted := HasPrefix p "/" in
  let body := Join (cleanParts rooted (Split p slash) []) "/" in
  let out := if rooted then "/" +:+ body else body in
  if String.eqb out "" then "." else out.

(** [path.Join]: empty elements before the first non-empty one are
    dropped, the rest is joined with slashes and cleaned; no non-empty
    element gives the empty string. *)
Fixpoint PathJoin (elem : list string) : string :=
  match elem with
  | [] => ""
  | e :: elem' => if String.eqb e "" then PathJoin elem' else Clean (Join elem "/")
  end.

(** [path.Base]: the last component, trailing slashes removed first. *)
Definition Base (p : string) : string :=
  if String.eqb p "" then "."
  else match filter (fun s => s <> "") (Split p slash) with
       | [] => "/"
       | x :: l => List.last l x
       end.

(** *** Key patterns *)

(** The backend's key patterns: [*] matches any run of bytes, [?] any one
    byte, every other byte itself. *)
Fixpoint globMatch (pat s : string) {struct pat} : bool :=
  match pat with
  | EmptyString => match s with EmptyString => true | _ => false end
  | String c pat' =>
      if Ascii.eqb c "*"%char then
        (fix star (t : string) : bool :=
           globMatch pat' t ||
           match t with
           | EmptyString => false
           | String _ t' => star t'
           end) s
      else
        match s with
        | EmptyString => false
        | String d s' =>
            (Ascii.eqb c "?"%char || Ascii.eqb c d) && globMatch pat' s'
        end
  end.

End Go.

Import Go.

(** ** The registry backend *)

Module Backend.

(** The [RegistryBackend] interface, by the calls the registry makes on
    it.  A call takes the backend's state and returns Go's result pair; a
    call that writes also returns the state it leaves. *)
Class RegistryBackend (B : Type) := {
  Keys : B -> string -> list string * option error;
  Get : B -> string -> string -> string * option error;
  Set_ : B -> string -> string -> string -> (string * option error) * B;
  Delete : B -> string -> (Z * option error) * B;
  Expire : B -> string -> Z -> (Z * option error) * B;
  Ttl : B -> string -> Z * option error;
  Members : B -> string -> list string * option error;
  AddMember : B -> string -> string -> (Z * option error) * B;
  RemoveMember : B -> string -> string -> (Z * option error) * B;
  Notify : B -> string -> string -> (Z * option error) * B
}.

(** What a key holds: a hash of fields, or a set of members. *)
Inductive value :=
| Hash (fields : gmap string string)
| SetOf (members : gset string).

(** Modelled from the spec: the backend behind the interface (the
    repository's RedisBackend is not among the sources).  Section 6 gives
    its contract: key/field storage with expiring keys, pattern-based key
    enumeration, set membership, and a publish primitive, all over one
    key space.  A key holds one kind of value; a call for the other kind
    fails on it.  [published] records the messages sent, latest last. *)
Record MemStore := {
  keyspace : gmap string value;
  leases : gmap string Z;
  published : list (string * string)
}.

Definition withKeyspace (st : MemStore) (ks : gmap string value) : MemStore :=
  {| keyspace := ks; leases := leases st; published := published st |}.

Definition emptyStore : MemStore :=
  {| keyspace := ∅; leases := ∅; published := [] |}.

Definition memKeys (st : MemStore) (pattern : string) : list string * option error :=
  (List.filter (globMatch pattern) (map fst (map_to_list (keyspace st))), None).

Definition memGet (st : MemStore) (key field : string) : string * option error :=
  match keyspace st !! key with
  | None => ("", None)
  | Some (Hash h) => (default "" (h !! field), None)
  | Some (SetOf _) => ("", Some (ErrWrongType key))
  end.

Definition memSet (st : MemStore) (key field val : string)
  : (string * option error) * MemStore :=
  match keyspace st !! key with
  | None => (("OK", None), withKeyspace st (<[key := Hash {[field := val]}]> (keyspace st)))
  | Some (Hash h) =>
      (("OK", None), withKeyspace st (<[key := Hash (<[field := val]> h)]> (keyspace st)))
  | Some (SetOf _) => (("", Some (ErrWrongType key)), st)
  end.

Definition memDelete (st : MemStore) (key : string) : (Z * option error) * MemStore :=
  match keyspace st !! key with
  | None => ((0, None), st)
  | Some _ =>
      ((1, None),
       {| keyspace := delete key (keyspace st);
          leases := delete key (leases st);
          published := published st |})
  end.

Definition memExpire (st : MemStore) (key : string) (ttl : Z)
  : (Z * option error) * MemStore :=
  match keyspace st !! key with
  | None => ((0, None), st)
  | Some _ =>
      ((1, None),
       {| keyspace := keyspace st;
          leases := <[key := ttl]> (leases st);
          published := published st |})
  end.

Definition memTtl (st : MemStore) (key : string) : Z * option error :=
  match keyspace st !! key with
  | None => (-2, None)
  | Some _ => (default (-1) (leases st !! key), None)
  end.

Definition memMembers (st : MemStore) (key : string) : list string * option error :=
  match keyspace st !! key with
  | None => ([], None)
  | Some (SetOf s) => (elements s, None)
  | Some (Hash _) => ([], Some (ErrWrongType key))
  end.

Definition memAddMember (st : MemStore) (key member : string)
  : (Z * option error) * MemStore :=
  match keyspace st !! key with
  | None => ((1, None), withKeyspace st (<[key := SetOf {[member]}]> (keyspace st)))
  | Some (SetOf s) =>
      if decide (member ∈ s) then ((0, None), st)
      else ((1, None), withKeyspace st (<[key := SetOf ({[member]} ∪ s)]> (keyspace st)))
  | Some (Hash _) => ((0, Some (ErrWrongType key)), st)
  end.

Definition memRemoveMember (st : MemStore) (key member : string)
  : (Z * option error) * MemStore :=
  match keyspace st !! key with
  | None => ((0, None), st)
  | Some (SetOf s) =>
      if decide (member ∈ s)
      then ((1, None), withKeyspace st (<[key := SetOf (s ∖ {[member]})]> (keyspace st)))
      else ((0, None), st)
  | Some (Hash _) => ((0, Some (ErrWrongType key)), st)
  end.

Definition memNotify (st : MemStore) (channel payload : string)
  : (Z * option error) * MemStore :=
  ((0, None),
   {| keyspace := keyspace st;
      leases := leases st;
      published := published st ++ [(channel, payload)] |}).

#[export] Instance MemBackend : RegistryBackend MemStore := {
  Keys := memKeys;
  Get := memGet;
  Set_ := memSet;
  Delete := memDelete;
  Expire := memExpire;
  Ttl := memTtl;
  Members := memMembers;
  AddMember := memAddMember;
  RemoveMember := memRemoveMember;
  Notify := memNotify
}.

End Backend.

Import Backend.

(** ** The registry *)

Module Registry.

(** *** Service configurations *)

(** Modelled from the spec: the ServiceConfig type (its file is not among the
    sources).  Section 3: the desired state of one application, with its
    name, the image version to run, the version identifier that every
    mutation advances, and the ordered mapping of environment variables;
    [ports] are the exposed ports that Start hands to the other
    containers. *)
Record ServiceConfig := {
  Name : string;
  version : string;
  id : Z;
  environment : list (string * string);
  ports : list string
}.

Definition ID (c : ServiceConfig) : Z := id c.
Definition Version (c : ServiceConfig) : string := version c.
Definition Env (c : ServiceConfig) : list (string * string) := environment c.
Definition Ports (c : ServiceConfig) : list string := ports c.

Definition NewServiceConfig (app ver : string) : ServiceConfig :=
  {| Name := app; version := ver; id := 0; environment := []; ports := [] |}.

(** [environmentVMap.Set]: the variable is bound (a binding of the same
    name is replaced) and the version identifier advances. *)
Definition EnvSet (k v : string) (c : ServiceConfig) : ServiceConfig :=
  {| Name := Name c;
     version := version c;
     id := wrap64 (id c + 1);
     environment := List.filter (fun kv => negb (String.eqb (fst kv) k)) (environment c) ++ [(k, v)];
     ports := ports c |}.

(** The two methods of ServiceConfig that tie a container's name to a
    configuration; their code is not among the sources, so the runtime's
    functions take them as an interface. *)
Class ContainerNaming := {
  ContainerName : ServiceConfig -> string;
  IsContainerVersion : ServiceConfig -> string -> bool
}.

(** The registry's functions of the configuration file, which is not among
    the sources, as the calls of registry.go make them. *)
Class ConfigStore (B : Type) := {
  GetServiceConfig : B -> string -> string -> option ServiceConfig * option error;
  SetServiceConfig : B -> ServiceConfig -> string -> (bool * option error) * B;
  NotifyRestart : B -> string -> string -> option error * B
}.

Section registry_go.
Context {B : Type} `{!RegistryBackend B} `{!ConfigStore B}.

Definition AppExists (b : B) (app env : string) : bool * option error :=
  let '(matches, err) := Keys b (PathJoin [env; app; "*"]) in
  match err with
  | Some e => (false, Some e)
  | None => ((0 <? length matches)%nat, None)
  end.

Definition ListAssignments (b : B) (env pool : string) : list string * option error :=
  Members b (PathJoin [env; "pools"; pool]).

(** The loop of ListPools over the pool names. *)
Fixpoint ListPools_loop (b : B) (env : string) (matches : list string)
    (assignments : gmap string (list string))
  : gmap string (list string) * option error :=
  match matches with
  | [] => (assignments, None)
  | pool :: rest =>
      let '(members, err) := ListAssignments b env pool in
      match err with
      | Some e => (assignments, Some e)
      | None => ListPools_loop b env rest (<[pool := members]> assignments)
      end
  end.

Definition ListPools (b : B) (env : string) : gmap string (list string) * option error :=
  let '(matches, err) := Members b (PathJoin [env; "pools"; "*"]) in
  match err with
  | Some e => (∅, Some e)
  | None => ListPools_loop b env matches ∅
  end.

Definition PoolExists (b : B) (env pool : string) : bool * option error :=
  let '(pools, err) := ListPools b env in
  match err with
  | Some e => (false, Some e)
  | None => (bool_decide (is_Some (pools !! pool)), None)
  end.

Definition AssignApp (b : B) (app env pool : string) : (bool * option error) * B :=
  let '(exists_, err) := AppExists b app env in
  if negb exists_ || negb (isNil err) then ((false, err), b) else
  let '(exists_, err) := PoolExists b env pool in
  if negb exists_ || negb (isNil err)
  then ((false, Some (ErrMsg ("pool " +:+ pool +:+ " does not exist"))), b) else
  let '((added, err), b1) := AddMember b (PathJoin [env; "pools"; pool]) app in
  match err with
  | Some e => ((false, Some e), b1)
  | None =>
      let '(err, b2) := NotifyRestart b1 app env in
      ((added =? 1, err), b2)
  end.

Definition UnassignApp (b : B) (app env pool : string) : (bool * option error) * B :=
  let '((removed, err), b1) := RemoveMember b (PathJoin [env; "pools"; pool]) app in
  if (removed =? 0) || negb (isNil err) then ((false, err), b1) else
  let '(err, b2) := NotifyRestart b1 app env in
  ((removed =? 1, err), b2).

Definition CreatePool (b : B) (name env : string) : (bool * option error) * B :=
  let '((added, err), b1) := AddMember b (PathJoin [env; "pools"; "*"]) name in
  match err with
  | Some e => ((false, Some e), b1)
  | None => ((added =? 1, None), b1)
  end.

Definition DeletePool (b : B) (pool env : string) : (bool * option error) * B :=
  let '(assignments, err) := ListAssignments b env pool in
  match err with
  | Some e => ((false, Some e), b)
  | None =>
      if (0 <? length assignments)%nat then ((false, None), b) else
      let '((removed, err), b1) := RemoveMember b (PathJoin [env; "pools"; "*"]) pool in
      match err with
      | Some e => ((false, Some e), b1)
      | None => ((removed =? 1, None), b1)
      end
  end.

Definition CreateApp (b : B) (app env : string) : (bool * option error) * B :=
  let '(exists_, err) := AppExists b app env in
  if exists_ || negb (isNil err) then ((false, err), b) else
  let emptyConfig := NewServiceConfig app "" in
  let emptyConfig := EnvSet "ENV" env emptyConfig in
  SetServiceConfig b emptyConfig env.

(** The loop of ListApps over the keys found; [appList] is the list built
    so far.  Dereferencing the nil configuration of an application that
    GetServiceConfig did not find panics. *)
Fixpoint ListApps_loop (b : B) (env : string) (apps : list string)
    (appList : list ServiceConfig) : outcome (list ServiceConfig * option error) :=
  match apps with
  | [] => Returned (appList, None)
  | app :: rest =>
      let parts := Split app slash in
      if negb (length parts =? 3)%nat then ListApps_loop b env rest appList
      else if String.eqb (nth 1 parts "") "hosts" then ListApps_loop b env rest appList
      else
        match GetServiceConfig b (nth 1 parts "") env with
        | (_, Some err) => Returned ([], Some err)
        | (None, None) => Panicked "nil pointer dereference"
        | (Some cfg, None) => ListApps_loop b env rest (appList ++ [cfg])
        end
  end.

Definition ListApps (b : B) (env : string) : outcome (list ServiceConfig * option error) :=
  let '(apps, err) := Keys b (PathJoin [env; "*"; "environment"]) in
  match err with
  | Some e => Returned ([], Some e)
  | None => ListApps_loop b env apps []
  end.

(** CountInstances: the number of keys found, and the error that it logs
    and does not return. *)
Definition CountInstances (b : B) (app env : string) : nat * option error :=
  let '(matches, err) := Keys b (PathJoin [env; "*"; "hosts"; "*"; app]) in
  (length matches, err).

(** The loop of ListEnvs over the keys found: the first component of
    every key, when it is not yet in the list. *)
Fixpoint ListEnvs_loop (apps : list string) (envs : list string) : list string :=
  match apps with
  | [] => envs
  | app :: rest =>
      let parts := Split app slash in
      if negb (StringInSlice (nth 0 parts "") envs)
      then ListEnvs_loop rest (envs ++ [nth 0 parts ""])
      else ListEnvs_loop rest envs
  end.

Definition ListEnvs (b : B) : list string * option error :=
  let '(apps, err) := Keys b (PathJoin ["*"; "*"; "environment"]) in
  match err with
  | Some e => ([], Some e)
  | None => (ListEnvs_loop apps [], None)
  end.

End registry_go.

(** DeleteServiceConfig, of the configuration file, which is not among the
    sources, as DeleteApp calls it. *)
Class ConfigRemoval (B : Type) := {
  DeleteServiceConfig : B -> ServiceConfig -> string -> (bool * option error) * B
}.

Section delete_app.
Context {B : Type} `{!RegistryBackend B} `{!ConfigStore B} `{!ConfigRemoval B}.

(** DeleteApp.  The loop ranges over the map of the pools, in the order of
    its entries here; Go leaves the order open. *)
Definition DeleteApp (b : B) (app env : string) : (bool * option error) * B :=
  let '(pools, err) := ListPools b env in
  match err with
  | Some e => ((false, Some e), b)
  | None =>
      match List.find (fun entry => StringInSlice app entry.2) (map_to_list pools) with
      | Some (pool, _) =>
          ((false, Some (ErrMsg ("app is assigned to pool " +:+ pool))), b)
      | None =>
          match GetServiceConfig b app env with
          | (_, Some e) => ((false, Some e), b)
          | (None, None) => ((true, None), b)
          | (Some svcCfg, None) => DeleteServiceConfig b svcCfg env
          end
      end
  end.

End delete_app.

End Registry.

(** ** Change notification (registry/notify.go) *)

Module Notify.
Import Registry.

(** A ConfigChange carries the changed configuration, or the error of a
    failed listing. *)
Record ConfigChange := {
  ChangedConfig : option ServiceConfig;
  Error : option error
}.

(** Reading Go's [map[string]int64]: a missing key reads as zero. *)
Definition lastSeen (lastVersion : gmap string Z) (name : string) : Z :=
  default 0 (lastVersion !! name).

(** The body of the first loop of checkForChanges, once ListApps has
    succeeded: every listed configuration is remembered. *)
Fixpoint seed (serviceConfigs : list ServiceConfig) (lastVersion : gmap string Z)
  : gmap string Z :=
  match serviceConfigs with
  | [] => lastVersion
  | config :: rest => seed rest (<[Name config := ID config]> lastVersion)
  end.

(** The inner loop of the second loop of checkForChanges: the remembered
    versions it leaves and the changes it sends, in order. *)
Fixpoint detect (serviceConfigs : list ServiceConfig) (lastVersion : gmap string Z)
  : gmap string Z * list ConfigChange :=
  match serviceConfigs with
  | [] => (lastVersion, [])
  | changedConfig :: rest =>
      if negb (ID changedConfig =? lastSeen lastVersion (Name changedConfig)) then
        let '(lv, sent) := detect rest (<[Name changedConfig := ID changedConfig]> lastVersion) in
        (lv, {| ChangedConfig := Some changedConfig; Error := None |} :: sent)
      else detect rest lastVersion
  end.

(** Where checkForChanges stands: in its first loop, which runs until a
    listing succeeds, or in its second, which waits for a trigger on the
    poll channel before each listing. *)
Inductive phase := Seeding | Polling.

Record poller := {
  stage : phase;
  lastVersion : gmap string Z
}.

Definition start : poller := {| stage := Seeding; lastVersion := ∅ |}.

Section notify_go.
Context {B : Type} `{!RegistryBackend B} `{!ConfigStore B}.

(** One pass of checkForChanges: one call of ListApps, on the backend as it
    is then, with the poller it leaves and the changes it sends.  A failed
    listing sends the error and changes nothing. *)
Definition checkForChanges_pass (p : poller) (b : B)
  : outcome (poller * list ConfigChange) :=
  match ListApps b "" with
  | Panicked why => Panicked why
  | Returned (_, Some err) =>
      Returned (p, [{| ChangedConfig := None; Error := Some err |}])
  | Returned (serviceConfigs, None) =>
      match stage p with
      | Seeding =>
          Returned ({| stage := Polling; lastVersion := seed serviceConfigs (lastVersion p) |}, [])
      | Polling =>
          let '(lv, sent) := detect serviceConfigs (lastVersion p) in
          Returned ({| stage := Polling; lastVersion := lv |}, sent)
      end
  end.

(** checkForChanges over the backend states that its successive listings
    see: the changes sent on the channel, in order. *)
Fixpoint checkForChanges (p : poller) (seen : list B)
  : outcome (poller * list ConfigChange) :=
  match seen with
  | [] => Returned (p, [])
  | b :: rest =>
      match checkForChanges_pass p b with
      | Panicked why => Panicked why
      | Returned (p1, sent) =>
          match checkForChanges p1 rest with
          | Panicked why => Panicked why
          | Returned (p2, sent') => Returned (p2, sent ++ sent')
          end
      end
  end.

End notify_go.


End Notify.

(** ** The container engine *)

Module Docker.

(** A time.Time, as the instant it names, in nanoseconds since the Unix
    epoch. *)
Definition Time := Z.

(** Go's zero time, the first instant of year 1. *)
Definition zeroTime : Time := -62135596800 * 10 ^ 9.

(** [Time.Unix]. *)
Definition Unix (t : Time) : Z := t / 10 ^ 9.

(** The docker client's types, with the fields the code reads. *)
Record PortBinding := {
  HostIp : string;
  HostPort : string
}.

Record Config := {
  Image : string;
  Env : list string
}.

(** [Ports] is Go's [map[Port][]PortBinding], as the pairs that a [range]
    over it yields, in the order it yields them. *)
Record NetworkSettings := {
  IPAddress : string;
  Ports : list (string * list PortBinding)
}.

Record State := {
  Running : bool
}.

Record Container := {
  ID : string;
  Created : Time;
  ContainerConfig : Config;
  ContainerState : State;
  ContainerNetwork : NetworkSettings;
  Name : string
}.

(** [Port.Port]: the port number of a port such as [80/tcp]. *)
Definition PortOf (p : string) : string := hd "" (Split p slash).

(** An entry of ListContainers. *)
Record APIContainers := {
  apiID : string;
  apiImage : string;
  apiCreated : Z;
  apiNames : list string
}.

(** docker.Image. *)
Record LocalImage := {
  ImageID : string
}.

Record PullImageOptions := {
  Repository : string;
  Registry : string
}.

Record AuthConfiguration := {
  Username : string;
  Password : string;
  Email : string
}.

(** The calls that change the engine, as the engine receives them. *)
Inductive call :=
| CreateCall (name image : string) (env : list string)
| StartCall (id : string)
| StopCall (id : string) (timeout : Z)
| RemoveCall (id : string) (removeVolumes : bool)
| PullCall (opts : PullImageOptions) (auth : AuthConfiguration).

(** Modelled from the spec: the container engine behind the docker client
    (an external library).  Section 6 gives its contract: list, inspect,
    create, start, stop and remove containers, list, inspect and pull
    images, with "no such container" a distinguished condition.

    [containers] are all containers, running or not.  The engine reports
    the name of a container with a leading slash; it inspects a container
    by its id or by its name, and starts, stops and removes the container
    of an id, which is how the runtime makes these calls.  [images] are the local images by name, [hub] what a
    pull of a repository brings.  [idSupply] are the ids that the engine
    gives to the next containers.  A container of an image in [crashing]
    exits as soon as it is started.  A stop of a container in [wedged]
    never returns.  [calls] records the changing calls received, latest
    last. *)
Record Engine := {
  reachable : bool;
  clock : Time;
  containers : list Container;
  images : gmap string LocalImage;
  hub : gmap string (list (string * LocalImage));
  idSupply : list string;
  crashing : gset string;
  wedged : gset string;
  calls : list call
}.

Definition received (e : Engine) (c : call) : Engine :=
  {| reachable := reachable e; clock := clock e; containers := containers e;
     images := images e; hub := hub e; idSupply := idSupply e;
     crashing := crashing e; wedged := wedged e; calls := calls e ++ [c] |}.

Definition withContainers (e : Engine) (cs : list Container) : Engine :=
  {| reachable := reachable e; clock := clock e; containers := cs;
     images := images e; hub := hub e; idSupply := idSupply e;
     crashing := crashing e; wedged := wedged e; calls := calls e |}.

(** Whether the container has this id, or this name. *)
Definition isID (x : string) (c : Container) : bool := String.eqb (ID c) x.

Definition isName (x : string) (c : Container) : bool := String.eqb (Name c) ("/" +:+ x).

(** The container that an id or a name stands for: the first one with the
    id, or else the first one with the name. *)
Definition resolve (x : string) (cs : list Container) : option Container :=
  match List.find (isID x) cs with
  | Some c => Some c
  | None => List.find (isName x) cs
  end.

Definition setRunning (r : bool) (c : Container) : Container :=
  {| ID := ID c; Created := Created c; ContainerConfig := ContainerConfig c;
     ContainerState := {| Running := r |};
     ContainerNetwork := ContainerNetwork c; Name := Name c |}.

Definition InspectContainer (e : Engine) (x : string) : option Container * option error :=
  if negb (reachable e) then (None, Some ErrUnreachable) else
  match resolve x (containers e) with
  | Some c => (Some c, None)
  | None => (None, Some (NoSuchContainer x))
  end.

Definition listed (c : Container) : APIContainers :=
  {| apiID := ID c;
     apiImage := Image (ContainerConfig c);
     apiCreated := Unix (Created c);
     apiNames := if String.eqb (Name c) "" then [] else [Name c] |}.

(** ListContainers: the running containers, or all of them. *)
Definition ListContainers (e : Engine) (all : bool) : list APIContainers * option error :=
  if negb (reachable e) then ([], Some ErrUnreachable) else
  (map listed (List.filter (fun c => all || Running (ContainerState c)) (containers e)), None).

Definition CreateContainer (e : Engine) (name : string) (config : Config)
  : (option Container * option error) * Engine :=
  let e1 := received e (CreateCall name (Image config) (Env config)) in
  if negb (reachable e) then ((None, Some ErrUnreachable), e1) else
  if negb (bool_decide (is_Some (images e !! Image config)))
  then ((None, Some (ErrMsg "no such image")), e1) else
  if negb (String.eqb name "") &&
     existsb (isName name) (containers e)
  then ((None, Some (ErrMsg "container name already in use")), e1) else
  match idSupply e with
  | [] => ((None, Some (ErrMsg "no container id left")), e1)
  | id :: ids =>
      let c := {| ID := id; Created := clock e; ContainerConfig := config;
                  ContainerState := {| Running := false |};
                  ContainerNetwork := {| IPAddress := ""; Ports := [] |};
                  Name := if String.eqb name "" then "" else "/" +:+ name |} in
      ((Some c, None),
       {| reachable := reachable e1; clock := clock e1;
          containers := containers e1 ++ [c];
          images := images e1; hub := hub e1; idSupply := ids;
          crashing := crashing e1; wedged := wedged e1; calls := calls e1 |})
  end.

(** The first container of the id is replaced by [f] of it. *)
Fixpoint update (id : string) (f : Container -> Container) (cs : list Container)
  : list Container :=
  match cs with
  | [] => []
  | c :: cs' => if isID id c then f c :: cs' else c :: update id f cs'
  end.

(** The first container of the id is removed. *)
Fixpoint remove (id : string) (cs : list Container) : list Container :=
  match cs with
  | [] => []
  | c :: cs' => if isID id c then cs' else c :: remove id cs'
  end.

Definition StartContainer (e : Engine) (id : string) : option error * Engine :=
  let e1 := received e (StartCall id) in
  if negb (reachable e) then (Some ErrUnreachable, e1) else
  match List.find (isID id) (containers e) with
  | None => (Some (NoSuchContainer id), e1)
  | Some c =>
      let up := negb (bool_decide (Image (ContainerConfig c) ∈ crashing e)) in
      (None, withContainers e1 (update id (setRunning up) (containers e1)))
  end.

(** What the caller of StopContainer sees: the call returns, with an error
    or without, or it does not return. *)
Inductive stopped :=
| StopReturns (err : option error)
| StopHangs.

Definition StopContainer (e : Engine) (id : string) (timeout : Z) : stopped * Engine :=
  let e1 := received e (StopCall id timeout) in
  if negb (reachable e) then (StopReturns (Some ErrUnreachable), e1) else
  match List.find (isID id) (containers e) with
  | None => (StopReturns (Some (NoSuchContainer id)), e1)
  | Some c =>
      if bool_decide (ID c ∈ wedged e) then (StopHangs, e1)
      else if negb (Running (ContainerState c))
      then (StopReturns (Some (ErrNotRunning id)), e1)
      else (StopReturns None, withContainers e1 (update id (setRunning false) (containers e1)))
  end.

Definition RemoveContainer (e : Engine) (id : string) (removeVolumes : bool)
  : option error * Engine :=
  let e1 := received e (RemoveCall id removeVolumes) in
  if negb (reachable e) then (Some ErrUnreachable, e1) else
  match List.find (isID id) (containers e) with
  | None => (Some (NoSuchContainer id), e1)
  | Some c =>
      if Running (ContainerState c)
      then (Some (ErrMsg "cannot remove a running container"), e1)
      else (None, withContainers e1 (remove id (containers e1)))
  end.

(** InspectImage, as PullImage reads it: a nil image and a nil error for
    an image that is not there. *)
Definition InspectImage (e : Engine) (name : string) : option LocalImage * option error :=
  if negb (reachable e) then (None, Some ErrUnreachable) else (images e !! name, None).

Definition PullImage (e : Engine) (opts : PullImageOptions) (auth : AuthConfiguration)
  : option error * Engine :=
  let e1 := received e (PullCall opts auth) in
  if negb (reachable e) then (Some ErrUnreachable, e1) else
  match hub e !! Repository opts with
  | None => (Some (ErrPullFailed (Repository opts)), e1)
  | Some brought =>
      (None,
       {| reachable := reachable e1; clock := clock e1; containers := containers e1;
          images := foldr (fun ni m => <[ni.1 := ni.2]> m) (images e1) brought;
          hub := hub e1; idSupply := idSupply e1;
          crashing := crashing e1; wedged := wedged e1; calls := calls e1 |})
  end.

End Docker.

(** ** JSON documents *)

Module Json.

#[local] Set Warnings "-register-all".

(** A JSON document.  Numbers stand as integers: the registration record
    has no numeric field, and a number only matters as a value of the wrong
    type. *)
Inductive json :=
| JNull
| JBool (b : bool)
| JNumber (n : Z)
| JString (s : string)
| JArray (items : list json)
| JObject (members : list (string * json)).

(** The text layer of encoding/json and of time.Time's JSON form (both
    external to the repository), as an interface: the text written for a
    document, the document read from a text ([None] for a text that is no
    JSON), the RFC 3339 text of a time ([None] when the time has none) and
    the time read from such a text. *)
Class JSONText := {
  jsonText : json -> string;
  jsonParse : string -> option json;
  timeText : Docker.Time -> option string;
  timeParse : string -> option Docker.Time
}.


End Json.

(** ** Service registrations *)

Module Registration.
Import Json.
Import Docker(Time, zeroTime).

(** The ServiceRegistration struct. *)
Record ServiceRegistration := mkRegistration {
  Name : string;
  ExternalIP : string;
  ExternalPort : string;
  InternalIP : string;
  InternalPort : string;
  ContainerID : string;
  ContainerName : string;
  Image : string;
  ImageId : string;
  StartedAt : Time;
  Expires : Time;
  Path : string;
  VirtualHosts : option (list string);
  Port : string;
  ErrorPages : option (gmap string string)
}.

(** The zero value of the struct. *)
Definition zeroRegistration : ServiceRegistration :=
  {| Name := ""; ExternalIP := ""; ExternalPort := ""; InternalIP := "";
     InternalPort := ""; ContainerID := ""; ContainerName := ""; Image := "";
     ImageId := ""; StartedAt := zeroTime; Expires := zeroTime; Path := "";
     VirtualHosts := None; Port := ""; ErrorPages := None |}.

(** Assignments to the fields. *)
Definition setName (v : string) (r : ServiceRegistration) : ServiceRegistration :=
  let 'mkRegistration _ xi xp ii ip ci cn im ii' sa ex pa vh po ep := r in
  mkRegistration v xi xp ii ip ci cn im ii' sa ex pa vh po ep.
Definition setExternalIP (v : string) (r : ServiceRegistration) : ServiceRegistration :=
  let 'mkRegistration n _ xp ii ip ci cn im ii' sa ex pa vh po ep := r in
  mkRegistration n v xp ii ip ci cn im ii' sa ex pa vh po ep.
Definition setExternalPort (v : string) (r : ServiceRegistration) : ServiceRegistration :=
  let 'mkRegistration n xi _ ii ip ci cn im ii' sa ex pa vh po ep := r in
  mkRegistration n xi v ii ip ci cn im ii' sa ex pa vh po ep.
Definition setInternalIP (v : string) (r : ServiceRegistration) : ServiceRegistration :=
  let 'mkRegistration n xi xp _ ip ci cn im ii' sa ex pa vh po ep := r in
  mkRegistration n xi xp v ip ci cn im ii' sa ex pa vh po ep.
Definition setInternalPort (v : string) (r : ServiceRegistration) : ServiceRegistration :=
  let 'mkRegistration n xi xp ii _ ci cn im ii' sa ex pa vh po ep := r in
  mkRegistration n xi xp ii v ci cn im ii' sa ex pa vh po ep.
Definition setContainerID (v : string) (r : ServiceRegistration) : ServiceRegistration :=
  let 'mkRegistration n xi xp ii ip _ cn im ii' sa ex pa vh po ep := r in
  mkRegistration n xi xp ii ip v cn im ii' sa ex pa vh po ep.
Definition setContainerName (v : string) (r : ServiceRegistration) : ServiceRegistration :=
  let 'mkRegistration n xi xp ii ip ci _ im ii' sa ex pa vh po ep := r in
  mkRegistration n xi xp ii ip ci v im ii' sa ex pa vh po ep.
Definition setImage (v : string) (r : ServiceRegistration) : ServiceRegistration :=
  let 'mkRegistration n xi xp ii ip ci cn _ ii' sa ex pa vh po ep := r in
  mkRegistration n xi xp ii ip ci cn v ii' sa ex pa vh po ep.
Definition setImageId (v : string) (r : ServiceRegistration) : ServiceRegistration :=
  let 'mkRegistration n xi xp ii ip ci cn im _ sa ex pa vh po ep := r in
  mkRegistration n xi xp ii ip ci cn im v sa ex pa vh po ep.
Definition setStartedAt (v : Time) (r : ServiceRegistration) : ServiceRegistration :=
  let 'mkRegistration n xi xp ii ip ci cn im ii' _ ex pa vh po ep := r in
  mkRegistration n xi xp ii ip ci cn im ii' v ex pa vh po ep.
Definition setExpires (v : Time) (r : ServiceRegistration) : ServiceRegistration :=
  let 'mkRegistration n xi xp ii ip ci cn im ii' sa _ pa vh po ep := r in
  mkRegistration n xi xp ii ip ci cn im ii' sa v pa vh po ep.
Definition setPath (v : string) (r : ServiceRegistration) : ServiceRegistration :=
  let 'mkRegistration n xi xp ii ip ci cn im ii' sa ex _ vh po ep := r in
  mkRegistration n xi xp ii ip ci cn im ii' sa ex v vh po ep.
Definition setVirtualHosts (v : option (list string)) (r : ServiceRegistration) : ServiceRegistration :=
  let 'mkRegistration n xi xp ii ip ci cn im ii' sa ex pa _ po ep := r in
  mkRegistration n xi xp ii ip ci cn im ii' sa ex pa v po ep.
Definition setPort (v : string) (r : ServiceRegistration) : ServiceRegistration :=
  let 'mkRegistration n xi xp ii ip ci cn im ii' sa ex pa vh _ ep := r in
  mkRegistration n xi xp ii ip ci cn im ii' sa ex pa vh v ep.
Definition setErrorPages (v : option (gmap string string)) (r : ServiceRegistration) : ServiceRegistration :=
  let 'mkRegistration n xi xp ii ip ci cn im ii' sa ex pa vh po _ := r in
  mkRegistration n xi xp ii ip ci cn im ii' sa ex pa vh po v.

Definition Equals (s other : ServiceRegistration) : bool :=
  String.eqb (ExternalIP s) (ExternalIP other) &&
  String.eqb (ExternalPort s) (ExternalPort other) &&
  String.eqb (InternalIP s) (InternalIP other) &&
  String.eqb (InternalPort s) (InternalPort other).

(** [addr]: the two parts with a colon between, when both are there. *)
Definition addr (ip port : string) : string :=
  if negb (String.eqb ip "") && negb (String.eqb port "") then ip +:+ ":" +:+ port
  else "".

Definition ExternalAddr (s : ServiceRegistration) : string :=
  addr (ExternalIP s) (ExternalPort s).

Definition InternalAddr (s : ServiceRegistration) : string :=
  addr (InternalIP s) (InternalPort s).

(** *** The JSON form of a registration *)

(** A string field tagged [omitempty]: no member when the string is
    empty. *)
Definition omitempty (key val : string) : list (string * json) :=
  if String.eqb val "" then [] else [(key, JString val)].

(** The [ERROR_PAGES] member: none for a nil or empty map. *)
Definition errorPagesMember (pages : option (gmap string string)) : list (string * json) :=
  match pages with
  | None => []
  | Some m =>
      if bool_decide (m = ∅) then []
      else [("ERROR_PAGES", JObject (map (fun kv => (kv.1, JString kv.2)) (map_to_list m)))]
  end.

(** The [VIRTUAL_HOSTS] value: null for a nil slice. *)
Definition virtualHostsValue (vhosts : option (list string)) : json :=
  match vhosts with
  | None => JNull
  | Some l => JArray (map JString l)
  end.

(** The document that json.Marshal writes for a registration, by the
    struct's tags: the members in the order of the fields, [Expires] and
    [Path] left out, given the text of [StartedAt]. *)
Definition document (started : string) (r : ServiceRegistration) : json :=
  JObject
    (omitempty "NAME" (Name r) ++
     omitempty "EXTERNAL_IP" (ExternalIP r) ++
     omitempty "EXTERNAL_PORT" (ExternalPort r) ++
     omitempty "INTERNAL_IP" (InternalIP r) ++
     omitempty "INTERNAL_PORT" (InternalPort r) ++
     [("CONTAINER_ID", JString (ContainerID r));
      ("CONTAINER_NAME", JString (ContainerName r))] ++
     omitempty "IMAGE" (Image r) ++
     omitempty "IMAGE_ID" (ImageId r) ++
     [("STARTED_AT", JString started);
      ("VIRTUAL_HOSTS", virtualHostsValue (VirtualHosts r));
      ("PORT", JString (Port r))] ++
     errorPagesMember (ErrorPages r)).

Section json_form.
Context `{!JSONText}.

(** [json.Marshal] of a registration. *)
Definition Marshal (r : ServiceRegistration) : string * option error :=
  match timeText (StartedAt r) with
  | None => ("", Some ErrTimeFormat)
  | Some started => (jsonText (document started r), None)
  end.

(** Decoding a value into a string field: null leaves the field. *)
Definition intoString (field : string) (v : json) (old : string) : string + error :=
  match v with
  | JNull => inl old
  | JString s => inl s
  | _ => inr (ErrUnmarshalType field)
  end.

(** Decoding a value into the time field. *)
Definition intoTime (field : string) (v : json) (old : Time) : Time + error :=
  match v with
  | JNull => inl old
  | JString s =>
      match timeParse s with
      | Some t => inl t
      | None => inr ErrTimeFormat
      end
  | _ => inr (ErrUnmarshalType field)
  end.

(** Decoding the items of an array into strings. *)
Fixpoint intoItems (field : string) (items : list json) : list string + error :=
  match items with
  | [] => inl []
  | v :: rest =>
      match intoString field v "", intoItems field rest with
      | inl s, inl l => inl (s :: l)
      | inr e, _ => inr e
      | _, inr e => inr e
      end
  end.

(** Decoding a value into the slice field: null makes it nil. *)
Definition intoStrings (field : string) (v : json) : option (list string) + error :=
  match v with
  | JNull => inl None
  | JArray items =>
      match intoItems field items with
      | inl l => inl (Some l)
      | inr e => inr e
      end
  | _ => inr (ErrUnmarshalType field)
  end.

(** Decoding the members of an object into a map, in their order: a later
    member of the same key replaces an earlier one. *)
Fixpoint intoEntries (field : string) (members : list (string * json))
    (m : gmap string string) : gmap string string + error :=
  match members with
  | [] => inl m
  | (k, v) :: rest =>
      match intoString field v "" with
      | inl s => intoEntries field rest (<[k := s]> m)
      | inr e => inr e
      end
  end.

(** Decoding a value into the map field: null makes it nil, an object
    adds its members to the map that is there. *)
Definition intoMap (field : string) (v : json) (old : option (gmap string string))
  : option (gmap string string) + error :=
  match v with
  | JNull => inl None
  | JObject members =>
      match intoEntries field members (default ∅ old) with
      | inl m => inl (Some m)
      | inr e => inr e
      end
  | _ => inr (ErrUnmarshalType field)
  end.

Definition assign {A} (set : A -> ServiceRegistration -> ServiceRegistration)
    (decoded : A + error) (r : ServiceRegistration) : ServiceRegistration + error :=
  match decoded with
  | inl a => inl (set a r)
  | inr e => inr e
  end.

(** One member of the object: the field whose tag is the key, compared
    without regard to the case of ASCII letters, takes the value; a key
    that is no field's tag is passed over. *)
Definition decodeMember (key : string) (v : json) (r : ServiceRegistration)
  : ServiceRegistration + error :=
  let tag := ToUpper key in
  if String.eqb tag "NAME" then assign setName (intoString tag v (Name r)) r
  else if String.eqb tag "EXTERNAL_IP" then assign setExternalIP (intoString tag v (ExternalIP r)) r
  else if String.eqb tag "EXTERNAL_PORT" then assign setExternalPort (intoString tag v (ExternalPort r)) r
  else if String.eqb tag "INTERNAL_IP" then assign setInternalIP (intoString tag v (InternalIP r)) r
  else if String.eqb tag "INTERNAL_PORT" then assign setInternalPort (intoString tag v (InternalPort r)) r
  else if String.eqb tag "CONTAINER_ID" then assign setContainerID (intoString tag v (ContainerID r)) r
  else if String.eqb tag "CONTAINER_NAME" then assign setContainerName (intoString tag v (ContainerName r)) r
  else if String.eqb tag "IMAGE" then assign setImage (intoString tag v (Image r)) r
  else if String.eqb tag "IMAGE_ID" then assign setImageId (intoString tag v (ImageId r)) r
  else if String.eqb tag "STARTED_AT" then assign setStartedAt (intoTime tag v (StartedAt r)) r
  else if String.eqb tag "VIRTUAL_HOSTS" then assign setVirtualHosts (intoStrings tag v) r
  else if String.eqb tag "PORT" then assign setPort (intoString tag v (Port r)) r
  else if String.eqb tag "ERROR_PAGES" then assign setErrorPages (intoMap tag v (ErrorPages r)) r
  else inl r.

Fixpoint decodeMembers (members : list (string * json)) (r : ServiceRegistration)
  : ServiceRegistration + error :=
  match members with
  | [] => inl r
  | (k, v) :: rest =>
      match decodeMember k v r with
      | inl r1 => decodeMembers rest r1
      | inr e => inr e
      end
  end.

(** [json.Unmarshal] into a registration: the struct it leaves, or the
    error. *)
Definition Unmarshal (data : string) (r : ServiceRegistration) : ServiceRegistration + error :=
  match jsonParse data with
  | None => inr (ErrSyntax data)
  | Some JNull => inl r
  | Some (JObject members) => decodeMembers members r
  | Some _ => inr (ErrUnmarshalType "ServiceRegistration")
  end.

End json_form.

(** *** Registering a container *)

(** [fmt.Sscanf(vhostCode, "VIRTUAL_HOST_%d", &code)] (external to the
    repository): whether it reads a number from the name without an
    error. *)
Class Sscanf := {
  isVhostCode : string -> bool
}.

(** The loop of newServiceRegistration over the ports: the host port of
    the first binding and the port number of the first port that has a
    binding, empty strings when no port has one. *)
Fixpoint firstBound (ports : list (string * list Docker.PortBinding)) : string * string :=
  match ports with
  | [] => ("", "")
  | (k, v) :: rest =>
      match v with
      | binding :: _ => (Docker.HostPort binding, Docker.PortOf k)
      | [] => firstBound rest
      end
  end.

Definition newServiceRegistration (container : Docker.Container) (hostIP : string)
  : ServiceRegistration :=
  let '(externalPort, internalPort) :=
    firstBound (Docker.Ports (Docker.ContainerNetwork container)) in
  let serviceRegistration :=
    setContainerName (Docker.Name container)
      (setContainerID (Docker.ID container)
         (setStartedAt (Docker.Created container)
            (setImage (Docker.Image (Docker.ContainerConfig container)) zeroRegistration))) in
  if negb (String.eqb externalPort "") && negb (String.eqb internalPort "") then
    setInternalPort internalPort
      (setExternalPort externalPort
         (setInternalIP (Docker.IPAddress (Docker.ContainerNetwork container))
            (setExternalIP hostIP serviceRegistration)))
  else serviceRegistration.

(** The loop of EnvFor: an item without [=] makes the slice [item[0:-1]],
    which panics. *)
Fixpoint EnvFor_loop (items : list string) (env : gmap string string)
  : outcome (gmap string string) :=
  match items with
  | [] => Returned env
  | item :: rest =>
      match Index item "="%char with
      | None => Panicked "slice bounds out of range"
      | Some sep => EnvFor_loop rest (<[take sep item := drop (S sep) item]> env)
      end
  end.

Definition EnvFor (container : Docker.Container) : outcome (gmap string string) :=
  EnvFor_loop (Docker.Env (Docker.ContainerConfig container)) ∅.

(** Reading Go's [map[string]string]: a missing key reads as the empty
    string. *)
Definition envOf (environment : gmap string string) (k : string) : string :=
  default "" (environment !! k).

(** A warning written to the log. *)
Inductive warning :=
| WarnLocation (key : string) (err : error)
| WarnUnmarshal (key : string) (err : error).

Section registration_go.
Context {B : Type} `{!RegistryBackend B} `{!JSONText} `{!Sscanf}.

(** RegisterService.  [TTL] is the registry's lease time, [now] what
    [time.Now().UTC()] reads. *)
Definition RegisterService (b : B) (TTL : Z) (now : Time)
    (env pool hostIP : string) (container : Docker.Container)
  : outcome ((option ServiceRegistration * option error) * B) :=
  obind (EnvFor container) (fun environment =>
  let name := envOf environment "GALAXY_APP" in
  obind (slice_to (Docker.ID container) 12) (fun short =>
  if String.eqb name "" then
    Returned ((None, Some (ErrMsg ("GALAXY_APP not set on container " +:+ short))), b)
  else
  let registrationPath := PathJoin [env; pool; "hosts"; hostIP; name; short] in
  let serviceRegistration := newServiceRegistration container hostIP in
  let serviceRegistration := setName name serviceRegistration in
  let serviceRegistration :=
    setImageId (Docker.Image (Docker.ContainerConfig container)) serviceRegistration in
  let vhosts := envOf environment "VIRTUAL_HOST" in
  let serviceRegistration :=
    if notBlank vhosts
    then setVirtualHosts (Some (Split vhosts ","%char)) serviceRegistration
    else serviceRegistration in
  let errorPages := filter (fun kv => Is_true (isVhostCode kv.1)) environment in
  let serviceRegistration :=
    if bool_decide (errorPages = ∅) then serviceRegistration
    else setErrorPages (Some errorPages) serviceRegistration in
  let serviceRegistration := setPort (envOf environment "GALAXY_PORT") serviceRegistration in
  let '(jsonReg, err) := Marshal serviceRegistration in
  match err with
  | Some e => Returned ((None, Some e), b)
  | None =>
      let '((_, err), b1) := Set_ b registrationPath "location" jsonReg in
      match err with
      | Some e => Returned ((None, Some e), b1)
      | None =>
          let '((_, err), b2) := Expire b1 registrationPath TTL in
          match err with
          | Some e => Returned ((None, Some e), b2)
          | None =>
              let expires := now + wrap64 (wrap64 TTL * 10 ^ 9) in
              Returned ((Some (setExpires expires serviceRegistration), None), b2)
          end
      end
  end)).

(** GetServiceRegistration; [now] is what [time.Now().UTC()] reads. *)
Definition GetServiceRegistration (b : B) (now : Time)
    (env pool hostIP : string) (container : Docker.Container)
  : outcome (option ServiceRegistration * option error) :=
  obind (EnvFor container) (fun environment =>
  let name := envOf environment "GALAXY_APP" in
  obind (slice_to (Docker.ID container) 12) (fun short =>
  if String.eqb name "" then
    Returned (None, Some (ErrMsg ("GALAXY_APP not set on container " +:+ short)))
  else
  let regPath := PathJoin [env; pool; "hosts"; hostIP; name; short] in
  let existingRegistration := setPath regPath zeroRegistration in
  let '(location, err) := Get b regPath "location" in
  match err with
  | Some e => Returned (None, Some e)
  | None =>
      if String.eqb location "" then Returned (None, None) else
      match Unmarshal location existingRegistration with
      | inr e => Returned (None, Some e)
      | inl existingRegistration =>
          let '(expires, err) := Ttl b regPath in
          match err with
          | Some e => Returned (None, Some e)
          | None =>
              Returned
                (Some (setExpires (now + wrap64 (expires * 10 ^ 9)) existingRegistration),
                 None)
          end
      end
  end)).

(** The loop of ListRegistrations over the keys found: the list built and
    the warnings logged.  A key whose location cannot be read, or whose
    text cannot be decoded, is logged and passed over. *)
Fixpoint ListRegistrations_loop (b : B) (keys : list string)
    (regList : list ServiceRegistration) (logged : list warning)
  : list ServiceRegistration * list warning :=
  match keys with
  | [] => (regList, logged)
  | key :: rest =>
      let '(val, err) := Get b key "location" in
      match err with
      | Some e => ListRegistrations_loop b rest regList (logged ++ [WarnLocation key e])
      | None =>
          match Unmarshal val (setName (Base key) zeroRegistration) with
          | inr e => ListRegistrations_loop b rest regList (logged ++ [WarnUnmarshal key e])
          | inl svcReg => ListRegistrations_loop b rest (regList ++ [setPath key svcReg]) logged
          end
      end
  end.

Definition ListRegistrations (b : B) (env : string)
  : (list ServiceRegistration * option error) * list warning :=
  let '(keys, err) := Keys b (PathJoin [env; "*"; "hosts"; "*"; "*"; "*"]) in
  match err with
  | Some e => (([], Some e), [])
  | None =>
      let '(regList, logged) := ListRegistrations_loop b keys [] [] in
      ((regList, None), logged)
  end.

(** UnRegisterService; [now] is what [time.Now().UTC()] reads in
    GetServiceRegistration. *)
Definition UnRegisterService (b : B) (now : Time)
    (env pool hostIP : string) (container : Docker.Container)
  : outcome ((option ServiceRegistration * option error) * B) :=
  obind (EnvFor container) (fun environment =>
  let name := envOf environment "GALAXY_APP" in
  obind (slice_to (Docker.ID container) 12) (fun short =>
  if String.eqb name "" then
    Returned ((None, Some (ErrMsg ("GALAXY_APP not set on container " +:+ short))), b)
  else
  let registrationPath := PathJoin [env; pool; "hosts"; hostIP; name; short] in
  obind (GetServiceRegistration b now env pool hostIP container) (fun '(registration, err) =>
  match err, registration with
  | Some e, _ => Returned ((registration, Some e), b)
  | None, None => Returned ((None, None), b)
  | None, Some reg =>
      if negb (String.eqb (ContainerID reg) (Docker.ID container))
      then Returned ((None, None), b)
      else
        let '((_, err), b1) := Delete b registrationPath in
        Returned ((Some reg, err), b1)
  end))).

Definition IsRegistered (b : B) (now : Time)
    (env pool hostIP : string) (container : Docker.Container)
  : outcome (bool * option error) :=
  obind (GetServiceRegistration b now env pool hostIP container) (fun '(reg, err) =>
  Returned (negb (isNil reg), err)).

End registration_go.

End Registration.

(** ** The runtime (runtime/runtime.go) *)

Module Runtime.
Import Registry.

(** [utils.SplitDockerImage], whose code is not among the sources: the
    registry, the repository and the tag of an image name. *)
Class Utils := {
  SplitDockerImage : string -> string * string * string
}.

(** The stored credentials ([auth.ConfigFile]), by registry. *)
Definition ConfigFile := gmap string Docker.AuthConfiguration.

Definition noAuth : Docker.AuthConfiguration :=
  {| Docker.Username := ""; Docker.Password := ""; Docker.Email := "" |}.

(** [ResolveAuthConfig]: the credentials stored for the registry, empty
    ones when there are none. *)
Definition ResolveAuthConfig (authConfig : ConfigFile) (registry : string)
  : Docker.AuthConfiguration :=
  default noAuth (authConfig !! registry).

(** A ServiceRuntime, with what its calls reach: the engine behind the
    docker client, the backend behind its registry, the package's
    [blacklistedContainerId], and [dockercfg], the credentials file of
    the current user as [auth.LoadConfig] reads it, [None] when the user
    or the file cannot be read. *)
Record ServiceRuntime (B : Type) := {
  engine : Docker.Engine;
  backend : B;
  authConfig : option ConfigFile;
  shuttleHost : string;
  dockercfg : option ConfigFile;
  blacklistedContainerId : gmap string bool
}.
Arguments engine {B} s.
Arguments backend {B} s.
Arguments authConfig {B} s.
Arguments shuttleHost {B} s.
Arguments dockercfg {B} s.
Arguments blacklistedContainerId {B} s.

Definition withEngine {B} (s : ServiceRuntime B) (e : Docker.Engine) : ServiceRuntime B :=
  {| engine := e; backend := backend s; authConfig := authConfig s;
     shuttleHost := shuttleHost s; dockercfg := dockercfg s;
     blacklistedContainerId := blacklistedContainerId s |}.

(** [blacklistedContainerId[id] = true]. *)
Definition blacklist {B} (id : string) (s : ServiceRuntime B) : ServiceRuntime B :=
  {| engine := engine s; backend := backend s; authConfig := authConfig s;
     shuttleHost := shuttleHost s; dockercfg := dockercfg s;
     blacklistedContainerId := <[id := true]> (blacklistedContainerId s) |}.

(** [_, ok := blacklistedContainerId[id]]. *)
Definition blacklisted {B} (s : ServiceRuntime B) (id : string) : bool :=
  bool_decide (is_Some (blacklistedContainerId s !! id)).

Section runtime_go.
Context {B : Type} `{!RegistryBackend B} `{!ConfigStore B} `{!ContainerNaming} `{!Utils}.

(** The pull options and the credentials that PullImage prepares; reading
    the credentials file panics when it cannot be read. *)
Definition pullRequest (s : ServiceRuntime B) (version : string)
  : outcome (Docker.PullImageOptions * Docker.AuthConfiguration) :=
  let '(registry, repository, _) := SplitDockerImage version in
  if negb (String.eqb registry "") && isNil (authConfig s) then
    match dockercfg s with
    | None => Panicked "cannot read the stored credentials"
    | Some authConfig =>
        Returned
          ({| Docker.Repository := registry +:+ "/" +:+ repository;
              Docker.Registry := registry |},
           ResolveAuthConfig authConfig registry)
    end
  else Returned ({| Docker.Repository := repository; Docker.Registry := "" |}, noAuth).

Definition PullImage (s : ServiceRuntime B) (version : string)
  : outcome ((option Docker.LocalImage * option error) * ServiceRuntime B) :=
  let '(image, err) := Docker.InspectImage (engine s) version in
  match err with
  | Some e => Returned ((None, Some e), s)
  | None =>
      match image with
      | Some img => Returned ((Some img, None), s)
      | None =>
          obind (pullRequest s version) (fun '(pullOpts, dockerAuth) =>
          let '(err, e1) := Docker.PullImage (engine s) pullOpts dockerAuth in
          match err with
          | Some e => Returned ((None, Some e), withEngine s e1)
          | None => Returned (Docker.InspectImage e1 version, withEngine s e1)
          end)
      end
  end.

(** The loop that ends Start: the container is inspected [i] more times,
    and found not running, or not found at all, it ends the call. *)
Fixpoint Start_poll (e : Docker.Engine) (id : string) (i : nat)
    (last : option Docker.Container * option error)
  : outcome (option Docker.Container * option error) :=
  match i with
  | O => Returned last
  | S i' =>
      let '(startedContainer, err) := Docker.InspectContainer e id in
      match startedContainer with
      | None => Panicked "nil pointer dereference"
      | Some c =>
          if negb (Docker.Running (Docker.ContainerState c))
          then Returned (None, Some (ErrMsg "Container stopped unexpectedly"))
          else Start_poll e id i' (startedContainer, err)
      end
  end.

(** The environment that Start gives the container: the configuration's
    variables, then the address of every port of every application. *)
Definition envVarsOf (shuttle : string) (serviceConfig : ServiceConfig)
    (serviceConfigs : list ServiceConfig) : list string :=
  map (fun kv => ToUpper kv.1 +:+ "=" +:+ kv.2) (Env serviceConfig) ++
  flat_map
    (fun config =>
       map (fun port =>
              ToUpper (Name config) +:+ "_ADDR_" +:+ port +:+ "=" +:+ shuttle +:+ ":" +:+ port)
           (Ports config))
    serviceConfigs.

Definition Start (s : ServiceRuntime B) (serviceConfig : ServiceConfig)
  : outcome ((option Docker.Container * option error) * ServiceRuntime B) :=
  let img := Version serviceConfig in
  obind (PullImage s img) (fun '((_, err), s1) =>
  match err with
  | Some e => Returned ((None, Some e), s1)
  | None =>
  obind (ListApps (backend s1) "") (fun '(serviceConfigs, err) =>
  match err with
  | Some e => Returned ((None, Some e), s1)
  | None =>
  let envVars := envVarsOf (shuttleHost s1) serviceConfig serviceConfigs in
  let containerName := ContainerName serviceConfig in
  let '(container, err) := Docker.InspectContainer (engine s1) containerName in
  if negb (isNil err) && negb (isNoSuchContainer err) then Returned ((None, err), s1) else
  let '((container, err), e2) :=
    match container with
    | Some c => ((Some c, None), engine s1)
    | None =>
        Docker.CreateContainer (engine s1) containerName
          {| Docker.Image := img; Docker.Env := envVars |}
    end in
  let s2 := withEngine s1 e2 in
  match err with
  | Some e => Returned ((None, Some e), s2)
  | None =>
  match container with
  | None => Panicked "nil pointer dereference"
  | Some c =>
  let '(err, e3) := Docker.StartContainer e2 (Docker.ID c) in
  let s3 := withEngine s2 e3 in
  match err with
  | Some e => Returned ((Some c, Some e), s3)
  | None =>
      obind (Start_poll e3 (Docker.ID c) 5 (Docker.InspectContainer e3 (Docker.ID c)))
        (fun result => Returned (result, s3))
  end end end end) end).

(** StartIfNotRunning.  The first test of the code, a "no such container"
    error or a nil container, is taken on the container first. *)
Definition StartIfNotRunning (s : ServiceRuntime B) (serviceConfig : ServiceConfig)
  : outcome ((bool * option Docker.Container * option error) * ServiceRuntime B) :=
  let '(container, err) := Docker.InspectContainer (engine s) (ContainerName serviceConfig) in
  let start :=
    obind (Start s serviceConfig) (fun '((container, err), s1) =>
    Returned ((true, container, err), s1)) in
  match container with
  | None => start
  | Some c =>
      if negb (isNil err) && isNoSuchContainer err then start
      else if negb (isNil err) then Returned ((false, None, err), s)
      else
        let containerName := TrimPrefix (Docker.Name c) "/" in
        if negb (IsContainerVersion serviceConfig containerName) &&
           String.eqb (ContainerName serviceConfig) (Docker.Name c)
        then Returned ((false, Some c, None), s)
        else if negb (String.eqb containerName (ContainerName serviceConfig)) then start
        else Returned ((false, Some c, None), s)
  end.

(** The body of the inner loop of StopAllButLatest, for one listed
    container.  [now] is what [time.Now().Unix()] reads; the stop that
    does not return within the 20 seconds is the engine's [StopHangs]. *)
Definition reap (s : ServiceRuntime B) (serviceConfig : ServiceConfig)
    (registry repository : string) (latestContainer : option Docker.Container)
    (now stopCutoff : Z) (container : Docker.APIContainers)
  : outcome (ServiceRuntime B) :=
  match Docker.apiNames container with
  | [] => Returned s
  | name :: _ =>
  if negb (IsContainerVersion serviceConfig (TrimPrefix name "/")) then Returned s else
  let '(containerReg, containerRepo, _) := SplitDockerImage (Docker.apiImage container) in
  if negb (String.eqb containerReg registry && String.eqb containerRepo repository)
  then Returned s else
  match latestContainer with
  | None => Panicked "nil pointer dereference"
  | Some latest =>
  if negb (negb (String.eqb (Docker.apiID container) (Docker.ID latest)) &&
           (Docker.apiCreated container <? wrap64 (now - stopCutoff)))
  then Returned s else
  if blacklisted s (Docker.apiID container) then Returned s else
  obind (slice_to (Docker.apiID container) 12) (fun _ =>
  let '(result, e1) := Docker.StopContainer (engine s) (Docker.apiID container) 10 in
  match result with
  | Docker.StopReturns (Some _) => Returned (withEngine s e1)
  | Docker.StopHangs => Returned (blacklist (Docker.apiID container) (withEngine s e1))
  | Docker.StopReturns None =>
      let '(_, e2) := Docker.RemoveContainer e1 (Docker.apiID container) true in
      Returned (withEngine s e2)
  end)
  end end.

(** The inner loop, over the containers listed. *)
Fixpoint reapAll (s : ServiceRuntime B) (serviceConfig : ServiceConfig)
    (registry repository : string) (latestContainer : option Docker.Container)
    (now stopCutoff : Z) (containers : list Docker.APIContainers)
  : outcome (ServiceRuntime B) :=
  match containers with
  | [] => Returned s
  | container :: rest =>
      obind (reap s serviceConfig registry repository latestContainer now stopCutoff container)
        (fun s1 => reapAll s1 serviceConfig registry repository latestContainer now stopCutoff rest)
  end.

(** The outer loop, over the configurations. *)
Fixpoint StopAllButLatest_loop (s : ServiceRuntime B) (serviceConfigs : list ServiceConfig)
    (containers : list Docker.APIContainers) (now stopCutoff : Z)
  : outcome (ServiceRuntime B) :=
  match serviceConfigs with
  | [] => Returned s
  | serviceConfig :: rest =>
      let '(registry, repository, _) := SplitDockerImage (Version serviceConfig) in
      let latestName := ContainerName serviceConfig in
      let '(latestContainer, err) := Docker.InspectContainer (engine s) latestName in
      if negb (isNil err) && isNoSuchContainer err
      then StopAllButLatest_loop s rest containers now stopCutoff
      else
        obind (reapAll s serviceConfig registry repository latestContainer now stopCutoff containers)
          (fun s1 => StopAllButLatest_loop s1 rest containers now stopCutoff)
  end.

Definition StopAllButLatest (s : ServiceRuntime B) (now stopCutoff : Z)
  : outcome (option error * ServiceRuntime B) :=
  obind (ListApps (backend s) "") (fun '(serviceConfigs, err) =>
  match err with
  | Some e => Returned (Some e, s)
  | None =>
      let '(containers, err) := Docker.ListContainers (engine s) false in
      match err with
      | Some e => Returned (Some e, s)
      | None =>
          obind (StopAllButLatest_loop s serviceConfigs containers now stopCutoff)
            (fun s1 => Returned (None, s1))
      end
  end).

End runtime_go.

(** [exec.Command(name, args...)], started and waited for (external to
    the repository): the error of [Start] and the error of [Wait]. *)
Class Shell := {
  Exec : string -> list string -> option error * option error
}.

Section interactive.
Context {B : Type} `{!RegistryBackend B} `{!ConfigStore B} `{!ContainerNaming} `{!Utils}
  `{!Shell}.




End interactive.

End Runtime.

(** ** The commander (commander/runtime.go) *)

Module Commander.

(** The application configuration of the [config] package, which is not
    among the sources, by the methods that the commander calls on it.  A
    method that changes the configuration returns the changed one. *)
Class AppConfig (C : Type) := {
  AppName : C -> string;
  RuntimePools : C -> list string;
  GetProcesses : C -> string -> Z;
  SetProcesses : C -> string -> Z -> C;
  GetMemory : C -> string -> string;
  SetMemory : C -> string -> string -> C;
  AppEnv : C -> gmap string string;
  AppEnvSet : C -> string -> string -> C
}.

(** The configuration store of the [config] package, by the calls that
    the commander makes on it. *)
Class Store (S C : Type) := {
  StoreListEnvs : S -> list string * option error;
  StoreListApps : S -> string -> list C * option error;
  GetApp : S -> string -> string -> option C * option error;
  UpdateApp : S -> C -> string -> (bool * option error) * S
}.

(** [columnize.SimpleFormat], external to the repository. *)
Class Columnize := {
  SimpleFormat : list string -> string
}.

Record RuntimeOptions := {
  Ps : Z;
  Memory : string;
  CPUShares : string;
  VirtualHost : string;
  Port : string
}.

Section commander_go.
Context {S C : Type} `{!AppConfig C} `{!Store S C} `{!Columnize}.

(** Reading Go's [map[string]string]. *)
Definition envAt (c : C) (k : string) : string := default "" (AppEnv c !! k).

(** The loop of RuntimeList over the pools of one application. *)
Fixpoint RuntimeList_pools (env pool : string) (appCfg : C) (pools : list string)
    (columns : list string) : list string :=
  match pools with
  | [] => columns
  | p :: rest =>
      if negb (String.eqb pool "") && negb (String.eqb p pool)
      then RuntimeList_pools env pool appCfg rest columns
      else
        let name := AppName appCfg in
        let ps := GetProcesses appCfg p in
        let mem := GetMemory appCfg p in
        RuntimeList_pools env pool appCfg rest
          (columns ++
           [Join [env; name; p; pretty (wrap64 ps); mem;
                  envAt appCfg "VIRTUAL_HOST"; envAt appCfg "GALAXY_PORT"] " | "])
  end.

(** The loop over the applications of one environment. *)
Fixpoint RuntimeList_apps (app env pool : string) (appList : list C)
    (columns : list string) : list string :=
  match appList with
  | [] => columns
  | appCfg :: rest =>
      if negb (String.eqb app "") && negb (String.eqb (AppName appCfg) app)
      then RuntimeList_apps app env pool rest columns
      else
        RuntimeList_apps app env pool rest
          (RuntimeList_pools env pool appCfg (RuntimePools appCfg) columns)
  end.

(** The loop over the environments: the columns, or the error that ends
    the call. *)
Fixpoint RuntimeList_envs (configStore : S) (app pool : string) (envs : list string)
    (columns : list string) : list string + error :=
  match envs with
  | [] => inl columns
  | env :: rest =>
      let '(appList, err) := StoreListApps configStore env in
      match err with
      | Some e => inr e
      | None =>
          RuntimeList_envs configStore app pool rest
            (RuntimeList_apps app env pool appList columns)
      end
  end.

(** RuntimeList: the error returned, and the lines written to the log. *)
Definition RuntimeList (configStore : S) (app env pool : string)
  : option error * list string :=
  let '(envs, err) :=
    if String.eqb env "" then StoreListEnvs configStore else ([env], None) in
  match err with
  | Some e => (Some e, [])
  | None =>
      let columns := ["ENV | NAME | POOL | PS | MEM | VHOSTS | PORT"] in
      match RuntimeList_envs configStore app pool envs columns with
      | inr e => (Some e, [])
      | inl columns => (None, [SimpleFormat columns])
      end
  end.

(** RuntimeSet.  A nil configuration that comes without an error is
    dereferenced by the methods called on it. *)
Definition RuntimeSet (configStore : S) (app env pool : string) (options : RuntimeOptions)
  : outcome ((bool * option error) * S) :=
  let '(cfg, err) := GetApp configStore app env in
  match err with
  | Some e => Returned ((false, Some e), configStore)
  | None =>
  match cfg with
  | None => Panicked "nil pointer dereference"
  | Some cfg =>
      let cfg :=
        if negb (Ps options =? 0) && negb (Ps options =? GetProcesses cfg pool)
        then SetProcesses cfg pool (Ps options) else cfg in
      let cfg :=
        if negb (String.eqb (Memory options) "") &&
           negb (String.eqb (Memory options) (GetMemory cfg pool))
        then SetMemory cfg pool (Memory options) else cfg in
      let vhosts := Split (envAt cfg "VIRTUAL_HOST") ","%char in
      let cfg :=
        if negb (String.eqb (VirtualHost options) "") &&
           negb (StringInSlice (VirtualHost options) vhosts)
        then AppEnvSet cfg "VIRTUAL_HOST" (Join (vhosts ++ [VirtualHost options]) ",")
        else cfg in
      let cfg :=
        if negb (String.eqb (Port options) "")
        then AppEnvSet cfg "GALAXY_PORT" (Port options) else cfg in
      Returned (UpdateApp configStore cfg env)
  end end.

End commander_go.

End Commander.

(** ** Instances of the interfaces *)

Module Sample.
Import Json.

(** *** A text layer *)

Definition quote : ascii := ascii_of_nat 34.
Definition backslash : ascii := ascii_of_nat 92.

Fixpoint escape (s : string) : string :=
  match s with
  | EmptyString => EmptyString
  | String c s' =>
      if Ascii.eqb c quote || Ascii.eqb c backslash
      then String backslash (String c (escape s'))
      else String c (escape s')
  end.

Definition quoted (s : string) : string :=
  String quote (escape s +:+ String quote EmptyString).

(** The text of a document: strings between quotes, with quotes and
    backslashes escaped, no white space. *)
Fixpoint render (j : json) : string :=
  match j with
  | JNull => "null"
  | JBool true => "true"
  | JBool false => "false"
  | JNumber n => pretty n
  | JString s => quoted s
  | JArray items => "[" +:+ Join (map render items) "," +:+ "]"
  | JObject members =>
      "{" +:+ Join (map (fun '(k, v) => quoted k +:+ ":" +:+ render v) members) "," +:+ "}"
  end.

Fixpoint skip (s : string) : string :=
  match s with
  | String c s' => if isSpace c then skip s' else s
  | EmptyString => s
  end.

(** The string that ends at the next quote, and the text after it. *)
Fixpoint readString (s : string) : option (string * string) :=
  match s with
  | EmptyString => None
  | String c s' =>
      if Ascii.eqb c quote then Some (EmptyString, s')
      else if Ascii.eqb c backslash then
        match s' with
        | String d s'' =>
            match readString s'' with
            | Some (str, rest) => Some (String d str, rest)
            | None => None
            end
        | EmptyString => None
        end
      else
        match readString s' with
        | Some (str, rest) => Some (String c str, rest)
        | None => None
        end
  end.

Definition digitOf (c : ascii) : option Z :=
  let n := nat_of_ascii c in
  if ((48 <=? n) && (n <=? 57))%nat then Some (Z.of_nat (n - 48)) else None.

(** The digits at the head of the text, read after [acc], and the rest. *)
Fixpoint readDigits (s : string) (acc : Z) : Z * string :=
  match s with
  | String c s' =>
      match digitOf c with
      | Some d => readDigits s' (10 * acc + d)
      | None => (acc, s)
      end
  | EmptyString => (acc, s)
  end.

Definition startsWithDigit (s : string) : bool :=
  match s with
  | String c _ => bool_decide (is_Some (digitOf c))
  | EmptyString => false
  end.

Definition readNumber (s : string) : option (Z * string) :=
  match s with
  | String c s' =>
      if Ascii.eqb c "-"%char then
        if startsWithDigit s' then let '(n, rest) := readDigits s' 0 in Some (- n, rest)
        else None
      else if startsWithDigit s then Some (readDigits s 0)
      else None
  | EmptyString => None
  end.

(** A recursive-descent reader; [fuel] bounds the depth of the calls. *)
Fixpoint readValue (fuel : nat) (s : string) : option (json * string) :=
  match fuel with
  | O => None
  | S fuel' =>
      match skip s with
      | EmptyString => None
      | String c rest =>
          if Ascii.eqb c quote then
            match readString rest with
            | Some (str, rest') => Some (JString str, rest')
            | None => None
            end
          else if Ascii.eqb c "["%char then
            match skip rest with
            | String "]"%char rest' => Some (JArray [], rest')
            | _ =>
                match readItems fuel' rest with
                | Some (items, rest') => Some (JArray items, rest')
                | None => None
                end
            end
          else if Ascii.eqb c "{"%char then
            match skip rest with
            | String "}"%char rest' => Some (JObject [], rest')
            | _ =>
                match readMembers fuel' rest with
                | Some (members, rest') => Some (JObject members, rest')
                | None => None
                end
            end
          else if HasPrefix (skip s) "null" then Some (JNull, drop 4 (skip s))
          else if HasPrefix (skip s) "true" then Some (JBool true, drop 4 (skip s))
          else if HasPrefix (skip s) "false" then Some (JBool false, drop 5 (skip s))
          else
            match readNumber (skip s) with
            | Some (n, rest') => Some (JNumber n, rest')
            | None => None
            end
      end
  end
with readItems (fuel : nat) (s : string) : option (list json * string) :=
  match fuel with
  | O => None
  | S fuel' =>
      match readValue fuel' s with
      | None => None
      | Some (v, rest) =>
          match skip rest with
          | String c rest' =>
              if Ascii.eqb c "]"%char then Some ([v], rest')
              else if Ascii.eqb c ","%char then
                match readItems fuel' rest' with
                | Some (items, rest'') => Some (v :: items, rest'')
                | None => None
                end
              else None
          | EmptyString => None
          end
      end
  end
with readMembers (fuel : nat) (s : string) : option (list (string * json) * string) :=
  match fuel with
  | O => None
  | S fuel' =>
      match skip s with
      | String q rest =>
          if negb (Ascii.eqb q quote) then None else
          match readString rest with
          | None => None
          | Some (k, rest1) =>
              match skip rest1 with
              | String ":"%char rest2 =>
                  match readValue fuel' rest2 with
                  | None => None
                  | Some (v, rest3) =>
                      match skip rest3 with
                      | String c rest4 =>
                          if Ascii.eqb c "}"%char then Some ([(k, v)], rest4)
                          else if Ascii.eqb c ","%char then
                            match readMembers fuel' rest4 with
                            | Some (members, rest5) => Some ((k, v) :: members, rest5)
                            | None => None
                            end
                          else None
                      | EmptyString => None
                      end
                  end
              | _ => None
              end
          end
      | EmptyString => None
      end
  end.

Definition parse (s : string) : option json :=
  match readValue (2 * S (String.length s)) s with
  | Some (j, rest) => if String.eqb (skip rest) "" then Some j else None
  | None => None
  end.

Definition parseInteger (s : string) : option Z :=
  match readNumber s with
  | Some (n, EmptyString) => Some n
  | _ => None
  end.

(** A text layer: the reader and the writer above, a time written as its
    count of nanoseconds, and no text for a time outside the years 0 to
    9999. *)
#[export] Instance text : JSONText := {
  jsonText := render;
  jsonParse := parse;
  timeText t :=
    if (-62167219200 * 10 ^ 9 <=? t) && (t <? 253402300800 * 10 ^ 9)
    then Some (pretty t) else None;
  timeParse := parseInteger
}.

(** *** The scan of an error page's variable *)

(** The names [VIRTUAL_HOST_] followed by a digit, for fmt.Sscanf. *)
#[export] Instance scan : Registration.Sscanf := {
  Registration.isVhostCode s :=
    HasPrefix s "VIRTUAL_HOST_" && startsWithDigit (drop 13 s)
}.

(** *** The configuration store *)

Import Registry.

Definition configDocument (c : ServiceConfig) : json :=
  JObject
    [("name", JString (Name c));
     ("version", JString (version c));
     ("id", JNumber (id c));
     ("environment", JObject (map (fun '(k, v) => (k, JString v)) (environment c)));
     ("ports", JArray (map JString (ports c)))].

Definition member (k : string) (j : json) : option json :=
  match j with
  | JObject members => snd <$> List.find (fun kv => String.eqb kv.1 k) members
  | _ => None
  end.

Definition stringOf (j : json) : option string :=
  match j with JString s => Some s | _ => None end.

Definition configOf (j : json) : option ServiceConfig :=
  n ← member "name" j ≫= stringOf;
  v ← member "version" j ≫= stringOf;
  i ← member "id" j ≫= (fun x => match x with JNumber i => Some i | _ => None end);
  e ← member "environment" j ≫=
        (fun x => match x with
                  | JObject members =>
                      mapM (fun '(k, s) => pair k <$> stringOf s) members
                  | _ => None
                  end);
  p ← member "ports" j ≫=
        (fun x => match x with JArray items => mapM stringOf items | _ => None end);
  Some {| Name := n; version := v; id := i; environment := e; ports := p |}.

Section config_store.
Context `{!JSONText}.

(** Modelled from the spec: SetServiceConfig (the configuration file is
    not among the sources).  Section 3: the key [env/appName/environment]
    holds the serialized ServiceConfig. *)
Definition storeConfig (b : MemStore) (svcCfg : ServiceConfig) (env : string)
  : (bool * option error) * MemStore :=
  let '((_, err), b1) :=
    Set_ b (PathJoin [env; Name svcCfg; "environment"]) "config"
         (jsonText (configDocument svcCfg)) in
  match err with
  | Some e => ((false, Some e), b1)
  | None => ((true, None), b1)
  end.

(** Modelled from the spec: GetServiceConfig.  The configuration read from
    the key of the application; nil, without an error, when the key holds
    none; the error of the read or of the decoding otherwise. *)
Definition loadConfig (b : MemStore) (app env : string)
  : option ServiceConfig * option error :=
  let '(text, err) := Get b (PathJoin [env; app; "environment"]) "config" in
  match err with
  | Some e => (None, Some e)
  | None =>
      if String.eqb text "" then (None, None) else
      match jsonParse text ≫= configOf with
      | Some cfg => (Some cfg, None)
      | None => (None, Some (ErrSyntax text))
      end
  end.

(** Modelled from the spec: NotifyRestart.  Section 4.1: the fixed payload
    is published on the fixed channel. *)
Definition publishRestart (b : MemStore) (app env : string) : option error * MemStore :=
  let '((_, err), b1) := Notify b "galaxy" "config" in (err, b1).

#[export] Instance store : ConfigStore MemStore := {
  GetServiceConfig := loadConfig;
  SetServiceConfig := storeConfig;
  NotifyRestart := publishRestart
}.

End config_store.

(** *** Container names and image names *)

(** Modelled from the spec: ContainerName and IsContainerVersion.  Section
    4.2: the name of a container embeds the version in a fixed pattern,
    here the application's name, an underscore and the version
    identifier; a name is of the configuration when its part before the
    underscore is the application's name. *)
#[export] Instance naming : ContainerNaming := {
  ContainerName c := Name c +:+ "_" +:+ pretty (ID c);
  IsContainerVersion c name :=
    match Split name "_"%char with
    | [app; _] => String.eqb app (Name c)
    | _ => false
    end
}.

(** Modelled from the spec: SplitDockerImage.  The registry is what stands
    before the first slash, the tag what stands after the colon. *)
Definition splitImage (img : string) : string * string * string :=
  let '(registry, rest) :=
    match Index img slash with
    | Some i => (take i img, drop (S i) img)
    | None => ("", img)
    end in
  match Index rest ":"%char with
  | Some j => (registry, take j rest, drop (S j) rest)
  | None => (registry, rest, "")
  end.

#[export] Instance utils : Runtime.Utils := {
  Runtime.SplitDockerImage := splitImage
}.

(** Modelled from the spec: DeleteServiceConfig.  The key of the
    application's configuration is deleted. *)
Definition removeConfig (b : MemStore) (svcCfg : ServiceConfig) (env : string)
  : (bool * option error) * MemStore :=
  let '((removed, err), b1) := Delete b (PathJoin [env; Name svcCfg; "environment"]) in
  match err with
  | Some e => ((false, Some e), b1)
  | None => ((removed =? 1, None), b1)
  end.

#[export] Instance removal : ConfigRemoval MemStore := {
  DeleteServiceConfig := removeConfig
}.

End Sample.

(** ** Names *)

Module Names.

(** Every byte of the string passes the test. *)
Fixpoint every (p : ascii -> bool) (s : string) : bool :=
  match s with
  | EmptyString => true
  | String c s' => p c && every p s'
  end.

(** A path component that path.Join leaves as it is: not empty, not [.]
    or [..], without a slash. *)
Definition component (s : string) : bool :=
  negb (String.eqb s "") && negb (String.eqb s ".") && negb (String.eqb s "..") &&
  every (fun c => negb (Ascii.eqb c slash)) s.

(** A byte that stands for itself in a key pattern. *)
Definition literal (c : ascii) : bool :=
  negb (Ascii.eqb c "*"%char) && negb (Ascii.eqb c "?"%char).

(** A valid name of an application, an environment or a pool: a path
    component without pattern bytes. *)
Definition validName (s : string) : bool :=
  component s && every literal s.

End Names.

(** * The terms of the properties *)

(** What the statements below are written with: what a call leaves
    behind, what it answers for one key, which calls an engine received. *)

Section registry_terms.
Import Registry Notify.

(** The configuration that CreateApp writes. *)
Definition emptyConfig (app env : string) : ServiceConfig :=
  EnvSet "ENV" env (NewServiceConfig app "").

(** UnassignApp for each of the applications, in order. *)
Fixpoint unassignAll {B} `{!RegistryBackend B} `{!ConfigStore B}
    (b : B) (env pool : string) (apps : list string) : B :=
  match apps with
  | [] => b
  | app :: rest => unassignAll (UnassignApp b app env pool).2 env pool rest
  end.

(** The members of a set key, as a set. *)
Definition membersOf (b : MemStore) (key : string) : gset string :=
  match keyspace b !! key with
  | Some (SetOf s) => s
  | _ => ∅
  end.



End registry_terms.

Section registration_terms.
Import Json Registration Registry.
Context {B : Type} `{!RegistryBackend B} `{!ConfigStore B} `{!JSONText}.

(** What the decoding gives for the map of error pages: nil when no member
    was written. *)
Definition decodedPages (pages : option (gmap string string)) : option (gmap string string) :=
  match pages with
  | Some m => if bool_decide (m = ∅) then None else Some m
  | None => None
  end.

(** What decoding into a zero struct gives back of a registration: every
    field but [Expires] and [Path], which are not written, an empty map of
    error pages as the nil map. *)
Definition decoded (r : ServiceRegistration) : ServiceRegistration :=
  setErrorPages (decodedPages (ErrorPages r)) (setPath "" (setExpires Docker.zeroTime r)).

(** No binding: the port is exposed and not published. *)
Definition unbound (kv : string * list Docker.PortBinding) : Prop := kv.2 = [].

(** The address of a registration. *)
Definition addressOf (r : ServiceRegistration) : string * string * string * string :=
  (ExternalIP r, ExternalPort r, InternalIP r, InternalPort r).

(** What ListRegistrations makes of one key: the registration read and
    decoded, or the warning it logs. *)
Definition registrationAt (b : B) (key : string) : ServiceRegistration + warning :=
  let '(val, err) := Get b key "location" in
  match err with
  | Some e => inr (WarnLocation key e)
  | None =>
      match Unmarshal val (setName (Base key) zeroRegistration) with
      | inl svcReg => inl (setPath key svcReg)
      | inr e => inr (WarnUnmarshal key e)
      end
  end.

Definition readable (b : B) (key : string) : option ServiceRegistration :=
  match registrationAt b key with inl r => Some r | inr _ => None end.

Definition unreadable (b : B) (key : string) : option warning :=
  match registrationAt b key with inl _ => None | inr w => Some w end.

(** A key that ListApps takes for an application's: three components, the
    second one not [hosts]. *)
Definition appKey (key : string) : bool :=
  (length (Split key slash) =? 3)%nat && negb (String.eqb (nth 1 (Split key slash) "") "hosts").

Definition appOf (key : string) : string := nth 1 (Split key slash) "".

(** Every application's key of the list has its configuration. *)
Definition allConfigured (b : B) (env : string) (keys : list string) : Prop :=
  forall key, In key keys -> appKey key = true ->
    exists cfg, GetServiceConfig b (appOf key) env = (Some cfg, None).

End registration_terms.

Section engine_terms.
Import Docker.

(** The next id of the engine is the id of none of its containers. *)
Definition freshId (e : Engine) : bool :=
  match idSupply e with
  | id :: _ => forallb (fun c => negb (isID id c)) (containers e)
  | [] => true
  end.

Definition isCreate (c : call) : bool :=
  match c with CreateCall _ _ _ => true | _ => false end.

Definition isPull (c : call) : bool :=
  match c with PullCall _ _ => true | _ => false end.

(** The number of containers that the engine was asked to create. *)
Definition creations (e : Engine) : nat := length (List.filter isCreate (calls e)).

(** The container that CreateContainer makes. *)
Definition fresh (e : Docker.Engine) (id name : string) (config : Docker.Config)
  : Docker.Container :=
  {| Docker.ID := id; Docker.Created := Docker.clock e; Docker.ContainerConfig := config;
     Docker.ContainerState := {| Docker.Running := false |};
     Docker.ContainerNetwork := {| Docker.IPAddress := ""; Docker.Ports := [] |};
     Docker.Name := if String.eqb name "" then "" else "/" +:+ name |}.

(** The call touches the container of the id: it starts, stops or removes
    it. *)
Definition touches (id : string) (c : Docker.call) : bool :=
  match c with
  | Docker.StartCall i | Docker.StopCall i _ | Docker.RemoveCall i _ => String.eqb i id
  | _ => false
  end.

(** A stop of the container of the id does not return. *)
Definition hangs (e : Docker.Engine) (id : string) : Prop :=
  (Docker.StopContainer e id 10).1 = Docker.StopHangs.

(** The call asks to stop or to remove the container of the id. *)
Definition targets (id : string) (c : Docker.call) : bool :=
  match c with
  | Docker.StopCall i _ | Docker.RemoveCall i _ => String.eqb i id
  | _ => false
  end.

End engine_terms.

Section runtime_terms.
Import Registry Runtime.
Context {B : Type} `{!RegistryBackend B} `{!ConfigStore B} `{!ContainerNaming} `{!Utils}.

(** What a pull leaves of a runtime: everything but the local images, and
    the calls received, which only pulls extend. *)
Definition pulled (s s1 : ServiceRuntime B) : Prop :=
  backend s1 = backend s /\
  blacklistedContainerId s1 = blacklistedContainerId s /\
  shuttleHost s1 = shuttleHost s /\
  Docker.reachable (engine s1) = Docker.reachable (engine s) /\
  Docker.containers (engine s1) = Docker.containers (engine s) /\
  Docker.idSupply (engine s1) = Docker.idSupply (engine s) /\
  Docker.crashing (engine s1) = Docker.crashing (engine s) /\
  exists pulls,
    Docker.calls (engine s1) = Docker.calls (engine s) ++ pulls /\
    forallb isPull pulls = true.

(** What the loops of StopAllButLatest may make of a runtime: the
    blacklist only grows, the containers whose stop hangs stay, and the
    calls received are stops and removals of containers that were not
    blacklisted, a removal only of a container whose stop returns, and a
    stop that hangs puts the container on the blacklist. *)
Record reaped (s s' : ServiceRuntime B) : Prop := {
  reaped_reachable : Docker.reachable (engine s') = Docker.reachable (engine s);
  reaped_wedged : Docker.wedged (engine s') = Docker.wedged (engine s);
  reaped_blacklist : forall id, blacklisted s id = true -> blacklisted s' id = true;
  reaped_kept :
    forall c, In c (Docker.containers (engine s)) -> Docker.ID c ∈ Docker.wedged (engine s) ->
      In c (Docker.containers (engine s'));
  reaped_calls :
    exists new,
      Docker.calls (engine s') = Docker.calls (engine s) ++ new /\
      forall call, In call new ->
        match call with
        | Docker.StopCall id _ =>
            blacklisted s id = false /\ (hangs (engine s) id -> blacklisted s' id = true)
        | Docker.RemoveCall id _ =>
            blacklisted s id = false /\ id ∉ Docker.wedged (engine s)
        | _ => False
        end
}.

(** What the process does after a call: anything that leaves the
    blacklist alone (the package variable is written by StopAllButLatest
    only), and further calls of StopAllButLatest that return. *)
Inductive later : ServiceRuntime B -> ServiceRuntime B -> Prop :=
| later_now (s : ServiceRuntime B) : later s s
| later_elsewhere (s s1 s2 : ServiceRuntime B) :
    later s s1 ->
    blacklistedContainerId s2 = blacklistedContainerId s1 ->
    later s s2
| later_call (s s1 s2 : ServiceRuntime B) (now stopCutoff : Z) (err : option error) :
    later s s1 ->
    StopAllButLatest s1 now stopCutoff = Returned (err, s2) ->
    later s s2.

End runtime_terms.

Section notify_terms.
Import Registry Notify.

(** The version identifiers that the changes sent carry for an
    application, in the order sent. *)
Definition versionsOf (name : string) (sent : list ConfigChange) : list Z :=
  omap (fun ch => match ChangedConfig ch with
                  | Some c => if String.eqb (Name c) name then Some (ID c) else None
                  | None => None
                  end) sent.

(** Every identifier of the list differs from the one before it, the
    first one from [before]. *)
Fixpoint alternates (before : Z) (ids : list Z) : Prop :=
  match ids with
  | [] => True
  | x :: rest => x <> before /\ alternates x rest
  end.

(** The last identifier of the list, [before] when there is none. *)
Definition latest (before : Z) (ids : list Z) : Z :=
  fold_left (fun _ x => x) ids before.

(** No two identifiers in a row are the same. *)
Definition stutterFree (ids : list Z) : Prop :=
  match ids with
  | [] => True
  | x :: rest => alternates x rest
  end.

End notify_terms.

Section registry_more_terms.
Import Registry.

(** The first component of a key: the environment of an application's
    key. *)
Definition envOfKey (key : string) : string := nth 0 (Split key slash) "".

(** The configuration that ListApps takes in for a key: that of the
    application of the key, when the key is an application's. *)
Definition configAt {B} `{!RegistryBackend B} `{!ConfigStore B}
    (b : B) (env key : string) : option ServiceConfig :=
  if appKey key then (GetServiceConfig b (appOf key) env).1 else None.

End registry_more_terms.

Section registration_more_terms.
Import Json Registration.

(** An entry of a container's environment: the name, [=], the value. *)
Definition entry (kv : string * string) : string := kv.1 +:+ "=" +:+ kv.2.

(** The name has no [=]. *)
Definition plainName (k : string) : Prop := Index k "="%char = None.

End registration_more_terms.

Section runtime_more_terms.
Import Registry Runtime.
Context {B : Type} `{!RegistryBackend B} `{!ConfigStore B} `{!ContainerNaming} `{!Utils}.

(** The container has this id, or this name. *)
Definition answersTo (x : string) (c : Docker.Container) : Prop :=
  Docker.ID c = x \/ Docker.Name c = "/" +:+ x.

(** A container that StopAllButLatest may stop: it runs and has a name, is
    not on the blacklist, was created before the cutoff, and for one of
    the configurations listed it has the name of a version and the
    registry and repository of the image, while another container answers
    to the name of the configuration's own version. *)
Definition superseded (s : ServiceRuntime B) (now stopCutoff : Z) (c : Docker.Container)
  : Prop :=
  In c (Docker.containers (engine s)) /\
  Docker.Running (Docker.ContainerState c) = true /\
  Docker.Name c <> "" /\
  blacklisted s (Docker.ID c) = false /\
  Docker.Unix (Docker.Created c) < wrap64 (now - stopCutoff) /\
  exists serviceConfigs serviceConfig latest,
    ListApps (backend s) "" = Returned (serviceConfigs, None) /\
    In serviceConfig serviceConfigs /\
    IsContainerVersion serviceConfig (TrimPrefix (Docker.Name c) "/") = true /\
    (SplitDockerImage (Docker.Image (Docker.ContainerConfig c))).1
      = (SplitDockerImage (Version serviceConfig)).1 /\
    In latest (Docker.containers (engine s)) /\
    answersTo (ContainerName serviceConfig) latest /\
    Docker.ID latest <> Docker.ID c.

(** What StopAllButLatest asks the engine about one container: to stop
    it, and then, or not, to remove it. *)
Definition episode (cr : Docker.Container * bool) : list Docker.call :=
  Docker.StopCall (Docker.ID cr.1) 10 ::
  if cr.2 then [Docker.RemoveCall (Docker.ID cr.1) true] else [].

(** What the loops of StopAllButLatest keep of the runtime [s0] they
    started from: the containers are containers that were there, and the
    calls received since are episodes about superseded containers. *)
Record culled (s0 : ServiceRuntime B) (now stopCutoff : Z) (s : ServiceRuntime B) : Prop := {
  culled_backend : backend s = backend s0;
  culled_descends :
    forall c, In c (Docker.containers (engine s)) ->
      exists c0, In c0 (Docker.containers (engine s0)) /\
                 Docker.ID c0 = Docker.ID c /\ Docker.Name c0 = Docker.Name c;
  culled_calls :
    exists episodes,
      Docker.calls (engine s) = Docker.calls (engine s0) ++ flat_map episode episodes /\
      forall c r, In (c, r) episodes -> superseded s0 now stopCutoff c
}.

End runtime_more_terms.

Section start_more_terms.
Import Registry Runtime.


End start_more_terms.

Section commander_terms.
Import Commander.
Context {S C : Type} `{!AppConfig C} `{!Store S C}.

(** A filter that is empty lets everything through. *)
Definition selected (wanted x : string) : bool :=
  String.eqb wanted "" || String.eqb x wanted.

(** The row of RuntimeList for a pool of an application. *)
Definition row (env : string) (appCfg : C) (p : string) : string :=
  Join [env; AppName appCfg; p; pretty (wrap64 (GetProcesses appCfg p)); GetMemory appCfg p;
        envAt appCfg "VIRTUAL_HOST"; envAt appCfg "GALAXY_PORT"] " | ".

(** The rows for the applications of an environment: for every
    application selected, one for each of its pools selected. *)
Definition rowsOf (app env pool : string) (appList : list C) : list string :=
  flat_map
    (fun appCfg =>
       if selected app (AppName appCfg)
       then map (row env appCfg) (List.filter (selected pool) (RuntimePools appCfg))
       else [])
    appList.

End commander_terms.

(** * Scenarios *)

(** The stores, engines and runtimes on which the properties are
    instantiated. *)

(** A backend with the pool [web] of the environment [prod], to which the
    application [api] is assigned. *)
Definition poolStore : MemStore :=
  let b1 := (@Registry.CreatePool _ _ emptyStore "web" "prod").2 in
  let b2 := (@Registry.CreateApp _ _ (@Sample.store Sample.text) b1 "api" "prod").2 in
  (@Registry.AssignApp _ _ (@Sample.store Sample.text) b2 "api" "prod" "web").2.

(** The configuration of the application [web], at a version
    identifier. *)
Definition webConfig (version_id : Z) : Registry.ServiceConfig :=
  {| Registry.Name := "web"; Registry.version := "registry.example.com/web:1";
     Registry.id := version_id; Registry.environment := [("ENV", "prod")];
     Registry.ports := ["8080"] |}.

(** A backend that holds the configuration for the environment [prod] and
    for the empty environment, the one that checkForChanges lists. *)
Definition watchedStore (cfg : Registry.ServiceConfig) : MemStore :=
  (@Sample.storeConfig Sample.text
     (@Sample.storeConfig Sample.text emptyStore cfg "").2 cfg "prod").2.



(** A container of the application [web], with the given ports. *)
Definition webContainer (ports : list (string * list Docker.PortBinding)) : Docker.Container :=
  {| Docker.ID := "0123456789abcdef0123456789abcdef";
     Docker.Created := 1400000000 * 10 ^ 9;
     Docker.ContainerConfig :=
       {| Docker.Image := "registry.example.com/web:1";
          Docker.Env := ["GALAXY_APP=web"; "GALAXY_PORT=8080"; "VIRTUAL_HOST=web.example.com"] |};
     Docker.ContainerState := {| Docker.Running := true |};
     Docker.ContainerNetwork := {| Docker.IPAddress := "172.17.0.2"; Docker.Ports := ports |};
     Docker.Name := "/web_2" |}.

(** A binding of a port to a port of the host. *)
Definition published (port : string) : Docker.PortBinding :=
  {| Docker.HostIp := "0.0.0.0"; Docker.HostPort := port |}.

(** The backend after the registration of a container of [web]. *)
Definition registeredStore : MemStore :=
  match @Registration.RegisterService _ MemBackend Sample.text Sample.scan
          emptyStore 60 (1400000001 * 10 ^ 9) "prod" "web" "10.0.0.5"
          (webContainer [("8080/tcp", [published "49153"])]) with
  | Returned (_, b) => b
  | Panicked _ => emptyStore
  end.

(** A backend with that registration and one whose text is no JSON, with
    the configuration of [web] and one, of [api], whose text is no
    JSON. *)
Definition damagedStore : MemStore :=
  let b1 :=
    (memSet registeredStore "prod/web/hosts/10.0.0.6/web/ffffffffffff" "location" "not json").2 in
  let b2 := (@Sample.storeConfig Sample.text b1 (webConfig 2) "prod").2 in
  (memSet b2 "prod/api/environment" "config" "{garbage").2.

(** The keys of the registrations in that backend. *)
Definition damagedKeys : list string :=
  ["prod/web/hosts/10.0.0.5/web/0123456789ab"; "prod/web/hosts/10.0.0.6/web/ffffffffffff"].

(** The image of [web]. *)
Definition webImage : Docker.LocalImage := {| Docker.ImageID := "4f2c9a" |}.

(** The local images of an engine that holds the image of [web]. *)
Definition webLocal : gmap string Docker.LocalImage :=
  {[ "registry.example.com/web:1" := webImage ]}.

(** An engine with the given containers and local images, which can pull
    the image of [web]. *)
Definition engineWith (cs : list Docker.Container) (local : gmap string Docker.LocalImage)
  : Docker.Engine :=
  {| Docker.reachable := true;
     Docker.clock := 1400000100 * 10 ^ 9;
     Docker.containers := cs;
     Docker.images := local;
     Docker.hub := {[ "registry.example.com/web" := [("registry.example.com/web:1", webImage)] ]};
     Docker.idSupply := ["aaaaaaaaaaaa0001"; "aaaaaaaaaaaa0002"];
     Docker.crashing := ∅;
     Docker.wedged := ∅;
     Docker.calls := [] |}.

(** The credentials stored for the registry of [web]. *)
Definition deployAuth : Docker.AuthConfiguration :=
  {| Docker.Username := "deploy"; Docker.Password := "secret";
     Docker.Email := "ops@example.com" |}.

(** A runtime over an engine and a backend, as NewServiceRuntime leaves
    it, with credentials stored for the registry of [web]. *)
Definition runtimeOf (e : Docker.Engine) (b : MemStore) : Runtime.ServiceRuntime MemStore :=
  {| Runtime.engine := e;
     Runtime.backend := b;
     Runtime.authConfig := None;
     Runtime.shuttleHost := "172.17.42.1";
     Runtime.dockercfg := Some {[ "registry.example.com" := deployAuth ]};
     Runtime.blacklistedContainerId := ∅ |}.

(** The pull that the version of [web] asks for. *)
Definition webPull : Docker.PullImageOptions :=
  {| Docker.Repository := "registry.example.com/web";
     Docker.Registry := "registry.example.com" |}.

(** StartIfNotRunning and StopAllButLatest over the in-memory backend, with
    the sample instances of the interfaces. *)
Definition startIfNotRunning :=
  @Runtime.StartIfNotRunning _ MemBackend (@Sample.store Sample.text) Sample.naming Sample.utils.

(** A running container of [web], named for the version identifier 1. *)
Definition oldWeb : Docker.Container :=
  {| Docker.ID := "bbbbbbbbbbbb0001";
     Docker.Created := 1400000000 * 10 ^ 9;
     Docker.ContainerConfig := {| Docker.Image := "registry.example.com/web:1"; Docker.Env := [] |};
     Docker.ContainerState := {| Docker.Running := true |};
     Docker.ContainerNetwork := {| Docker.IPAddress := "172.17.0.2"; Docker.Ports := [] |};
     Docker.Name := "/web_1" |}.

(** The container of [web] named for the version identifier 2. *)
Definition newWeb : Docker.Container :=
  {| Docker.ID := "cccccccccccc0002";
     Docker.Created := 1400000050 * 10 ^ 9;
     Docker.ContainerConfig := {| Docker.Image := "registry.example.com/web:1"; Docker.Env := [] |};
     Docker.ContainerState := {| Docker.Running := true |};
     Docker.ContainerNetwork := {| Docker.IPAddress := "172.17.0.3"; Docker.Ports := [] |};
     Docker.Name := "/web_2" |}.

(** The engine of the upgrade, once the new container runs: the old one
    is a zombie, its stop does not return. *)
Definition zombieEngine : Docker.Engine :=
  {| Docker.reachable := true;
     Docker.clock := 1400000100 * 10 ^ 9;
     Docker.containers := [oldWeb; newWeb];
     Docker.images := ∅;
     Docker.hub := ∅;
     Docker.idSupply := [];
     Docker.crashing := ∅;
     Docker.wedged := {[ Docker.ID oldWeb ]};
     Docker.calls := [] |}.

Definition stopAllButLatest :=
  @Runtime.StopAllButLatest _ MemBackend (@Sample.store Sample.text) Sample.naming Sample.utils.

(** The runtime after the first call: the stop was received, the old
    container is on the blacklist. *)
Definition zombieRuntime : Runtime.ServiceRuntime MemStore :=
  Runtime.blacklist (Docker.ID oldWeb)
    (Runtime.withEngine (runtimeOf zombieEngine (watchedStore (webConfig 2)))
       (Docker.received zombieEngine (Docker.StopCall (Docker.ID oldWeb) 10))).

(** The configuration of the application [api]. *)
Definition apiConfig : Registry.ServiceConfig :=
  {| Registry.Name := "api"; Registry.version := "registry.example.com/api:4";
     Registry.id := 7; Registry.environment := [("ENV", "prod")];
     Registry.ports := [] |}.

(** A backend with [web] and [api] in the environment [prod], and [web]
    in the environment [stage]. *)
Definition twoEnvStore : MemStore :=
  let b1 := (@Sample.storeConfig Sample.text emptyStore (webConfig 1) "prod").2 in
  let b2 := (@Sample.storeConfig Sample.text b1 apiConfig "prod").2 in
  (@Sample.storeConfig Sample.text b2 (webConfig 1) "stage").2.

(** The registration that RegisterService returns for the container of
    [web], of which [registeredStore] holds the text. *)
Definition webRegistered : Registration.ServiceRegistration :=
  match @Registration.RegisterService _ MemBackend Sample.text Sample.scan
          emptyStore 60 (1400000001 * 10 ^ 9) "prod" "web" "10.0.0.5"
          (webContainer [("8080/tcp", [published "49153"])]) with
  | Returned ((Some reg, _), _) => reg
  | _ => Registration.zeroRegistration
  end.

(** The container of [web] named for the version identifier 2, stopped. *)
Definition stoppedWeb : Docker.Container := Docker.setRunning false newWeb.

(** An engine on which the image of [web] is local and crashes. *)
Definition crashingEngine : Docker.Engine :=
  {| Docker.reachable := true;
     Docker.clock := 1400000100 * 10 ^ 9;
     Docker.containers := [];
     Docker.images := webLocal;
     Docker.hub := ∅;
     Docker.idSupply := ["aaaaaaaaaaaa0001"];
     Docker.crashing := {[ "registry.example.com/web:1" ]};
     Docker.wedged := ∅;
     Docker.calls := [] |}.



(** * Properties *)

#[local] Arguments Ascii.eqb : simpl never.
#[local] Set Warnings "-clear-no-such-hyp".

(** ** Paths and patterns *)

Section paths.
Import Names.

(** The library functions on the paths and patterns of the registry. *)
Example PathJoin_app : PathJoin ["prod"; "web"; "*"] = "prod/web/*".
Proof. reflexivity. Qed.

Example PathJoin_all_envs : PathJoin [""; "*"; "environment"] = "*/environment".
Proof. reflexivity. Qed.

Example PathJoin_dotdot : PathJoin ["a"; "../../b"; "c/"] = "../b/c".
Proof. reflexivity. Qed.

Example Clean_rooted : Clean "/../a//b/./c/.." = "/a/b".
Proof. reflexivity. Qed.

Example Base_key : Base "prod/web/hosts/10.0.0.1/app/0123" = "0123".
Proof. reflexivity. Qed.

Example Split_empty : Split "" ","%char = [""].
Proof. reflexivity. Qed.

Example Split_two : Split "a,b," ","%char = ["a"; "b"; ""].
Proof. reflexivity. Qed.

Example glob_app : globMatch "prod/web/*" "prod/web/environment" = true.
Proof. reflexivity. Qed.

Example glob_all : globMatch "*/environment" "prod/web/environment" = true.
Proof. reflexivity. Qed.

Example glob_no : globMatch "prod/web/*" "prod/webx/environment" = false.
Proof. reflexivity. Qed.

Lemma append_cons (c : ascii) (s t : string) : String c s +:+ t = String c (s +:+ t).
Proof. reflexivity. Qed.

Lemma append_nil_l (t : string) : "" +:+ t = t.
Proof. reflexivity. Qed.

Lemma append_nil_r (s : string) : s +:+ "" = s.
Proof. induction s as [|c s IH]; [done | by rewrite append_cons, IH]. Qed.

Lemma append_assoc (s t u : string) : (s +:+ t) +:+ u = s +:+ (t +:+ u).
Proof. induction s as [|c s IH]; [done | by rewrite ?append_cons, IH]. Qed.


Lemma Split_plain (s : string) (sep : ascii) :
  every (fun c => negb (Ascii.eqb c sep)) s = true -> Split s sep = [s].
Proof.
  induction s as [|c s IH]; simpl; [done |].
  intros [Hc Hs]%andb_prop. apply negb_true_iff in Hc. rewrite Hc, (IH Hs). done.
Qed.

Lemma Split_cons (s rest : string) (sep : ascii) :
  every (fun c => negb (Ascii.eqb c sep)) s = true ->
  Split (s +:+ String sep rest) sep = s :: Split rest sep.
Proof.
  induction s as [|c s IH].
  - intros _. rewrite append_nil_l. simpl. by rewrite Ascii.eqb_refl.
  - simpl. intros [Hc Hs]%andb_prop. apply negb_true_iff in Hc.
    rewrite ?append_cons; simpl. rewrite Hc, (IH Hs). done.
Qed.

Lemma component_plain s : component s = true -> every (fun c => negb (Ascii.eqb c slash)) s = true.
Proof. unfold component. intros H. repeat (apply andb_prop in H as [H ?]). done. Qed.

Lemma Join_cons2 a b (l : list string) sep :
  Join (a :: b :: l) sep = a +:+ sep +:+ Join (b :: l) sep.
Proof. reflexivity. Qed.

Lemma Split_Join (l : list string) :
  l <> [] -> Forall (fun s => component s = true) l -> Split (Join l "/") slash = l.
Proof.
  induction l as [|a l IH]; [done |]. intros _ Hall.
  apply Forall_cons in Hall as [Ha Hl]. destruct l as [|b l].
  - simpl. by apply Split_plain, component_plain.
  - rewrite Join_cons2.
    change ("/" +:+ Join (b :: l) "/") with (String slash (Join (b :: l) "/")).
    rewrite Split_cons by by apply component_plain. by rewrite IH.
Qed.

Lemma cleanParts_components rooted (l acc : list string) :
  Forall (fun s => component s = true) l -> cleanParts rooted l acc = rev acc ++ l.
Proof.
  revert acc. induction l as [|a l IH]; intros acc Hall; simpl.
  - by rewrite app_nil_r.
  - apply Forall_cons in Hall as [Ha Hl]. unfold component in Ha.
    repeat (apply andb_prop in Ha as [Ha ?]).
    repeat match goal with H : negb _ = true |- _ => apply negb_true_iff in H; rewrite H end.
    simpl. rewrite (IH _ Hl). simpl. by rewrite <- app_assoc.
Qed.

Lemma component_head s t :
  component s = true -> HasPrefix (s +:+ t) "/" = false /\ String.eqb (s +:+ t) "" = false.
Proof.
  destruct s as [|c s]; [done |]. unfold component. rewrite ?append_cons; simpl.
  intros H. repeat (apply andb_prop in H as [H ?]).
  match goal with H : negb (Ascii.eqb c slash) && _ = true |- _ =>
    apply andb_prop in H as [Hc _]; apply negb_true_iff in Hc end.
  split; [| done]. change "/"%char with slash. by rewrite Ascii.eqb_sym, Hc.
Qed.

Lemma Join_head a (l : list string) : exists t, Join (a :: l) "/" = a +:+ t.
Proof.
  destruct l; [exists ""; symmetry; apply append_nil_r | by eexists].
Qed.

(** path.Join of components is their text with slashes between. *)
Lemma PathJoin_components (l : list string) :
  Forall (fun s => component s = true) l -> PathJoin l = Join l "/".
Proof.
  destruct l as [|a l]; [done |]. intros Hall.
  pose proof Hall as Hall'. apply Forall_cons in Hall' as [Ha _].
  destruct (Join_head a l) as [t Ht].
  destruct (component_head a t Ha) as [Hroot Hne].
  unfold PathJoin. fold PathJoin.
  assert (String.eqb a "" = false) as ->.
  { unfold component in Ha. repeat (apply andb_prop in Ha as [Ha ?]). by apply negb_true_iff. }
  unfold Clean. rewrite Split_Join by done. rewrite cleanParts_components by done.
  simpl rev. simpl app. rewrite Ht, Hroot, Hne. done.
Qed.



Lemma validName_component s : validName s = true -> component s = true.
Proof. unfold validName. by intros [? ?]%andb_prop. Qed.



End paths.

(** ** Creating an application *)

Section create_app.
Context `{!Json.JSONText}.
Import Registry Names.
#[local] Existing Instance Sample.store.
#[local] Arguments PathJoin : simpl never.





End create_app.



(** ** Deleting a pool *)

Section delete_pool.
Import Registry Names.

(** On every backend: a pool with assignments, or whose assignments cannot
    be read, is not deleted, and the backend is left as it is. *)
Lemma DeletePool_refuses {B} `{!RegistryBackend B} `{!ConfigStore B}
    (b : B) (pool env : string) (apps : list string) (err : option error) :
  ListAssignments b env pool = (apps, err) ->
  apps <> [] \/ err <> None ->
  DeletePool b pool env = ((false, err), b).
Proof.
  intros Hl Hcase. unfold DeletePool. rewrite Hl.
  destruct err as [e|]; [done |].
  destruct Hcase as [Hne | Hne]; [| done].
  destruct apps; [done | done].
Qed.

Context `{!Json.JSONText}.
#[local] Existing Instance Sample.store.
#[local] Arguments PathJoin : simpl never.

Lemma UnassignApp_mem (b : MemStore) (app env pool : string) (s : gset string) :
  keyspace b !! PathJoin [env; "pools"; pool] = Some (SetOf s) ->
  exists b1,
    (UnassignApp b app env pool).2 = b1 /\
    keyspace b1 !! PathJoin [env; "pools"; pool] = Some (SetOf (s ∖ {[app]})) /\
    forall k, k <> PathJoin [env; "pools"; pool] -> keyspace b1 !! k = keyspace b !! k.
Proof.
  intros Hk. unfold UnassignApp. simpl. unfold memRemoveMember. rewrite Hk.
  destruct (decide (app ∈ s)) as [Hin | Hout]; simpl.
  - eexists. split; [reflexivity |]. simpl. split.
    + by rewrite lookup_insert_eq.
    + intros k Hne. by rewrite lookup_insert_ne.
  - eexists. split; [reflexivity |]. split; [| done].
    rewrite Hk. do 2 f_equal. set_solver.
Qed.

Lemma unassignAll_mem (apps : list string) (b : MemStore) (env pool : string) (s : gset string) :
  keyspace b !! PathJoin [env; "pools"; pool] = Some (SetOf s) ->
  keyspace (unassignAll b env pool apps) !! PathJoin [env; "pools"; pool]
    = Some (SetOf (s ∖ list_to_set apps)) /\
  forall k, k <> PathJoin [env; "pools"; pool] ->
    keyspace (unassignAll b env pool apps) !! k = keyspace b !! k.
Proof.
  revert b s. induction apps as [|app apps IH]; intros b s Hk.
  - simpl. split; [| done]. rewrite Hk. do 2 f_equal. set_solver.
  - destruct (UnassignApp_mem b app env pool s Hk) as (b1 & Hb1 & Hk1 & Hother).
    simpl unassignAll. rewrite Hb1.
    destruct (IH b1 _ Hk1) as [Hset Hrest]. split.
    + rewrite Hset. do 2 f_equal. set_solver.
    + intros k Hne. by rewrite Hrest, Hother.
Qed.

Lemma pool_keys_differ (env pool : string) :
  validName env = true -> validName pool = true ->
  PathJoin [env; "pools"; pool] <> PathJoin [env; "pools"; "*"].
Proof.
  intros He Hp.
  rewrite !PathJoin_components
    by (repeat constructor; auto using validName_component).
  rewrite !Join_cons2. simpl Join. intros Heq.
  do 4 apply String.app_inj in Heq. subst pool. discriminate Hp.
Qed.

Lemma ListPools_loop_keys {B} `{!RegistryBackend B} `{!ConfigStore B}
    (b : B) (env : string) (matches : list string) (m : gmap string (list string))
    (pool : string) :
  ~ In pool matches -> m !! pool = None ->
  (ListPools_loop b env matches m).1 !! pool = None.
Proof.
  revert m. induction matches as [|p matches IH]; intros m Hnot Hm; simpl; [done |].
  destruct (ListAssignments b env p) as [members [e|]]; simpl; [done |].
  apply IH.
  - intros Hin. apply Hnot. by right.
  - rewrite lookup_insert_ne; [done |]. intros ->. apply Hnot. by left.
Qed.

(** C2.  DeletePool answers false and leaves the backend as it is whenever
    the pool has assignments.  For a pool that exists, under valid names:
    once UnassignApp has run for every application assigned, the pool has
    no assignments, DeletePool answers true, and the pool is no longer
    among the pools of the environment. *)
Theorem DeletePool_guard (b : MemStore) (pool env : string) (apps : list string) :
  ListAssignments b env pool = (apps, None) ->
  (apps <> [] -> DeletePool b pool env = ((false, None), b)) /\
  (validName env = true -> validName pool = true ->
   pool ∈ membersOf b (PathJoin [env; "pools"; "*"]) ->
   let b1 := unassignAll b env pool apps in
   ListAssignments b1 env pool = ([], None) /\
   exists b2,
     DeletePool b1 pool env = ((true, None), b2) /\
     (pool ∉ membersOf b2 (PathJoin [env; "pools"; "*"])) /\
     (PoolExists b2 env pool).1 = false).
Proof.
  intros Hl. split.
  { intros Hne. apply DeletePool_refuses with (apps := apps); auto. }
  intros He Hp Hpool b1.
  pose proof (pool_keys_differ env pool He Hp) as Hdiff.
  set (K := PathJoin [env; "pools"; pool]) in *.
  set (L := PathJoin [env; "pools"; "*"]) in *.
  assert (ListAssignments b1 env pool = ([], None) /\ keyspace b1 !! L = keyspace b !! L)
    as [Hempty HL].
  { unfold ListAssignments in *. simpl in *. unfold memMembers in *. fold K in Hl |- *.
    destruct (keyspace b !! K) as [[h|s]|] eqn:HK; [done | |].
    - injection Hl as <-.
      destruct (unassignAll_mem (elements s) b env pool s HK) as [Hset Hrest].
      fold K in Hset, Hrest. subst b1. rewrite Hset. split.
      + f_equal. apply elements_empty_iff. set_solver.
      + apply Hrest. done.
    - injection Hl as <-. subst b1. simpl. by rewrite HK. }
  split; [done |].
  unfold membersOf in Hpool. rewrite <- HL in Hpool.
  destruct (keyspace b1 !! L) as [[h|s]|] eqn:HL1; try set_solver.
  unfold DeletePool. rewrite Hempty. simpl. unfold memRemoveMember. fold L. rewrite HL1.
  destruct (decide (pool ∈ s)) as [Hin | Hout]; [| done]. simpl.
  eexists. split; [reflexivity |]. split.
  - unfold membersOf. simpl. rewrite lookup_insert_eq. set_solver.
  - set (b2 := withKeyspace b1 _).
    unfold PoolExists, ListPools. fold L.
    destruct (Members b2 L) as [matches [e0|]] eqn:HM; [done |].
    assert (~ In pool matches) as Hnot.
    { simpl in HM. unfold memMembers in HM. simpl in HM. rewrite lookup_insert_eq in HM.
      injection HM as <-. rewrite <- list_elem_of_In, elem_of_elements. set_solver. }
    pose proof (ListPools_loop_keys b2 env matches ∅ pool Hnot (lookup_empty _)) as Hnone.
    destruct (ListPools_loop b2 env matches ∅) as [pools [e'|]]; [done |].
    simpl in Hnone |- *. rewrite Hnone. by apply bool_decide_eq_false_2, is_Some_None.
Qed.

End delete_pool.

Lemma DeletePool_guard_witness :
  @Registry.ListAssignments _ _ poolStore "prod" "web" = (["api"], None) /\
  @Registry.DeletePool _ _ poolStore "web" "prod" = ((false, None), poolStore) /\
  let b1 := @unassignAll _ _ (@Sample.store Sample.text) poolStore "prod" "web" ["api"] in
  @Registry.ListAssignments _ _ b1 "prod" "web" = ([], None) /\
  exists b2,
    @Registry.DeletePool _ _ b1 "web" "prod" = ((true, None), b2) /\
    ("web" ∉ membersOf b2 (PathJoin ["prod"; "pools"; "*"])) /\
    (@Registry.PoolExists _ _ b2 "prod" "web").1 = false.
Proof.
  assert (@Registry.ListAssignments _ _ poolStore "prod" "web" = (["api"], None)) as Hl
    by (vm_compute; reflexivity).
  destruct (@DeletePool_guard Sample.text poolStore "web" "prod" ["api"] Hl) as [Hrefuse Hdelete].
  split; [exact Hl |]. split; [apply Hrefuse; discriminate |].
  apply Hdelete; [reflexivity | reflexivity |].
  vm_compute. reflexivity.
Defined.

(** ** Change detection *)

Section change_detection.
Import Registry Notify.


Lemma lastSeen_insert lv name v : lastSeen (<[name := v]> lv) name = v.
Proof. unfold lastSeen. by rewrite lookup_insert_eq. Qed.

Lemma lastSeen_insert_ne lv name other v :
  other <> name -> lastSeen (<[other := v]> lv) name = lastSeen lv name.
Proof. intros Hne. unfold lastSeen. by rewrite lookup_insert_ne. Qed.





Lemma detect_step (d : ServiceConfig) (configs : list ServiceConfig) (lv : gmap string Z) :
  (detect (d :: configs) lv).1 =
  (detect configs (if ID d =? lastSeen lv (Name d) then lv else <[Name d := ID d]> lv)).1.
Proof.
  simpl. destruct (ID d =? lastSeen lv (Name d)); simpl; [done |].
  by destruct (detect configs (<[Name d:=ID d]> lv)).
Qed.



(** The remembered versions of the applications that are not listed stay. *)
Lemma detect_others (configs : list ServiceConfig) (lv : gmap string Z) (name : string) :
  (forall d, In d configs -> Name d <> name) ->
  lastSeen (detect configs lv).1 name = lastSeen lv name.
Proof.
  revert lv. induction configs as [|d configs IH]; intros lv Hnot; [done |].
  rewrite detect_step, IH by (intros x Hx; apply Hnot; by right).
  destruct (ID d =? lastSeen lv (Name d)); [done |].
  apply lastSeen_insert_ne, Hnot. by left.
Qed.





Context {B : Type} `{!RegistryBackend B} `{!ConfigStore B}.


End change_detection.


(** The run of the specification's scenario: the first pass sees version
    1, the next two see version 2 of the same content; one change is sent,
    by the second pass. *)
Example checkForChanges_run :
  exists p,
    @Notify.checkForChanges _ _ (@Sample.store Sample.text) Notify.start
      [watchedStore (webConfig 1); watchedStore (webConfig 2); watchedStore (webConfig 2)]
    = Returned (p, [{| Notify.ChangedConfig := Some (webConfig 2); Notify.Error := None |}]).
Proof. eexists. vm_compute. reflexivity. Qed.

(** ** The JSON form of a registration *)

Section wire_format.
Import Json Registration.
Context `{!JSONText}.

Lemma decodeMembers_app (l1 l2 : list (string * json)) (r : ServiceRegistration) :
  decodeMembers (l1 ++ l2) r =
  match decodeMembers l1 r with
  | inl r1 => decodeMembers l2 r1
  | inr e => inr e
  end.
Proof.
  revert r. induction l1 as [|[k v] l1 IH]; intros r; [done |].
  simpl. destruct (decodeMember k v r); [apply IH | done].
Qed.

(** A field tagged [omitempty] that is empty in the struct that decodes
    takes the value of the field that was encoded, written or not. *)
Ltac omitted_field :=
  intros r v Hempty; destruct r; simpl in Hempty; subst; unfold omitempty;
  destruct (String.eqb v "") eqn:E;
  [apply String.eqb_eq in E; subst; reflexivity | reflexivity].

Lemma decode_NAME r v :
  Name r = "" -> decodeMembers (omitempty "NAME" v) r = inl (setName v r).
Proof. revert r v. omitted_field. Qed.

Lemma decode_EXTERNAL_IP r v :
  ExternalIP r = "" -> decodeMembers (omitempty "EXTERNAL_IP" v) r = inl (setExternalIP v r).
Proof. revert r v. omitted_field. Qed.

Lemma decode_EXTERNAL_PORT r v :
  ExternalPort r = "" ->
  decodeMembers (omitempty "EXTERNAL_PORT" v) r = inl (setExternalPort v r).
Proof. revert r v. omitted_field. Qed.

Lemma decode_INTERNAL_IP r v :
  InternalIP r = "" -> decodeMembers (omitempty "INTERNAL_IP" v) r = inl (setInternalIP v r).
Proof. revert r v. omitted_field. Qed.

Lemma decode_INTERNAL_PORT r v :
  InternalPort r = "" ->
  decodeMembers (omitempty "INTERNAL_PORT" v) r = inl (setInternalPort v r).
Proof. revert r v. omitted_field. Qed.

Lemma decode_IMAGE r v :
  Image r = "" -> decodeMembers (omitempty "IMAGE" v) r = inl (setImage v r).
Proof. revert r v. omitted_field. Qed.

Lemma decode_IMAGE_ID r v :
  ImageId r = "" -> decodeMembers (omitempty "IMAGE_ID" v) r = inl (setImageId v r).
Proof. revert r v. omitted_field. Qed.

Lemma intoItems_strings (field : string) (l : list string) :
  intoItems field (map JString l) = inl l.
Proof. induction l as [|s l IH]; [done |]. simpl. by rewrite IH. Qed.

Lemma intoStrings_value (field : string) (vhosts : option (list string)) :
  intoStrings field (virtualHostsValue vhosts) = inl vhosts.
Proof. destruct vhosts as [l|]; [| done]. simpl. by rewrite intoItems_strings. Qed.

Lemma intoEntries_strings (field : string) (l : list (string * string)) (m : gmap string string) :
  intoEntries field (map (fun kv => (kv.1, JString kv.2)) l) m =
  inl (list_to_map (rev l) ∪ m).
Proof.
  revert m. induction l as [|[k v] l IH]; intros m.
  - simpl. by rewrite (left_id_L ∅ (∪)).
  - simpl. rewrite IH. f_equal. rewrite list_to_map_app. simpl.
    rewrite <- (assoc_L (∪)). f_equal.
    rewrite insert_union_singleton_l. by rewrite insert_empty.
Qed.

Lemma intoEntries_map (field : string) (m : gmap string string) :
  intoEntries field (map (fun kv => (kv.1, JString kv.2)) (map_to_list m)) ∅ = inl m.
Proof.
  rewrite intoEntries_strings, (right_id_L ∅ (∪)). f_equal.
  rewrite <- (list_to_map_to_list m) at 2.
  assert (rev (map_to_list m) ≡ₚ map_to_list m) as Hp
    by (symmetry; apply Permutation_rev).
  apply list_to_map_proper; [| exact Hp].
  rewrite Hp. apply NoDup_fst_map_to_list.
Qed.

Lemma decodeMember_CONTAINER_ID v r :
  decodeMember "CONTAINER_ID" v r
  = assign setContainerID (intoString "CONTAINER_ID" v (ContainerID r)) r.
Proof. reflexivity. Qed.

Lemma decodeMember_CONTAINER_NAME v r :
  decodeMember "CONTAINER_NAME" v r
  = assign setContainerName (intoString "CONTAINER_NAME" v (ContainerName r)) r.
Proof. reflexivity. Qed.

Lemma decodeMember_STARTED_AT v r :
  decodeMember "STARTED_AT" v r
  = assign setStartedAt (intoTime "STARTED_AT" v (StartedAt r)) r.
Proof. reflexivity. Qed.

Lemma decodeMember_VIRTUAL_HOSTS v r :
  decodeMember "VIRTUAL_HOSTS" v r
  = assign setVirtualHosts (intoStrings "VIRTUAL_HOSTS" v) r.
Proof. reflexivity. Qed.

Lemma decodeMember_PORT v r :
  decodeMember "PORT" v r = assign setPort (intoString "PORT" v (Port r)) r.
Proof. reflexivity. Qed.

Lemma decodeMember_ERROR_PAGES v r :
  decodeMember "ERROR_PAGES" v r
  = assign setErrorPages (intoMap "ERROR_PAGES" v (ErrorPages r)) r.
Proof. reflexivity. Qed.

Lemma decode_ERROR_PAGES r pages :
  ErrorPages r = None ->
  decodeMembers (errorPagesMember pages) r = inl (setErrorPages (decodedPages pages) r).
Proof.
  intros Hnil. destruct r; simpl in Hnil; subst. unfold errorPagesMember, decodedPages.
  destruct pages as [m|]; [| done]. destruct (bool_decide (m = ∅)); [done |].
  unfold decodeMembers. rewrite decodeMember_ERROR_PAGES. simpl.
  by rewrite intoEntries_map.
Qed.

End wire_format.

Section roundtrip.
Import Json Registration.
Context `{!JSONText}.

Lemma decodeMembers_document (started : string) (r : ServiceRegistration) :
  timeParse started = Some (StartedAt r) ->
  exists members,
    document started r = JObject members /\
    decodeMembers members zeroRegistration = inl (decoded r).
Proof.
  intros Htime. eexists. split; [reflexivity |].
  destruct r as [n xi xp ii ip ci cn im iid sa ex pa vh po ep]. simpl in Htime.
  cbn [Name ExternalIP ExternalPort InternalIP InternalPort ContainerID ContainerName
       Image ImageId StartedAt VirtualHosts Port ErrorPages].
  rewrite decodeMembers_app, decode_NAME by reflexivity.
  rewrite decodeMembers_app, decode_EXTERNAL_IP by reflexivity.
  rewrite decodeMembers_app, decode_EXTERNAL_PORT by reflexivity.
  rewrite decodeMembers_app, decode_INTERNAL_IP by reflexivity.
  rewrite decodeMembers_app, decode_INTERNAL_PORT by reflexivity.
  rewrite decodeMembers_app.
  unfold decodeMembers at 1.
  rewrite decodeMember_CONTAINER_ID. cbn [assign intoString].
  rewrite decodeMember_CONTAINER_NAME. cbn [assign intoString].
  rewrite decodeMembers_app, decode_IMAGE by reflexivity.
  rewrite decodeMembers_app, decode_IMAGE_ID by reflexivity.
  rewrite decodeMembers_app.
  unfold decodeMembers at 1.
  rewrite decodeMember_STARTED_AT. cbn [intoTime]. rewrite Htime. cbn [assign].
  rewrite decodeMember_VIRTUAL_HOSTS, intoStrings_value. cbn [assign].
  rewrite decodeMember_PORT. cbn [assign intoString].
  rewrite decode_ERROR_PAGES by reflexivity.
  reflexivity.
Qed.





End roundtrip.


(** ** Registering a container *)

Section register_service.
Import Json Registration.
Context {B : Type} `{!RegistryBackend B} `{!JSONText} `{!Sscanf}.

Lemma firstBound_none (ports : list (string * list Docker.PortBinding)) :
  Forall unbound ports -> firstBound ports = ("", "").
Proof.
  induction ports as [|[k v] ports IH]; [done |].
  intros [Hv Hrest]%Forall_cons. unfold unbound in Hv. simpl in Hv. subst v.
  simpl. by apply IH.
Qed.

Lemma firstBound_first (pre post : list (string * list Docker.PortBinding))
    (k : string) (binding : Docker.PortBinding) (more : list Docker.PortBinding) :
  Forall unbound pre ->
  firstBound (pre ++ (k, binding :: more) :: post) = (Docker.HostPort binding, Docker.PortOf k).
Proof.
  induction pre as [|[k' v'] pre IH]; [done |].
  intros [Hv Hrest]%Forall_cons. unfold unbound in Hv. simpl in Hv. subst v'.
  simpl. by apply IH.
Qed.

(** The four address fields are set together, from the ports found, when
    both are there; they are all empty otherwise.  The other assignments
    of RegisterService leave them. *)
Lemma newServiceRegistration_address (container : Docker.Container) (hostIP : string) :
  let r := newServiceRegistration container hostIP in
  let '(externalPort, internalPort) :=
    firstBound (Docker.Ports (Docker.ContainerNetwork container)) in
  if negb (String.eqb externalPort "") && negb (String.eqb internalPort "") then
    ExternalIP r = hostIP /\ ExternalPort r = externalPort /\
    InternalIP r = Docker.IPAddress (Docker.ContainerNetwork container) /\
    InternalPort r = internalPort
  else
    ExternalIP r = "" /\ ExternalPort r = "" /\ InternalIP r = "" /\ InternalPort r = "".
Proof.
  unfold newServiceRegistration.
  destruct (firstBound _) as [externalPort internalPort].
  by destruct (negb (String.eqb externalPort "") && negb (String.eqb internalPort "")).
Qed.

(** C10, as amended.  For a container whose environment reads, names the
    application, and whose id has twelve bytes, a time of start that has a
    text, and a backend that takes the two writes: RegisterService
    returns a registration.  Its four address fields are empty when no
    port has a binding.  When [k] is the first port with a binding, they
    are the host's address, the host port of the first binding, the
    container's address and the port number of [k], if that host port and
    that port number are both not empty; they are all empty when one of
    the two is. *)
Theorem RegisterService_address (b : B) (TTL : Z) (now : Docker.Time)
    (env pool hostIP : string) (container : Docker.Container)
    (environment : gmap string string) (started : string) :
  EnvFor container = Returned environment ->
  envOf environment "GALAXY_APP" <> "" ->
  (12 <= String.length (Docker.ID container))%nat ->
  timeText (Docker.Created container) = Some started ->
  (forall text,
     exists x b1 y b2,
       Set_ b (PathJoin [env; pool; "hosts"; hostIP; envOf environment "GALAXY_APP";
                         take 12 (Docker.ID container)]) "location" text = ((x, None), b1) /\
       Expire b1 (PathJoin [env; pool; "hosts"; hostIP; envOf environment "GALAXY_APP";
                            take 12 (Docker.ID container)]) TTL = ((y, None), b2)) ->
  exists reg b',
    RegisterService b TTL now env pool hostIP container = Returned ((Some reg, None), b') /\
    Name reg = envOf environment "GALAXY_APP" /\
    (Forall unbound (Docker.Ports (Docker.ContainerNetwork container)) ->
       addressOf reg = ("", "", "", "")) /\
    (forall pre post k binding more,
       Docker.Ports (Docker.ContainerNetwork container) = pre ++ (k, binding :: more) :: post ->
       Forall unbound pre ->
       addressOf reg =
         if negb (String.eqb (Docker.HostPort binding) "") &&
            negb (String.eqb (Docker.PortOf k) "")
         then (hostIP, Docker.HostPort binding,
               Docker.IPAddress (Docker.ContainerNetwork container), Docker.PortOf k)
         else ("", "", "", "")).
Proof.
  intros Henv Hname Hid Htime Hbackend.
  unfold RegisterService. rewrite Henv. unfold obind at 1.
  unfold slice_to. apply Nat.leb_le in Hid. rewrite Hid. unfold obind.
  apply String.eqb_neq in Hname. rewrite Hname.
  set (path := PathJoin _) in *.
  set (reg0 := setPort _ _).
  assert (addressOf reg0 = addressOf (newServiceRegistration container hostIP)) as Haddr.
  { subst reg0. generalize (newServiceRegistration container hostIP). intros r.
    destruct (notBlank _), (bool_decide _); by destruct r. }
  assert (Name reg0 = envOf environment "GALAXY_APP") as Hn.
  { subst reg0. generalize (newServiceRegistration container hostIP). intros r.
    apply String.eqb_neq in Hname.
    destruct (notBlank _), (bool_decide _); by destruct r. }
  assert (StartedAt reg0 = Docker.Created container) as Hs.
  { subst reg0. unfold newServiceRegistration.
    destruct (firstBound _) as [externalPort internalPort].
    destruct (negb _ && negb _), (notBlank _), (bool_decide _); reflexivity. }
  unfold Marshal. rewrite Hs, Htime.
  destruct (Hbackend (jsonText (document started reg0))) as (x & b1 & y & b2 & HSet & HExp).
  rewrite HSet, HExp.
  eexists _, b2. split; [reflexivity |].
  assert (forall t, addressOf (setExpires t reg0) = addressOf reg0) as Hexp
    by (intros t; by destruct reg0).
  split; [by destruct reg0 |].
  rewrite Hexp, Haddr.
  pose proof (newServiceRegistration_address container hostIP) as Hnew. simpl in Hnew.
  split.
  - intros Hnone. rewrite (firstBound_none _ Hnone) in Hnew. simpl in Hnew.
    unfold addressOf. by destruct Hnew as (-> & -> & -> & ->).
  - intros pre post k binding more Hports Hpre.
    rewrite Hports, (firstBound_first _ _ _ _ _ Hpre) in Hnew.
    unfold addressOf.
    destruct (negb _ && negb _); by destruct Hnew as (-> & -> & -> & ->).
Qed.

End register_service.

Lemma RegisterService_address_witness :
  exists reg b',
    @Registration.RegisterService _ MemBackend Sample.text Sample.scan
      emptyStore 60 (1400000001 * 10 ^ 9) "prod" "web" "10.0.0.5"
      (webContainer [("443/tcp", []); ("8080/tcp", [published "49153"])])
    = Returned ((Some reg, None), b') /\
    addressOf reg = ("10.0.0.5", "49153", "172.17.0.2", "8080").
Proof.
  edestruct (@RegisterService_address _ MemBackend Sample.text Sample.scan
               emptyStore 60 (1400000001 * 10 ^ 9) "prod" "web" "10.0.0.5"
               (webContainer [("443/tcp", []); ("8080/tcp", [published "49153"])]))
    as (reg & b' & Hreg & _ & _ & Hfirst).
  - reflexivity.
  - vm_compute. discriminate.
  - simpl. lia.
  - vm_compute. reflexivity.
  - intros text. eexists _, _, _, _. split; reflexivity.
  - exists reg, b'. split; [exact Hreg |].
    rewrite (Hfirst [("443/tcp", [])] [] "8080/tcp" (published "49153") []); [reflexivity | reflexivity |].
    repeat constructor.
Defined.

(** The first port with a binding is [80/tcp], bound to an empty host
    port: the registration does not take its port number, nor the host's
    address. *)
Lemma RegisterService_address_counterexample :
  Docker.Ports (Docker.ContainerNetwork (webContainer [("80/tcp", [published ""])]))
    = [("80/tcp", [published ""])] /\
  exists reg b',
    @Registration.RegisterService _ MemBackend Sample.text Sample.scan
      emptyStore 60 (1400000001 * 10 ^ 9) "prod" "web" "10.0.0.5"
      (webContainer [("80/tcp", [published ""])])
    = Returned ((Some reg, None), b') /\
    Registration.InternalPort reg <> Docker.PortOf "80/tcp" /\
    Registration.ExternalIP reg <> "10.0.0.5".
Proof.
  split; [reflexivity |].
  eexists _, _. split; [vm_compute; reflexivity |].
  split; vm_compute; discriminate.
Qed.

(** ** Listings *)

Section listings.
Import Json Registration Registry.
Context {B : Type} `{!RegistryBackend B} `{!ConfigStore B} `{!JSONText}.

Lemma ListRegistrations_loop_spec (b : B) (keys : list string)
    (regList : list ServiceRegistration) (logged : list warning) :
  ListRegistrations_loop b keys regList logged =
  (regList ++ omap (readable b) keys, logged ++ omap (unreadable b) keys).
Proof.
  revert regList logged. induction keys as [|key keys IH]; intros regList logged.
  - simpl. by rewrite !app_nil_r.
  - simpl. unfold readable, unreadable, registrationAt.
    destruct (Get b key "location") as [val [e|]]; simpl.
    + rewrite IH. by rewrite <- app_assoc.
    + destruct (Unmarshal val _) as [svcReg|e]; simpl; rewrite IH; by rewrite <- app_assoc.
Qed.

Lemma ListApps_loop_skip (b : B) (env key : string) (rest : list string)
    (appList : list ServiceConfig) :
  appKey key = false ->
  ListApps_loop b env (key :: rest) appList = ListApps_loop b env rest appList.
Proof.
  unfold appKey. intros Hk. simpl.
  destruct (length (Split key slash) =? 3)%nat; simpl in *; [| done].
  apply negb_false_iff in Hk. by rewrite Hk.
Qed.

Lemma ListApps_loop_step (b : B) (env key : string) (rest : list string)
    (appList : list ServiceConfig) :
  appKey key = true ->
  ListApps_loop b env (key :: rest) appList =
  match GetServiceConfig b (appOf key) env with
  | (_, Some err) => Returned ([], Some err)
  | (None, None) => Panicked "nil pointer dereference"
  | (Some cfg, None) => ListApps_loop b env rest (appList ++ [cfg])
  end.
Proof.
  unfold appKey, appOf. intros [H3 Hh]%andb_prop. simpl.
  rewrite H3. apply negb_true_iff in Hh. by rewrite Hh.
Qed.

(** The failing fetch of one application's configuration ends the loop with
    that error and no list. *)
Lemma ListApps_loop_fails (b : B) (env : string) (pre : list string) (key : string)
    (post : list string) (appList : list ServiceConfig) (o : option ServiceConfig) (e : error) :
  allConfigured b env pre ->
  appKey key = true ->
  GetServiceConfig b (appOf key) env = (o, Some e) ->
  ListApps_loop b env (pre ++ key :: post) appList = Returned ([], Some e).
Proof.
  intros Hpre Hkey Hfail. revert appList.
  induction pre as [|k pre IH]; intros appList.
  - simpl app. rewrite ListApps_loop_step by done. rewrite Hfail. by destruct o.
  - assert (allConfigured b env pre) as Hpre'.
    { intros x Hx. apply Hpre. by right. }
    simpl app. destruct (appKey k) eqn:Hk.
    + rewrite ListApps_loop_step by done.
      destruct (Hpre k (or_introl eq_refl) Hk) as [cfg ->]. by apply IH.
    + rewrite ListApps_loop_skip by done. by apply IH.
Qed.

(** C9, as amended.  ListRegistrations never fails on a record: every key
    listed whose location is read and decoded gives a registration of the
    result, every other key a warning in the log, and the call returns no
    error.  ListApps passes over the keys that are no application's, but
    the failing fetch of the configuration of one application makes it
    return that error and no configuration at all. *)
Theorem listings_on_failure (b : B) (env : string) :
  (forall keys,
     Keys b (PathJoin [env; "*"; "hosts"; "*"; "*"; "*"]) = (keys, None) ->
     ListRegistrations b env =
       ((omap (readable b) keys, None), omap (unreadable b) keys) /\
     (forall key r, In key keys -> registrationAt b key = inl r ->
        In r (ListRegistrations b env).1.1) /\
     (forall key w, In key keys -> registrationAt b key = inr w ->
        In w (ListRegistrations b env).2)) /\
  (forall pre key post o e,
     Keys b (PathJoin [env; "*"; "environment"]) = (pre ++ key :: post, None) ->
     allConfigured b env pre ->
     appKey key = true ->
     GetServiceConfig b (appOf key) env = (o, Some e) ->
     ListApps b env = Returned ([], Some e)).
Proof.
  split.
  - intros keys Hkeys.
    assert (ListRegistrations b env =
            ((omap (readable b) keys, None), omap (unreadable b) keys)) as Hl.
    { unfold ListRegistrations. rewrite Hkeys. by rewrite ListRegistrations_loop_spec. }
    split; [exact Hl |]. rewrite Hl. simpl. split.
    + intros key r Hin Hr. apply list_elem_of_In, list_elem_of_omap.
      exists key. split; [by apply list_elem_of_In |]. unfold readable. by rewrite Hr.
    + intros key w Hin Hw. apply list_elem_of_In, list_elem_of_omap.
      exists key. split; [by apply list_elem_of_In |]. unfold unreadable. by rewrite Hw.
  - intros pre key post o e Hkeys Hpre Hkey Hfail.
    unfold ListApps. rewrite Hkeys. by eapply ListApps_loop_fails.
Qed.

End listings.

Lemma listings_on_failure_witness :
  Keys damagedStore (PathJoin ["prod"; "*"; "hosts"; "*"; "*"; "*"]) = (damagedKeys, None) /\
  @Registration.ListRegistrations _ MemBackend Sample.text damagedStore "prod" =
    ((omap (@readable _ MemBackend Sample.text damagedStore) damagedKeys, None),
     omap (@unreadable _ MemBackend Sample.text damagedStore) damagedKeys) /\
  length (omap (@readable _ MemBackend Sample.text damagedStore) damagedKeys) = 1%nat /\
  omap (@unreadable _ MemBackend Sample.text damagedStore) damagedKeys =
    [Registration.WarnUnmarshal "prod/web/hosts/10.0.0.6/web/ffffffffffff"
       (ErrSyntax "not json")] /\
  @Registry.ListApps _ MemBackend (@Sample.store Sample.text) damagedStore "prod"
    = Returned ([], Some (ErrSyntax "{garbage")).
Proof.
  assert (Keys damagedStore (PathJoin ["prod"; "*"; "hosts"; "*"; "*"; "*"])
          = (damagedKeys, None)) as Hkeys by (vm_compute; reflexivity).
  destruct (@listings_on_failure _ MemBackend (@Sample.store Sample.text) Sample.text
              damagedStore "prod") as [Hregs Happs].
  split; [exact Hkeys |].
  split; [exact (proj1 (Hregs damagedKeys Hkeys)) |].
  split; [vm_compute; reflexivity |]. 
  split; [vm_compute; reflexivity |].
  refine (Happs ["prod/web/environment"] "prod/api/environment" [] None
                (ErrSyntax "{garbage") _ _ _ _).
  - vm_compute; reflexivity.
  - intros key [<- | []] _. exists (webConfig 2). vm_compute; reflexivity.
  - vm_compute; reflexivity.
  - vm_compute; reflexivity.
Defined.

(** The configuration of [web] is fetched and decoded, that of [api] is
    not: ListApps returns the error, and not the configuration of [web]. *)
Lemma ListApps_counterexample :
  @Registry.GetServiceConfig _ (@Sample.store Sample.text) damagedStore "web" "prod"
    = (Some (webConfig 2), None) /\
  In "prod/web/environment" (Keys damagedStore (PathJoin ["prod"; "*"; "environment"])).1 /\
  @Registry.ListApps _ MemBackend (@Sample.store Sample.text) damagedStore "prod"
    = Returned ([], Some (ErrSyntax "{garbage")).
Proof.
  split; [vm_compute; reflexivity |]. split; [vm_compute; left; reflexivity |].
  vm_compute; reflexivity.
Qed.

(** ** Pulling an image *)

Section pull_image.
Import Registry Runtime.
Context {B : Type} `{!RegistryBackend B} `{!ConfigStore B} `{!ContainerNaming} `{!Utils}.


End pull_image.


(** The image is there after the pull, and a second call pulls nothing. *)
Example PullImage_twice :
  exists s1,
    @Runtime.PullImage _ Sample.utils (runtimeOf (engineWith [] ∅) emptyStore)
      "registry.example.com/web:1" = Returned ((Some webImage, None), s1) /\
    @Runtime.PullImage _ Sample.utils s1 "registry.example.com/web:1"
      = Returned ((Some webImage, None), s1).
Proof. eexists. split; vm_compute; reflexivity. Qed.

(** ** The engine *)

Section engine.
Import Docker.

Lemma find_app_last {A} (f : A -> bool) (l : list A) (x : A) :
  List.find f (l ++ [x]) =
  match List.find f l with
  | Some y => Some y
  | None => if f x then Some x else None
  end.
Proof. induction l as [|y l IH]; simpl; [done |]. by destruct (f y). Qed.

Lemma find_none_forallb {A} (f : A -> bool) (l : list A) :
  forallb (fun x => negb (f x)) l = true -> List.find f l = None.
Proof.
  induction l as [|y l IH]; simpl; [done |].
  intros [Hy Hl]%andb_prop. apply negb_true_iff in Hy. rewrite Hy. by apply IH.
Qed.

Lemma update_app_last (id : string) (f : Container -> Container)
    (cs : list Container) (c : Container) :
  List.find (isID id) cs = None -> isID id c = true ->
  update id f (cs ++ [c]) = cs ++ [f c].
Proof.
  intros Hnone Hc. induction cs as [|x cs IH]; simpl in *; [by rewrite Hc |].
  destruct (isID id x); [done |]. by rewrite IH.
Qed.

Lemma resolve_none (x : string) (cs : list Container) :
  resolve x cs = None -> List.find (isID x) cs = None /\ List.find (isName x) cs = None.
Proof. unfold resolve. by destruct (List.find (isID x) cs). Qed.

Lemma InspectContainer_none (e : Engine) (x : string) (err : option error) :
  InspectContainer e x = (None, err) ->
  isNoSuchContainer err = true ->
  reachable e = true /\ resolve x (containers e) = None.
Proof.
  unfold InspectContainer. destruct (reachable e); simpl.
  - destruct (resolve x (containers e)); [done |]. by intros _ _.
  - by intros [= <-].
Qed.

Lemma string_cons_neq (c : ascii) (x : string) : String.eqb x (String c x) = false.
Proof.
  apply String.eqb_neq. intros Heq.
  apply (f_equal String.length) in Heq. simpl in Heq. lia.
Qed.

Lemma TrimPrefix_slash (x : string) : TrimPrefix ("/" +:+ x) "/" = x.
Proof. reflexivity. Qed.

Lemma find_none_existsb {A} (f : A -> bool) (l : list A) :
  List.find f l = None -> existsb f l = false.
Proof.
  induction l as [|x l IH]; simpl; [done |]. destruct (f x); [done | exact IH].
Qed.

(** CreateContainer gives the next id to a container of a local image
    whose name is free. *)
Lemma CreateContainer_returns (e : Engine) (name : string) (config : Config)
    (id : string) (ids : list string) (img : LocalImage) :
  reachable e = true ->
  images e !! Image config = Some img ->
  List.find (isName name) (containers e) = None ->
  idSupply e = id :: ids ->
  exists e2,
    CreateContainer e name config = ((Some (fresh e id name config), None), e2) /\
    reachable e2 = true /\
    containers e2 = containers e ++ [fresh e id name config] /\
    crashing e2 = crashing e.
Proof.
  intros Hr Himg Hname Hids. unfold CreateContainer.
  rewrite Hr, Himg, Hids, (find_none_existsb _ _ Hname), andb_false_r.
  rewrite bool_decide_eq_true_2 by eauto. simpl.
  eexists. split; [reflexivity |]. split; [exact Hr |]. split; reflexivity.
Qed.

(** StartContainer sets a container running whose image does not crash. *)
Lemma StartContainer_returns (e : Engine) (id : string) (c : Container) :
  reachable e = true ->
  List.find (isID id) (containers e) = Some c ->
  Image (ContainerConfig c) ∉ crashing e ->
  exists e3,
    StartContainer e id = (None, e3) /\
    reachable e3 = true /\
    containers e3 = update id (setRunning true) (containers e).
Proof.
  intros Hr Hfind Hcrash. unfold StartContainer.
  rewrite Hr, Hfind, (bool_decide_eq_false_2 _ Hcrash). simpl.
  eexists. split; [reflexivity |]. split; [exact Hr | reflexivity].
Qed.

End engine.

(** ** Starting a container *)

Section start.
Import Registry Runtime.
Context {B : Type} `{!RegistryBackend B} `{!ConfigStore B} `{!ContainerNaming} `{!Utils}.

Lemma pulled_refl (s : ServiceRuntime B) : pulled s s.
Proof.
  repeat split. exists []. by rewrite app_nil_r.
Qed.

Lemma PullImage_pulled (s s1 : ServiceRuntime B) (version : string)
    (r : option Docker.LocalImage * option error) :
  PullImage s version = Returned (r, s1) -> pulled s s1.
Proof.
  unfold PullImage.
  destruct (Docker.InspectImage (engine s) version) as [image [e|]].
  { intros [= <- <-]. apply pulled_refl. }
  destruct image as [img|].
  { intros [= <- <-]. apply pulled_refl. }
  destruct (pullRequest s version) as [[opts auth]|why]; simpl; [| done].
  unfold Docker.PullImage.
  destruct (negb (Docker.reachable (engine s))).
  { intros [= <- <-]. repeat split. by exists [Docker.PullCall opts auth]. }
  destruct (Docker.hub (engine s) !! Docker.Repository opts) as [brought|].
  - intros [= <- <-]. repeat split. by exists [Docker.PullCall opts auth].
  - intros [= <- <-]. repeat split. by exists [Docker.PullCall opts auth].
Qed.

Lemma CreateContainer_created (e e2 : Docker.Engine) (name : string) (config : Docker.Config)
    (container : option Docker.Container) :
  Docker.CreateContainer e name config = ((container, None), e2) ->
  exists id ids,
    Docker.idSupply e = id :: ids /\
    container = Some (fresh e id name config) /\
    Docker.reachable e2 = Docker.reachable e /\
    Docker.reachable e = true /\
    Docker.containers e2 = Docker.containers e ++ [fresh e id name config] /\
    Docker.idSupply e2 = ids /\
    Docker.crashing e2 = Docker.crashing e /\
    Docker.calls e2 =
      Docker.calls e ++ [Docker.CreateCall name (Docker.Image config) (Docker.Env config)].
Proof.
  unfold Docker.CreateContainer.
  destruct (Docker.reachable e) eqn:Hr; simpl; [| done].
  destruct (negb (bool_decide _)); [done |].
  destruct (negb (String.eqb name "") && _); [done |].
  destruct (Docker.idSupply e) as [|id ids] eqn:Hids; [done |].
  intros [= <- <-]. exists id, ids. by repeat split.
Qed.

(** The inspections that end Start find the container running. *)
Lemma Start_poll_running (e : Docker.Engine) (id : string) (c : Docker.Container) (i : nat)
    (r : option Docker.Container) :
  Docker.InspectContainer e id = (Some c, None) ->
  Start_poll e id i (Some c, None) = Returned (r, None) ->
  r = Some c /\ (i <> O -> Docker.Running (Docker.ContainerState c) = true).
Proof.
  intros Hi. induction i as [|i IH]; simpl.
  - intros [= <-]. done.
  - rewrite Hi. destruct (Docker.Running (Docker.ContainerState c)) eqn:Hrun; simpl; [| done].
    intros Hp. destruct (IH Hp) as [-> _]. done.
Qed.

(** And a container that runs passes them. *)
Lemma Start_poll_returns (e : Docker.Engine) (id : string) (c : Docker.Container) (i : nat) :
  Docker.InspectContainer e id = (Some c, None) ->
  Docker.Running (Docker.ContainerState c) = true ->
  Start_poll e id i (Some c, None) = Returned (Some c, None).
Proof.
  intros Hi Hrun. induction i as [|i IH]; simpl; [done |].
  by rewrite Hi, Hrun.
Qed.

#[local] Arguments Start_poll : simpl never.

(** A call of Start that returns without an error, where no container had
    the name: one container was created, with the next id of the engine and
    the name of the configuration, and started, and it runs; the calls
    received are pulls, the creation and the start. *)
Lemma Start_creates (s s1 : ServiceRuntime B) (serviceConfig : ServiceConfig)
    (c : option Docker.Container) (err0 : option error) :
  Docker.InspectContainer (engine s) (ContainerName serviceConfig) = (None, err0) ->
  isNoSuchContainer err0 = true ->
  freshId (engine s) = true ->
  Start s serviceConfig = Returned ((c, None), s1) ->
  exists id ids pulls envVars c',
    Docker.idSupply (engine s) = id :: ids /\
    c = Some c' /\
    Docker.ID c' = id /\
    Docker.Name c' =
      (if String.eqb (ContainerName serviceConfig) "" then ""
       else "/" +:+ ContainerName serviceConfig) /\
    Docker.Running (Docker.ContainerState c') = true /\
    Docker.ContainerConfig c' =
      {| Docker.Image := Version serviceConfig; Docker.Env := envVars |} /\
    Docker.containers (engine s1) = Docker.containers (engine s) ++ [c'] /\
    Docker.calls (engine s1) =
      Docker.calls (engine s) ++ pulls ++
      [Docker.CreateCall (ContainerName serviceConfig) (Version serviceConfig) envVars;
       Docker.StartCall id] /\
    forallb isPull pulls = true /\
    Docker.reachable (engine s1) = true /\
    backend s1 = backend s /\
    blacklistedContainerId s1 = blacklistedContainerId s.
Proof.
  intros Hnone Hno Hfresh. unfold Start.
  destruct (PullImage s (Version serviceConfig)) as [[[img perr] sp]|why] eqn:Hpull;
    simpl; [| done].
  destruct perr as [e|]; [done |].
  apply PullImage_pulled in Hpull.
  destruct Hpull as (Hb & Hbl & Hsh & Hr & Hcs & Hids & Hcr & pulls & Hcalls & Hpulls).
  destruct (ListApps (backend sp) "") as [[serviceConfigs lerr]|why]; simpl; [| done].
  destruct lerr as [e|]; [done |].
  destruct (InspectContainer_none _ _ _ Hnone Hno) as [Hreach Hres].
  set (cn := ContainerName serviceConfig) in *.
  unfold Docker.InspectContainer at 1. rewrite Hr, Hreach, Hcs, Hres. simpl.
  set (config := {| Docker.Image := Version serviceConfig; Docker.Env := _ |}).
  destruct (Docker.CreateContainer (engine sp) cn config) as [[container cerr] e2] eqn:Hcreate.
  destruct cerr as [e|]; [done |].
  apply CreateContainer_created in Hcreate.
  destruct Hcreate as (id & ids & Hsupply & -> & Hr2 & _ & Hcs2 & Hids2 & Hcr2 & Hcalls2).
  set (c0 := fresh (engine sp) id cn config) in *.
  assert (List.find (Docker.isID id) (Docker.containers (engine s)) = None) as Hfind.
  { apply find_none_forallb. unfold freshId in Hfresh.
    rewrite <- Hids, Hsupply in Hfresh. exact Hfresh. }
  assert (Docker.isID id c0 = true) as Hid0 by apply String.eqb_refl.
  unfold Docker.StartContainer. change (Docker.ID c0) with id.
  rewrite Hr2, Hr, Hreach, Hcs2, Hcs, find_app_last, Hfind, Hid0.
  cbn [negb Docker.received Docker.containers].
  rewrite Hcs2, Hcs, update_app_last by done.
  set (up := negb (bool_decide _)).
  set (c1 := Docker.setRunning up c0).
  set (e3 := Docker.withContainers _ _).
  assert (Docker.InspectContainer e3 id = (Some c1, None)) as Hinspect.
  { unfold Docker.InspectContainer. subst e3. simpl. rewrite Hr2, Hr, Hreach. simpl.
    unfold Docker.resolve. rewrite find_app_last, Hfind.
    assert (Docker.isID id c1 = true) as -> by apply String.eqb_refl. done. }
  rewrite Hinspect.
  destruct (Start_poll e3 id 5 (Some c1, None)) as [[r rerr]|why] eqn:Hpoll; simpl; [| done].
  intros [= -> -> <-].
  destruct (Start_poll_running _ _ _ _ _ Hinspect Hpoll) as [-> Hrun].
  assert (up = true) as Hup by (apply Hrun; done).
  exists id, ids, pulls, (Docker.Env config), c1.
  split; [by rewrite <- Hids |]. split; [done |].
  split; [done |]. split; [done |]. split; [by rewrite <- Hup |]. split; [done |].
  split; [done |]. split.
  { simpl. rewrite Hcalls2, Hcalls. by rewrite <- !app_assoc. }
  split; [done |]. split; [simpl; by rewrite Hr2, Hr |]. done.
Qed.

(** Start returns without an error where the image is local and does not
    crash, the registry lists its applications, and the engine has an id
    to give. *)
Lemma Start_returns (s : ServiceRuntime B) (serviceConfig : ServiceConfig)
    (img : Docker.LocalImage) (serviceConfigs : list ServiceConfig) :
  Docker.InspectContainer (engine s) (ContainerName serviceConfig)
    = (None, Some (NoSuchContainer (ContainerName serviceConfig))) ->
  freshId (engine s) = true ->
  Docker.images (engine s) !! Version serviceConfig = Some img ->
  Version serviceConfig ∉ Docker.crashing (engine s) ->
  ListApps (backend s) "" = Returned (serviceConfigs, None) ->
  Docker.idSupply (engine s) <> [] ->
  exists c s1, Start s serviceConfig = Returned ((c, None), s1).
Proof.
  intros Hnone Hfresh Himg Hcrash Hlist Hsupply.
  destruct (InspectContainer_none _ _ _ Hnone eq_refl) as [Hreach Hres].
  apply resolve_none in Hres as [HfindID HfindName].
  destruct (Docker.idSupply (engine s)) as [|id ids] eqn:Hids; [done |].
  unfold Start, PullImage, Docker.InspectImage. rewrite Hreach, Himg. simpl.
  rewrite Hlist. simpl. rewrite Hnone. simpl.
  set (cn := ContainerName serviceConfig) in *.
  set (config := {| Docker.Image := Version serviceConfig; Docker.Env := _ |}).
  destruct (CreateContainer_returns (engine s) cn config id ids img Hreach Himg HfindName Hids)
    as (e2 & -> & Hr2 & Hcs2 & Hcr2).
  set (c0 := fresh (engine s) id cn config) in *.
  assert (List.find (Docker.isID id) (Docker.containers (engine s)) = None) as Hfind.
  { apply find_none_forallb. unfold freshId in Hfresh. by rewrite Hids in Hfresh. }
  assert (List.find (Docker.isID id) (Docker.containers e2) = Some c0) as Hfind2.
  { rewrite Hcs2, find_app_last, Hfind.
    by assert (Docker.isID id c0 = true) as -> by apply String.eqb_refl. }
  change (Docker.ID c0) with id.
  destruct (StartContainer_returns e2 id c0 Hr2 Hfind2) as (e3 & -> & Hr3 & Hcs3).
  { by rewrite Hcr2. }
  set (c1 := Docker.setRunning true c0) in *.
  assert (Docker.InspectContainer e3 id = (Some c1, None)) as Hinspect.
  { unfold Docker.InspectContainer. rewrite Hr3, Hcs3, Hcs2. simpl.
    rewrite update_app_last by (done || apply String.eqb_refl).
    unfold Docker.resolve. rewrite find_app_last, Hfind.
    by assert (Docker.isID id (Docker.setRunning true c0) = true) as -> by apply String.eqb_refl. }
  rewrite Hinspect, (Start_poll_returns _ _ _ _ Hinspect eq_refl). simpl.
  by eexists _, _.
Qed.

Lemma filter_isCreate_pulls (pulls : list Docker.call) :
  forallb isPull pulls = true -> List.filter isCreate pulls = [].
Proof.
  induction pulls as [|p pulls IH]; [done |]. simpl.
  intros [Hp Hrest]%andb_prop. destruct p; try done. simpl. by apply IH.
Qed.

(** A first call of StartIfNotRunning that returns without an error, where
    no container had the name of the configuration: what it leaves, and
    what a call that follows it does. *)
Lemma StartIfNotRunning_first (s s1 : ServiceRuntime B) (serviceConfig : ServiceConfig)
    (changed : bool) (c : option Docker.Container) :
  Docker.InspectContainer (engine s) (ContainerName serviceConfig)
    = (None, Some (NoSuchContainer (ContainerName serviceConfig))) ->
  ContainerName serviceConfig <> "" ->
  freshId (engine s) = true ->
  StartIfNotRunning s serviceConfig = Returned ((changed, c, None), s1) ->
  changed = true /\
  creations (engine s1) = S (creations (engine s)) /\
  (exists c' new,
     c = Some c' /\
     Docker.Name c' = "/" +:+ ContainerName serviceConfig /\
     Docker.Running (Docker.ContainerState c') = true /\
     Docker.containers (engine s1) = Docker.containers (engine s) ++ [c'] /\
     (forall x, In x (Docker.containers (engine s)) -> Docker.ID x <> Docker.ID c') /\
     Docker.calls (engine s1) = Docker.calls (engine s) ++ new /\
     (forall x, In x (Docker.containers (engine s)) ->
        forallb (fun call => negb (touches (Docker.ID x) call)) new = true)) /\
  StartIfNotRunning s1 serviceConfig = Returned ((false, c, None), s1).
Proof.
  intros Hnone Hname Hfresh Hcall.
  set (cn := ContainerName serviceConfig) in *.
  unfold StartIfNotRunning in Hcall. fold cn in Hcall. rewrite Hnone in Hcall.
  destruct (Start s serviceConfig) as [[[c0 err] s0]|why] eqn:Hstart; [| done].
  simpl in Hcall. injection Hcall as <- <- -> <-.
  destruct (Start_creates s s0 serviceConfig c0 _ Hnone eq_refl Hfresh Hstart)
    as (id & ids & pulls & envVars & c' & Hsupply & -> & Hid & Hn & Hrun & Hcfg & Hcs &
        Hcalls & Hpulls & Hreach & Hb & Hbl).
  fold cn in Hn, Hcalls. apply String.eqb_neq in Hname. rewrite Hname in Hn.
  destruct (InspectContainer_none _ _ _ Hnone eq_refl) as [_ Hres].
  apply resolve_none in Hres as [HfindID HfindName].
  assert (forall x, In x (Docker.containers (engine s)) -> Docker.ID x <> Docker.ID c') as Hdistinct.
  { intros x Hx Heq. unfold freshId in Hfresh. rewrite Hsupply in Hfresh.
    rewrite forallb_forall in Hfresh. specialize (Hfresh x Hx).
    apply negb_true_iff in Hfresh. unfold Docker.isID in Hfresh.
    rewrite Heq, Hid, String.eqb_refl in Hfresh. discriminate. }
  split; [done |]. split.
  { unfold creations. rewrite Hcalls, !List.filter_app, (filter_isCreate_pulls pulls Hpulls).
    simpl. rewrite !length_app. simpl. lia. }
  split.
  { exists c', (pulls ++ [Docker.CreateCall cn (Version serviceConfig) envVars;
                          Docker.StartCall id]).
    split; [done |]. split; [done |]. split; [done |]. split; [done |].
    split; [done |]. split; [done |].
    intros x Hx. rewrite forallb_app. apply andb_true_intro. split.
    - clear -Hpulls. induction pulls as [|p pulls IH]; [done |]. simpl in *.
      apply andb_prop in Hpulls as [Hp Hrest]. rewrite (IH Hrest).
      by destruct p.
    - simpl. rewrite andb_true_r. apply negb_true_iff, String.eqb_neq.
      intros Heq. apply (Hdistinct x Hx). by rewrite Hid. }
  unfold StartIfNotRunning. fold cn.
  assert (Docker.InspectContainer (engine s0) cn = (Some c', None)) as ->.
  { unfold Docker.InspectContainer. rewrite Hreach, Hcs. simpl.
    unfold Docker.resolve. rewrite !find_app_last, HfindID, HfindName.
    destruct (Docker.isID cn c'); [done |].
    unfold Docker.isName. by rewrite Hn, String.eqb_refl. }
  simpl. rewrite Hn, TrimPrefix_slash.
  change ("/" +:+ cn) with (String slash cn).
  by rewrite string_cons_neq, andb_false_r, String.eqb_refl.
Qed.

(** Where no container has the name of the configuration, StartIfNotRunning
    returns without an error under the conditions of [Start_returns]. *)
Lemma StartIfNotRunning_returns (s : ServiceRuntime B) (serviceConfig : ServiceConfig)
    (img : Docker.LocalImage) (serviceConfigs : list ServiceConfig) :
  Docker.InspectContainer (engine s) (ContainerName serviceConfig)
    = (None, Some (NoSuchContainer (ContainerName serviceConfig))) ->
  freshId (engine s) = true ->
  Docker.images (engine s) !! Version serviceConfig = Some img ->
  Version serviceConfig ∉ Docker.crashing (engine s) ->
  ListApps (backend s) "" = Returned (serviceConfigs, None) ->
  Docker.idSupply (engine s) <> [] ->
  exists c s1, StartIfNotRunning s serviceConfig = Returned ((true, c, None), s1).
Proof.
  intros Hnone Hfresh Himg Hcrash Hlist Hsupply.
  destruct (Start_returns s serviceConfig img serviceConfigs
              Hnone Hfresh Himg Hcrash Hlist Hsupply) as (c & s1 & Hstart).
  exists c, s1. unfold StartIfNotRunning. by rewrite Hnone, Hstart.
Qed.

(** C4.  Where no container has the name of the configuration.  The first
    call of StartIfNotRunning returns without an error and reports a change
    when the image is local and does not crash, the registry lists its
    applications and the engine has an id to give.  And whenever the first
    call returns without an error: it reports a change, the engine was
    asked to create one container, which has the name of the configuration
    and runs; the second call, with the same configuration, reports no
    change, returns the same container, and leaves the runtime and the
    engine as they were, so creates nothing. *)
Theorem StartIfNotRunning_twice (s : ServiceRuntime B) (serviceConfig : ServiceConfig) :
  Docker.InspectContainer (engine s) (ContainerName serviceConfig)
    = (None, Some (NoSuchContainer (ContainerName serviceConfig))) ->
  ContainerName serviceConfig <> "" ->
  freshId (engine s) = true ->
  (forall img serviceConfigs,
     Docker.images (engine s) !! Version serviceConfig = Some img ->
     Version serviceConfig ∉ Docker.crashing (engine s) ->
     ListApps (backend s) "" = Returned (serviceConfigs, None) ->
     Docker.idSupply (engine s) <> [] ->
     exists c s1, StartIfNotRunning s serviceConfig = Returned ((true, c, None), s1)) /\
  (forall changed c s1,
     StartIfNotRunning s serviceConfig = Returned ((changed, c, None), s1) ->
     changed = true /\
     creations (engine s1) = S (creations (engine s)) /\
     (exists c',
        c = Some c' /\
        Docker.Name c' = "/" +:+ ContainerName serviceConfig /\
        Docker.Running (Docker.ContainerState c') = true /\
        In c' (Docker.containers (engine s1))) /\
     StartIfNotRunning s1 serviceConfig = Returned ((false, c, None), s1)).
Proof.
  intros Hnone Hname Hfresh. split.
  { intros img serviceConfigs. by apply StartIfNotRunning_returns. }
  intros changed c s1 Hcall.
  destruct (StartIfNotRunning_first s s1 serviceConfig changed c Hnone Hname Hfresh Hcall)
    as (Hchanged & Hcreated & (c' & new & -> & Hn & Hrun & Hcs & _) & Hsecond).
  split; [done |]. split; [done |]. split; [| done].
  exists c'. split; [done |]. split; [done |]. split; [done |].
  rewrite Hcs. apply in_or_app. right. by left.
Qed.

(** C5.  Where a running container named for an earlier version of the
    configuration is there and no container has the name of the current
    configuration.  StartIfNotRunning returns without an error and reports
    a change when the image is local and does not crash, the registry lists
    its applications and the engine has an id to give.  And whenever it
    returns without an error: it reports a change, a new container with
    the name of the current configuration was created and runs, and the
    earlier container is still among the containers, as it was: no call
    received by the engine started, stopped or removed it. *)
Theorem StartIfNotRunning_upgrade (s : ServiceRuntime B)
    (serviceConfig oldConfig : ServiceConfig) (old : Docker.Container) :
  In old (Docker.containers (engine s)) ->
  Docker.Running (Docker.ContainerState old) = true ->
  Docker.Name old = "/" +:+ ContainerName oldConfig ->
  ContainerName oldConfig <> ContainerName serviceConfig ->
  Docker.InspectContainer (engine s) (ContainerName serviceConfig)
    = (None, Some (NoSuchContainer (ContainerName serviceConfig))) ->
  ContainerName serviceConfig <> "" ->
  freshId (engine s) = true ->
  (forall img serviceConfigs,
     Docker.images (engine s) !! Version serviceConfig = Some img ->
     Version serviceConfig ∉ Docker.crashing (engine s) ->
     ListApps (backend s) "" = Returned (serviceConfigs, None) ->
     Docker.idSupply (engine s) <> [] ->
     exists c s1, StartIfNotRunning s serviceConfig = Returned ((true, c, None), s1)) /\
  (forall changed c s1,
     StartIfNotRunning s serviceConfig = Returned ((changed, c, None), s1) ->
     changed = true /\
     (exists c',
        c = Some c' /\
        Docker.Name c' = "/" +:+ ContainerName serviceConfig /\
        Docker.Running (Docker.ContainerState c') = true /\
        Docker.ID c' <> Docker.ID old /\
        In c' (Docker.containers (engine s1))) /\
     In old (Docker.containers (engine s1)) /\
     exists new,
       Docker.calls (engine s1) = Docker.calls (engine s) ++ new /\
       forallb (fun call => negb (touches (Docker.ID old) call)) new = true).
Proof.
  intros Hold _ _ _ Hnone Hname Hfresh. split.
  { intros img serviceConfigs. by apply StartIfNotRunning_returns. }
  intros changed c s1 Hcall.
  destruct (StartIfNotRunning_first s s1 serviceConfig changed c Hnone Hname Hfresh Hcall)
    as (Hchanged & _ & (c' & new & -> & Hn & Hrun & Hcs & Hdistinct & Hcalls & Hnew) & _).
  split; [done |]. split.
  { exists c'. split; [done |]. split; [done |]. split; [done |].
    split; [intros Heq; by apply (Hdistinct old Hold) |].
    rewrite Hcs. apply in_or_app. right. by left. }
  split; [rewrite Hcs; apply in_or_app; by left |].
  exists new. split; [done |]. by apply Hnew.
Qed.

End start.

Lemma StartIfNotRunning_twice_witness :
  Docker.InspectContainer (engineWith [] webLocal) "web_2"
    = (None, Some (NoSuchContainer "web_2")) /\
  freshId (engineWith [] webLocal) = true /\
  exists c s1,
    startIfNotRunning (runtimeOf (engineWith [] webLocal) emptyStore) (webConfig 2)
      = Returned ((true, c, None), s1) /\
    creations (Runtime.engine s1) = 1%nat /\
    startIfNotRunning s1 (webConfig 2) = Returned ((false, c, None), s1).
Proof.
  assert (Docker.InspectContainer (engineWith [] webLocal) "web_2"
          = (None, Some (NoSuchContainer "web_2"))) as Hnone by (vm_compute; reflexivity).
  assert (freshId (engineWith [] webLocal) = true) as Hfresh by (vm_compute; reflexivity).
  assert (@Registry.ContainerName Sample.naming (webConfig 2) <> "") as Hname
    by (vm_compute; discriminate).
  destruct (@StartIfNotRunning_twice _ MemBackend (@Sample.store Sample.text)
              Sample.naming Sample.utils
              (runtimeOf (engineWith [] webLocal) emptyStore) (webConfig 2)
              Hnone Hname Hfresh) as (Hreturns & Hspec).
  destruct (Hreturns webImage []) as (c & s1 & Hcall).
  - vm_compute. reflexivity.
  - apply not_elem_of_empty.
  - vm_compute. reflexivity.
  - discriminate.
  - destruct (Hspec true c s1 Hcall) as (_ & Hcreated & _ & Hsecond).
    split; [exact Hnone |]. split; [exact Hfresh |].
    exists c, s1. split; [exact Hcall |]. split; [exact Hcreated | exact Hsecond].
Defined.

Lemma StartIfNotRunning_upgrade_witness :
  In oldWeb (Docker.containers (engineWith [oldWeb] webLocal)) /\
  Docker.Name oldWeb = "/" +:+ @Registry.ContainerName Sample.naming (webConfig 1) /\
  exists c' s1 new,
    startIfNotRunning (runtimeOf (engineWith [oldWeb] webLocal) emptyStore) (webConfig 2)
      = Returned ((true, Some c', None), s1) /\
    Docker.Name c' = "/web_2" /\
    In oldWeb (Docker.containers (Runtime.engine s1)) /\
    Docker.calls (Runtime.engine s1) = new /\
    forallb (fun call => negb (touches (Docker.ID oldWeb) call)) new = true.
Proof.
  assert (In oldWeb (Docker.containers (engineWith [oldWeb] webLocal))) as Hold
    by (left; reflexivity).
  assert (Docker.Name oldWeb = "/" +:+ @Registry.ContainerName Sample.naming (webConfig 1))
    as Hn by (vm_compute; reflexivity).
  destruct (@StartIfNotRunning_upgrade _ MemBackend (@Sample.store Sample.text)
              Sample.naming Sample.utils
              (runtimeOf (engineWith [oldWeb] webLocal) emptyStore) (webConfig 2) (webConfig 1)
              oldWeb Hold eq_refl Hn)
    as (Hreturns & Hspec).
  - vm_compute. discriminate.
  - vm_compute. reflexivity.
  - vm_compute. discriminate.
  - vm_compute. reflexivity.
  - destruct (Hreturns webImage []) as (c & s1 & Hcall).
    + vm_compute. reflexivity.
    + apply not_elem_of_empty.
    + vm_compute. reflexivity.
    + discriminate.
    + destruct (Hspec true c s1 Hcall)
        as (_ & (c' & -> & Hn' & _) & Hstill & new & Hcalls & Hnew).
      split; [exact Hold |]. split; [exact Hn |].
      exists c', s1, new. split; [exact Hcall |]. split; [exact Hn' |].
      split; [exact Hstill |]. split; [exact Hcalls | exact Hnew].
Defined.

(** ** Stopping the superseded containers *)

Section reaping.
Import Registry Runtime.
Context {B : Type} `{!RegistryBackend B} `{!ConfigStore B} `{!ContainerNaming} `{!Utils}.

Lemma find_isID (id : string) (cs : list Docker.Container) :
  match List.find (Docker.isID id) cs with
  | Some c => In c cs /\ Docker.ID c = id
  | None => forall c, In c cs -> Docker.ID c <> id
  end.
Proof.
  destruct (List.find (Docker.isID id) cs) as [c|] eqn:Hf.
  - apply find_some in Hf as [Hin Hid]. split; [done |]. by apply String.eqb_eq.
  - intros c Hin Heq. pose proof (find_none _ _ Hf c Hin) as Hc.
    unfold Docker.isID in Hc. by rewrite Heq, String.eqb_refl in Hc.
Qed.

Lemma hangs_iff (e : Docker.Engine) (id : string) :
  hangs e id <->
  Docker.reachable e = true /\ id ∈ Docker.wedged e /\
  exists c, In c (Docker.containers e) /\ Docker.ID c = id.
Proof.
  unfold hangs, Docker.StopContainer.
  pose proof (find_isID id (Docker.containers e)) as Hfind.
  destruct (Docker.reachable e); simpl; [| split; [done | by intros [? _]]].
  destruct (List.find (Docker.isID id) (Docker.containers e)) as [c|].
  - destruct Hfind as [Hin Hid]. rewrite Hid.
    destruct (bool_decide (id ∈ Docker.wedged e)) eqn:Hw; simpl.
    + apply bool_decide_eq_true in Hw. split; [| done]. intros _. eauto.
    + apply bool_decide_eq_false in Hw.
      split; [by destruct (negb _) | by intros (_ & ? & _)].
  - split; [done |]. intros (_ & _ & c & Hin & Hid). by destruct (Hfind c Hin).
Qed.

Lemma In_update (id : string) (f : Docker.Container -> Docker.Container)
    (cs : list Docker.Container) (c : Docker.Container) :
  In c cs -> Docker.ID c <> id -> In c (Docker.update id f cs).
Proof.
  intros Hin Hne. induction cs as [|x cs IH]; [done |]. simpl.
  destruct Hin as [-> | Hin].
  - unfold Docker.isID. apply String.eqb_neq in Hne. rewrite Hne. by left.
  - destruct (Docker.isID id x); [by right | right; by apply IH].
Qed.

Lemma In_remove (id : string) (cs : list Docker.Container) (c : Docker.Container) :
  In c cs -> Docker.ID c <> id -> In c (Docker.remove id cs).
Proof.
  intros Hin Hne. induction cs as [|x cs IH]; [done |]. simpl.
  destruct Hin as [-> | Hin].
  - unfold Docker.isID. apply String.eqb_neq in Hne. rewrite Hne. by left.
  - destruct (Docker.isID id x); [done | right; by apply IH].
Qed.

(** What a stop does to the engine. *)
Lemma StopContainer_effect (e e1 : Docker.Engine) (id : string) (timeout : Z)
    (r : Docker.stopped) :
  Docker.StopContainer e id timeout = (r, e1) ->
  Docker.calls e1 = Docker.calls e ++ [Docker.StopCall id timeout] /\
  Docker.reachable e1 = Docker.reachable e /\
  Docker.wedged e1 = Docker.wedged e /\
  (forall c, In c (Docker.containers e) -> Docker.ID c <> id -> In c (Docker.containers e1)) /\
  (r <> Docker.StopReturns None -> Docker.containers e1 = Docker.containers e) /\
  (r = Docker.StopReturns None -> id ∉ Docker.wedged e).
Proof.
  unfold Docker.StopContainer.
  pose proof (find_isID id (Docker.containers e)) as Hfind.
  destruct (negb (Docker.reachable e)); [by intros [= <- <-] |].
  destruct (List.find (Docker.isID id) (Docker.containers e)) as [c|];
    [| by intros [= <- <-]].
  destruct Hfind as [Hin Hid]. rewrite Hid.
  destruct (bool_decide (id ∈ Docker.wedged e)) eqn:Hw; [by intros [= <- <-] |].
  apply bool_decide_eq_false in Hw.
  destruct (negb (Docker.Running (Docker.ContainerState c))); [by intros [= <- <-] |].
  intros [= <- <-]. simpl. repeat split; try done.
  intros x Hx Hne. by apply In_update.
Qed.

(** What a removal does to the engine. *)
Lemma RemoveContainer_effect (e e1 : Docker.Engine) (id : string) (rv : bool)
    (err : option error) :
  Docker.RemoveContainer e id rv = (err, e1) ->
  Docker.calls e1 = Docker.calls e ++ [Docker.RemoveCall id rv] /\
  Docker.reachable e1 = Docker.reachable e /\
  Docker.wedged e1 = Docker.wedged e /\
  (forall c, In c (Docker.containers e) -> Docker.ID c <> id -> In c (Docker.containers e1)).
Proof.
  unfold Docker.RemoveContainer.
  destruct (negb (Docker.reachable e)); [by intros [= <- <-] |].
  destruct (List.find (Docker.isID id) (Docker.containers e)) as [c|];
    [| by intros [= <- <-]].
  destruct (Docker.Running (Docker.ContainerState c)); [by intros [= <- <-] |].
  intros [= <- <-]. simpl. repeat split; try done.
  intros x Hx Hne. by apply In_remove.
Qed.

Lemma reaped_refl (s : ServiceRuntime B) : reaped s s.
Proof.
  split; try done. exists []. split; [by rewrite app_nil_r | by intros call []].
Qed.

Lemma hangs_reaped (s s' : ServiceRuntime B) (id : string) :
  reaped s s' -> hangs (engine s) id -> hangs (engine s') id.
Proof.
  intros [Hr Hw _ Hkept _]. rewrite !hangs_iff, Hr, Hw.
  intros (Hreach & Hin & c & Hc & Hid). split; [done |]. split; [done |].
  exists c. split; [| done]. apply Hkept; [done | by rewrite Hid].
Qed.

Lemma not_blacklisted_before (s s' : ServiceRuntime B) (id : string) :
  reaped s s' -> blacklisted s' id = false -> blacklisted s id = false.
Proof.
  intros Hr Hnot. destruct (blacklisted s id) eqn:Hb; [| done].
  by rewrite (reaped_blacklist _ _ Hr id Hb) in Hnot.
Qed.

Lemma reaped_trans (s s1 s2 : ServiceRuntime B) :
  reaped s s1 -> reaped s1 s2 -> reaped s s2.
Proof.
  intros H1 H2.
  destruct (reaped_calls _ _ H1) as (new1 & Hc1 & Hn1).
  destruct (reaped_calls _ _ H2) as (new2 & Hc2 & Hn2).
  split.
  - by rewrite (reaped_reachable _ _ H2), (reaped_reachable _ _ H1).
  - by rewrite (reaped_wedged _ _ H2), (reaped_wedged _ _ H1).
  - intros id Hid. by apply (reaped_blacklist _ _ H2), (reaped_blacklist _ _ H1).
  - intros c Hc Hw. apply (reaped_kept _ _ H2); [by apply (reaped_kept _ _ H1) |].
    by rewrite (reaped_wedged _ _ H1).
  - exists (new1 ++ new2). split; [by rewrite Hc2, Hc1, app_assoc |].
    intros call [Hin | Hin]%in_app_or.
    + specialize (Hn1 call Hin). destruct call; try done.
      destruct Hn1 as [Hnot Hhang]. split; [done |].
      intros Hh. by apply (reaped_blacklist _ _ H2), Hhang.
    + specialize (Hn2 call Hin). destruct call; try done.
      * destruct Hn2 as [Hnot Hhang]. split.
        { by eapply not_blacklisted_before. }
        intros Hh. apply Hhang. by eapply hangs_reaped.
      * destruct Hn2 as [Hnot Hwedged]. split.
        { by eapply not_blacklisted_before. }
        by rewrite <- (reaped_wedged _ _ H1).
Qed.

Lemma blacklisted_blacklist (s : ServiceRuntime B) (id id' : string) :
  blacklisted (blacklist id s) id' = String.eqb id id' || blacklisted s id'.
Proof.
  unfold blacklisted, blacklist. simpl. destruct (String.eqb id id') eqn:E.
  - apply String.eqb_eq in E. subst. rewrite lookup_insert_eq.
    apply bool_decide_eq_true_2. eauto.
  - apply String.eqb_neq in E. by rewrite lookup_insert_ne.
Qed.

(** The body of the inner loop. *)
Lemma reap_reaped (s s1 : ServiceRuntime B) (serviceConfig : ServiceConfig)
    (registry repository : string) (latestContainer : option Docker.Container)
    (now stopCutoff : Z) (container : Docker.APIContainers) :
  reap s serviceConfig registry repository latestContainer now stopCutoff container
    = Returned s1 ->
  reaped s s1.
Proof.
  unfold reap.
  destruct (Docker.apiNames container) as [|name names]; [intros [= <-]; apply reaped_refl |].
  destruct (negb (IsContainerVersion _ _)); [intros [= <-]; apply reaped_refl |].
  destruct (SplitDockerImage _) as [[containerReg containerRepo] tag].
  destruct (negb (_ && _)); [intros [= <-]; apply reaped_refl |].
  destruct latestContainer as [latest|]; [| done].
  destruct (negb (_ && _)); [intros [= <-]; apply reaped_refl |].
  set (id := Docker.apiID container).
  destruct (blacklisted s id) eqn:Hbl; [intros [= <-]; apply reaped_refl |].
  unfold slice_to. destruct (12 <=? String.length id)%nat; simpl; [| done].
  destruct (Docker.StopContainer (engine s) id 10) as [result e1] eqn:Hstop.
  destruct (StopContainer_effect _ _ _ _ _ Hstop) as (Hcalls & Hr & Hw & Hkeep & Hsame & Hnot).
  assert (~ hangs (engine s) id \/ result = Docker.StopHangs) as Hhang.
  { unfold hangs. rewrite Hstop. simpl. destruct result as [[e|]|]; auto. }
  destruct result as [[e|]|].
  - intros [= <-]. split; simpl; try done.
    + intros c Hc _. by rewrite Hsame.
    + exists [Docker.StopCall id 10]. split; [done |].
      intros call [<- | []]. split; [done |]. by destruct Hhang.
  - destruct (Docker.RemoveContainer e1 id true) as [rerr e2] eqn:Hremove.
    destruct (RemoveContainer_effect _ _ _ _ _ Hremove) as (Hcalls2 & Hr2 & Hw2 & Hkeep2).
    specialize (Hnot eq_refl).
    intros [= <-]. split; simpl.
    + by rewrite Hr2.
    + by rewrite Hw2.
    + done.
    + intros c Hc Hwc.
      assert (Docker.ID c <> id) as Hne by (intros Heq; by rewrite Heq in Hwc).
      apply Hkeep2; [by apply Hkeep | done].
    + exists [Docker.StopCall id 10; Docker.RemoveCall id true].
      split; [by rewrite Hcalls2, Hcalls, <- app_assoc |].
      intros call [<- | [<- | []]]; (split; [done |]); [by destruct Hhang | done].
  - intros [= <-]. split; simpl; try done.
    + intros id' Hid'. rewrite blacklisted_blacklist.
      change (blacklisted (withEngine s e1) id') with (blacklisted s id').
      by rewrite Hid', orb_true_r.
    + intros c Hc _. by rewrite Hsame.
    + exists [Docker.StopCall id 10]. split; [done |].
      intros call [<- | []]. split; [done |]. intros _.
      by rewrite blacklisted_blacklist, String.eqb_refl.
Qed.

(** The inner loop. *)
Lemma reapAll_reaped (containers : list Docker.APIContainers) (s s1 : ServiceRuntime B)
    (serviceConfig : ServiceConfig) (registry repository : string)
    (latestContainer : option Docker.Container) (now stopCutoff : Z) :
  reapAll s serviceConfig registry repository latestContainer now stopCutoff containers
    = Returned s1 ->
  reaped s s1.
Proof.
  revert s. induction containers as [|container containers IH]; intros s.
  - intros [= <-]. apply reaped_refl.
  - simpl.
    destruct (reap s serviceConfig registry repository latestContainer now stopCutoff container)
      as [s0|why] eqn:Hreap; simpl; [| done].
    intros Hrest. eapply reaped_trans; [by eapply reap_reaped | by apply IH].
Qed.

(** The outer loop. *)
Lemma StopAllButLatest_loop_reaped (serviceConfigs : list ServiceConfig)
    (s s1 : ServiceRuntime B) (containers : list Docker.APIContainers) (now stopCutoff : Z) :
  StopAllButLatest_loop s serviceConfigs containers now stopCutoff = Returned s1 ->
  reaped s s1.
Proof.
  revert s. induction serviceConfigs as [|serviceConfig serviceConfigs IH]; intros s.
  - intros [= <-]. apply reaped_refl.
  - simpl. destruct (SplitDockerImage _) as [[registry repository] tag].
    destruct (Docker.InspectContainer _ _) as [latestContainer err].
    destruct (negb (isNil err) && isNoSuchContainer err); [apply IH |].
    destruct (reapAll s serviceConfig registry repository latestContainer now stopCutoff
                containers) as [s0|why] eqn:Hreap; simpl; [| done].
    intros Hrest. eapply reaped_trans; [by eapply reapAll_reaped | by apply IH].
Qed.

Lemma StopAllButLatest_reaped (s s1 : ServiceRuntime B) (now stopCutoff : Z)
    (err : option error) :
  StopAllButLatest s now stopCutoff = Returned (err, s1) -> reaped s s1.
Proof.
  unfold StopAllButLatest.
  destruct (ListApps (backend s) "") as [[serviceConfigs lerr]|why]; simpl; [| done].
  destruct lerr as [e|]; [intros [= <- <-]; apply reaped_refl |].
  destruct (Docker.ListContainers (engine s) false) as [containers cerr].
  destruct cerr as [e|]; [intros [= <- <-]; apply reaped_refl |].
  destruct (StopAllButLatest_loop s serviceConfigs containers now stopCutoff)
    as [s0|why] eqn:Hloop; simpl; [| done].
  intros [= <- <-]. by eapply StopAllButLatest_loop_reaped.
Qed.

(** One call of StopAllButLatest that returns: the blacklist only grows,
    no call received by the engine asks to stop or to remove a container
    that was on the blacklist, and a stop received for a container whose
    stop does not return leaves it on the blacklist, not removed. *)
Lemma StopAllButLatest_call (s s1 : ServiceRuntime B) (now stopCutoff : Z)
    (err : option error) :
  StopAllButLatest s now stopCutoff = Returned (err, s1) ->
  exists new,
    Docker.calls (engine s1) = Docker.calls (engine s) ++ new /\
    (forall id, blacklisted s id = true -> blacklisted s1 id = true) /\
    (forall id, blacklisted s id = true ->
       forallb (fun call => negb (targets id call)) new = true) /\
    (forall id timeout, In (Docker.StopCall id timeout) new -> hangs (engine s) id ->
       blacklisted s1 id = true /\
       (forall rv, ~ In (Docker.RemoveCall id rv) new) /\
       (forall c, In c (Docker.containers (engine s)) -> Docker.ID c = id ->
          In c (Docker.containers (engine s1)))).
Proof.
  intros Hcall. apply StopAllButLatest_reaped in Hcall as Hr.
  destruct (reaped_calls _ _ Hr) as (new & Hcalls & Hnew).
  exists new. split; [done |]. split; [apply (reaped_blacklist _ _ Hr) |]. split.
  - intros id Hid. apply forallb_forall. intros call Hin.
    specialize (Hnew call Hin). apply negb_true_iff.
    destruct call as [| |i t|i rv|]; try done; simpl.
    + destruct Hnew as [Hnot _]. apply String.eqb_neq. intros ->. congruence.
    + destruct Hnew as [Hnot _]. apply String.eqb_neq. intros ->. congruence.
  - intros id timeout Hin Hhang.
    destruct (Hnew _ Hin) as [_ Hbl]. split; [by apply Hbl |].
    apply hangs_iff in Hhang as (_ & Hw & _). split.
    + intros rv Hrv. by destruct (Hnew _ Hrv) as [_ Hnw].
    + intros c Hc Hid. apply (reaped_kept _ _ Hr); [done | by rewrite Hid].
Qed.

Lemma later_blacklisted (s s1 : ServiceRuntime B) (id : string) :
  later s s1 -> blacklisted s id = true -> blacklisted s1 id = true.
Proof.
  induction 1 as [s|s s1 s2 _ IH Hsame|s s1 s2 now stopCutoff err _ IH Hcall]; intros Hid.
  - done.
  - unfold blacklisted. rewrite Hsame. by apply IH.
  - destruct (StopAllButLatest_call _ _ _ _ _ Hcall) as (_ & _ & Hgrow & _).
    by apply Hgrow, IH.
Qed.

(** C6.  Take a call of StopAllButLatest that returns, and a container
    that the call asked the engine to stop and whose stop does not return
    within the bound.  After the call the container's id is on the
    blacklist, the call did not ask to remove the container, and the
    container is still there.  And in every later call of StopAllButLatest
    that returns, whatever the process did in between and whatever the
    engine, the registry, the time and the cutoff then are, no request
    received by the engine asks to stop or to remove that container. *)
Theorem StopAllButLatest_blacklists (s s1 : ServiceRuntime B) (now stopCutoff : Z)
    (err : option error) (id : string) (timeout : Z) (new : list Docker.call) :
  StopAllButLatest s now stopCutoff = Returned (err, s1) ->
  Docker.calls (engine s1) = Docker.calls (engine s) ++ new ->
  In (Docker.StopCall id timeout) new ->
  hangs (engine s) id ->
  blacklisted s1 id = true /\
  (forall rv, ~ In (Docker.RemoveCall id rv) new) /\
  (forall c, In c (Docker.containers (engine s)) -> Docker.ID c = id ->
     In c (Docker.containers (engine s1))) /\
  (forall (s2 s3 : ServiceRuntime B) (now' stopCutoff' : Z) (err' : option error),
     later s1 s2 ->
     StopAllButLatest s2 now' stopCutoff' = Returned (err', s3) ->
     blacklisted s3 id = true /\
     exists new', Docker.calls (engine s3) = Docker.calls (engine s2) ++ new' /\
                  forallb (fun call => negb (targets id call)) new' = true).
Proof.
  intros Hcall Hcalls Hin Hhang.
  destruct (StopAllButLatest_call _ _ _ _ _ Hcall) as (new0 & Hcalls0 & _ & _ & Hstop).
  assert (new0 = new) as -> by (rewrite Hcalls0 in Hcalls; by apply app_inv_head in Hcalls).
  destruct (Hstop id timeout Hin Hhang) as (Hbl & Hrm & Hkept).
  split; [done |]. split; [done |]. split; [done |].
  intros s2 s3 now' stopCutoff' err' Hlater Hcall'.
  assert (blacklisted s2 id = true) as Hbl2 by by eapply later_blacklisted.
  destruct (StopAllButLatest_call _ _ _ _ _ Hcall') as (new' & Hcalls' & Hgrow & Hskip & _).
  split; [by apply Hgrow |]. exists new'. split; [done | by apply Hskip].
Qed.

End reaping.

Lemma StopAllButLatest_blacklists_witness :
  hangs zombieEngine (Docker.ID oldWeb) /\
  stopAllButLatest (runtimeOf zombieEngine (watchedStore (webConfig 2))) 1400000100 10
    = Returned (None, zombieRuntime) /\
  Docker.calls (Runtime.engine zombieRuntime) = [Docker.StopCall (Docker.ID oldWeb) 10] /\
  Runtime.blacklisted zombieRuntime (Docker.ID oldWeb) = true /\
  In oldWeb (Docker.containers (Runtime.engine zombieRuntime)) /\
  stopAllButLatest zombieRuntime 1400000200 10 = Returned (None, zombieRuntime) /\
  exists new',
    Docker.calls (Runtime.engine zombieRuntime)
      = Docker.calls (Runtime.engine zombieRuntime) ++ new' /\
    forallb (fun call => negb (targets (Docker.ID oldWeb) call)) new' = true.
Proof.
  assert (hangs zombieEngine (Docker.ID oldWeb)) as Hhang by (vm_compute; reflexivity).
  assert (stopAllButLatest (runtimeOf zombieEngine (watchedStore (webConfig 2))) 1400000100 10
          = Returned (None, zombieRuntime)) as Hcall by (vm_compute; reflexivity).
  assert (Docker.calls (Runtime.engine zombieRuntime)
          = Docker.calls (Runtime.engine (runtimeOf zombieEngine (watchedStore (webConfig 2))))
            ++ [Docker.StopCall (Docker.ID oldWeb) 10]) as Hcalls by reflexivity.
  assert (stopAllButLatest zombieRuntime 1400000200 10 = Returned (None, zombieRuntime))
    as Hcall' by (vm_compute; reflexivity).
  destruct (@StopAllButLatest_blacklists _ MemBackend (@Sample.store Sample.text)
              Sample.naming Sample.utils
              (runtimeOf zombieEngine (watchedStore (webConfig 2))) zombieRuntime
              1400000100 10 None
              (Docker.ID oldWeb) 10 [Docker.StopCall (Docker.ID oldWeb) 10]
              Hcall Hcalls (or_introl eq_refl) Hhang)
    as (Hbl & _ & Hkept & Hlater).
  destruct (Hlater zombieRuntime zombieRuntime 1400000200 10 None
              (later_now zombieRuntime) Hcall') as (_ & Hnew).
  split; [exact Hhang |].
  split; [exact Hcall |]. split; [reflexivity |]. split; [exact Hbl |].
  split; [apply Hkept; [left; reflexivity | reflexivity] |].
  split; [exact Hcall' | exact Hnew].
Defined.

(** * Further properties *)

(** ** Change detection over a run *)

Section change_runs.
Import Registry Notify.

Lemma latest_app (a : Z) (l l' : list Z) :
  latest a (l ++ l') = latest (latest a l) l'.
Proof. apply fold_left_app. Qed.

Lemma alternates_app (a : Z) (l l' : list Z) :
  alternates a l -> alternates (latest a l) l' -> alternates a (l ++ l').
Proof.
  revert a. induction l as [|x l IH]; intros a; simpl; [done |].
  intros [Hx Hl] Hl'. split; [done |]. by apply IH.
Qed.

Lemma versionsOf_app (name : string) (sent sent' : list ConfigChange) :
  versionsOf name (sent ++ sent') = versionsOf name sent ++ versionsOf name sent'.
Proof. apply omap_app. Qed.

(** One pass of the inner loop: the identifiers sent for an application
    alternate from the remembered one, and the last of them is the one
    remembered afterwards. *)
Lemma detect_alternates (configs : list ServiceConfig) (lv : gmap string Z) (name : string) :
  alternates (lastSeen lv name) (versionsOf name (detect configs lv).2) /\
  lastSeen (detect configs lv).1 name =
    latest (lastSeen lv name) (versionsOf name (detect configs lv).2).
Proof.
  revert lv. induction configs as [|c configs IH]; intros lv; [done |].
  simpl. destruct (ID c =? lastSeen lv (Name c)) eqn:Hid; simpl.
  - apply IH.
  - destruct (detect configs (<[Name c := ID c]> lv)) as [lv' sent] eqn:Hd.
    specialize (IH (<[Name c := ID c]> lv)). rewrite Hd in IH. simpl in *.
    unfold versionsOf in *. simpl.
    destruct (String.eqb (Name c) name) eqn:Hn.
    + apply String.eqb_eq in Hn. subst name. rewrite lastSeen_insert in IH.
      apply Z.eqb_neq in Hid. destruct IH as [IH1 IH2].
      split; [split; [exact Hid | exact IH1] | exact IH2].
    + apply String.eqb_neq in Hn. by rewrite lastSeen_insert_ne in IH.
Qed.

Lemma alternates_stutterFree (a : Z) (l : list Z) : alternates a l -> stutterFree l.
Proof. destruct l; [done |]. by intros [_ H]. Qed.

Context {B : Type} `{!RegistryBackend B} `{!ConfigStore B}.

Lemma checkForChanges_pass_alternates (p p1 : poller) (b : B) (sent : list ConfigChange)
    (name : string) :
  checkForChanges_pass p b = Returned (p1, sent) ->
  (stage p = Polling ->
     stage p1 = Polling /\
     alternates (lastSeen (lastVersion p) name) (versionsOf name sent) /\
     lastSeen (lastVersion p1) name =
       latest (lastSeen (lastVersion p) name) (versionsOf name sent)) /\
  (stage p = Seeding -> versionsOf name sent = []).
Proof.
  unfold checkForChanges_pass.
  destruct (ListApps b "") as [[configs [e|]]|why]; [| | done].
  - intros [= <- <-]. split; [by intros -> | done].
  - destruct (stage p) eqn:Hstage.
    + intros [= <- <-]. done.
    + destruct (detect configs (lastVersion p)) as [lv sent'] eqn:Hd.
      intros [= <- <-]. split; [| done]. intros _. split; [done |].
      pose proof (detect_alternates configs (lastVersion p) name) as Hdet.
      by rewrite Hd in Hdet.
Qed.

(** X1.  Over any run of checkForChanges that returns, from any poller:
    the changes sent for an application never carry the same version
    identifier twice in a row.  From a poller past its first loop, the
    first identifier sent differs from the remembered one, and the one
    remembered at the end is the last one sent, or the one remembered
    before when none was. *)
Theorem checkForChanges_alternates (seen : list B) (p p' : poller)
    (sent : list ConfigChange) (name : string) :
  checkForChanges p seen = Returned (p', sent) ->
  stutterFree (versionsOf name sent) /\
  (stage p = Polling ->
     stage p' = Polling /\
     alternates (lastSeen (lastVersion p) name) (versionsOf name sent) /\
     lastSeen (lastVersion p') name =
       latest (lastSeen (lastVersion p) name) (versionsOf name sent)).
Proof.
  revert p p' sent. induction seen as [|b seen IH]; intros p p' sent.
  - intros [= <- <-]. done.
  - simpl.
    destruct (checkForChanges_pass p b) as [[p1 sent1]|why] eqn:Hpass; [| done].
    destruct (checkForChanges p1 seen) as [[p2 sent2]|why] eqn:Hrest; [| done].
    intros [= <- <-].
    destruct (checkForChanges_pass_alternates p p1 b sent1 name Hpass) as [Hpolling Hseeding].
    destruct (IH p1 p2 sent2 Hrest) as [Hfree Hrun].
    rewrite versionsOf_app.
    assert (stage p = Polling ->
            stage p2 = Polling /\
            alternates (lastSeen (lastVersion p) name)
              (versionsOf name sent1 ++ versionsOf name sent2) /\
            lastSeen (lastVersion p2) name =
              latest (lastSeen (lastVersion p) name)
                (versionsOf name sent1 ++ versionsOf name sent2)) as Hgoal.
    { intros Hp. destruct (Hpolling Hp) as (Hp1 & Halt1 & Hlast1).
      destruct (Hrun Hp1) as (Hp2 & Halt2 & Hlast2).
      split; [done |]. rewrite latest_app, <- Hlast1. split; [| done].
      apply alternates_app; [done |]. by rewrite <- Hlast1. }
    split; [| done].
    destruct (stage p) eqn:Hstage.
    + by rewrite (Hseeding eq_refl).
    + destruct (Hgoal eq_refl) as (_ & Halt & _). by eapply alternates_stutterFree.
Qed.

End change_runs.

Lemma checkForChanges_alternates_witness :
  exists p' sent,
    @Notify.checkForChanges _ _ (@Sample.store Sample.text) Notify.start
      [watchedStore (webConfig 1); watchedStore (webConfig 2); watchedStore (webConfig 2);
       watchedStore (webConfig 3)]
      = Returned (p', sent) /\
    versionsOf "web" sent = [2; 3] /\
    stutterFree (versionsOf "web" sent).
Proof.
  assert (exists p' sent,
            @Notify.checkForChanges _ _ (@Sample.store Sample.text) Notify.start
              [watchedStore (webConfig 1); watchedStore (webConfig 2);
               watchedStore (webConfig 2); watchedStore (webConfig 3)]
            = Returned (p', sent) /\
            versionsOf "web" sent = [2; 3]) as (p' & sent & Hrun & Hids)
    by (eexists _, _; split; vm_compute; reflexivity).
  exists p', sent. split; [exact Hrun |]. split; [exact Hids |].
  exact (proj1 (checkForChanges_alternates _ _ _ _ "web" Hrun)).
Defined.

(** ** Environments, pools and assignments *)

Section environments.
Import Registry.
Context {B : Type} `{!RegistryBackend B} `{!ConfigStore B}.

Lemma StringInSlice_elem_of (a : string) (l : list string) :
  StringInSlice a l = true <-> a ∈ l.
Proof.
  unfold StringInSlice. rewrite existsb_exists. split.
  - intros (x & Hx & Heq). apply String.eqb_eq in Heq. subst. by apply list_elem_of_In.
  - intros Hin. exists a. split; [by apply list_elem_of_In | apply String.eqb_refl].
Qed.

Lemma ListEnvs_loop_spec (apps envs : list string) :
  NoDup envs ->
  NoDup (ListEnvs_loop apps envs) /\
  (forall e, e ∈ ListEnvs_loop apps envs <->
             e ∈ envs \/ exists app, app ∈ apps /\ envOfKey app = e) /\
  exists more, ListEnvs_loop apps envs = envs ++ more.
Proof.
  revert envs. induction apps as [|app apps IH]; intros envs Hnd.
  - simpl. split; [done |]. split.
    + intros e. split; [by left |]. intros [H | (app & Hin & _)]; [done |].
      by apply elem_of_nil in Hin.
    + exists []. by rewrite app_nil_r.
  - simpl. fold (envOfKey app).
    destruct (StringInSlice (envOfKey app) envs) eqn:Hin; simpl.
    + apply StringInSlice_elem_of in Hin.
      destruct (IH envs Hnd) as (Hnd' & Hmem & Hmore). split; [done |]. split; [| done].
      intros e. rewrite Hmem. split.
      * intros [H | (a & Ha & Hae)]; [by left |]. right. exists a. split; [by right | done].
      * intros [H | (a & Ha & Hae)]; [by left |].
        apply elem_of_cons in Ha as [-> | Ha]; [left; by subst | right; by exists a].
    + assert (envOfKey app ∉ envs) as Hnot.
      { intros H. apply StringInSlice_elem_of in H. congruence. }
      assert (NoDup (envs ++ [envOfKey app])) as Hnd1.
      { apply NoDup_app. split; [done |]. split; [| apply NoDup_singleton].
        intros x Hx Hx'. apply list_elem_of_singleton in Hx'. by subst. }
      destruct (IH _ Hnd1) as (Hnd' & Hmem & more & Hmore). split; [done |]. split.
      * intros e. rewrite Hmem, elem_of_app, list_elem_of_singleton. split.
        -- intros [[H | ->] | (a & Ha & Hae)]; [by left | |].
           ++ right. exists app. split; [by left | done].
           ++ right. exists a. split; [by right | done].
        -- intros [H | (a & Ha & Hae)]; [by left; left |].
           apply elem_of_cons in Ha as [-> | Ha]; [left; by right | right; by exists a].
      * exists (envOfKey app :: more). by rewrite Hmore, <- app_assoc.
Qed.

(** X2.  ListEnvs returns the error of a failed listing of the keys, and
    no environment.  Of the keys listed, it returns the first component of
    each, each once. *)
Theorem ListEnvs_spec (b : B) (apps : list string) (err : option error) :
  Keys b (PathJoin ["*"; "*"; "environment"]) = (apps, err) ->
  match err with
  | Some e => ListEnvs b = ([], Some e)
  | None =>
      exists envs,
        ListEnvs b = (envs, None) /\
        NoDup envs /\
        forall e, e ∈ envs <-> exists app, app ∈ apps /\ envOfKey app = e
  end.
Proof.
  intros Hkeys. unfold ListEnvs. rewrite Hkeys. destruct err as [e|]; [done |].
  destruct (ListEnvs_loop_spec apps [] (NoDup_nil_2)) as (Hnd & Hmem & _).
  eexists. split; [done |]. split; [done |].
  intros e. rewrite Hmem. split; [| by right].
  intros [H | H]; [by apply elem_of_nil in H | done].
Qed.

(** The loop of ListPools, where the assignments of every pool can be
    listed. *)
Lemma ListPools_loop_listed (b : B) (env : string) (matches : list string)
    (m : gmap string (list string)) :
  (forall p, p ∈ matches -> (ListAssignments b env p).2 = None) ->
  exists pools,
    ListPools_loop b env matches m = (pools, None) /\
    forall pool,
      pools !! pool =
      if decide (pool ∈ matches) then Some (ListAssignments b env pool).1 else m !! pool.
Proof.
  revert m. induction matches as [|p matches IH]; intros m Hok.
  - exists m. split; [done |]. intros pool. destruct (decide _) as [H|]; [| done].
    by apply elem_of_nil in H.
  - simpl. pose proof (Hok p (list_elem_of_here _ _)) as Hp.
    destruct (ListAssignments b env p) as [members err] eqn:Hla. simpl in Hp. subst err.
    destruct (IH (<[p := members]> m)) as (pools & Hloop & Hpools).
    { intros q Hq. apply Hok. by right. }
    exists pools. split; [done |]. intros pool. rewrite Hpools.
    destruct (decide (pool ∈ matches)) as [Hin|Hnin].
    + rewrite decide_True by by right. done.
    + destruct (decide (pool = p)) as [->|Hne].
      * rewrite decide_True by by left. by rewrite lookup_insert_eq, Hla.
      * rewrite decide_False; [by rewrite lookup_insert_ne |].
        intros [-> | H]%elem_of_cons; done.
Qed.

(** And where those of one cannot. *)
Lemma ListPools_loop_fails (b : B) (env : string) (pre post : list string) (p : string)
    (e : error) (m : gmap string (list string)) :
  (forall q, q ∈ pre -> (ListAssignments b env q).2 = None) ->
  (ListAssignments b env p).2 = Some e ->
  (ListPools_loop b env (pre ++ p :: post) m).2 = Some e.
Proof.
  revert m. induction pre as [|q pre IH]; intros m Hok Hp; simpl.
  - destruct (ListAssignments b env p) as [members err]. simpl in Hp. by subst err.
  - pose proof (Hok q (list_elem_of_here _ _)) as Hq.
    destruct (ListAssignments b env q) as [members err]. simpl in Hq. subst err.
    apply IH; [| done]. intros r Hr. apply Hok. by right.
Qed.

(** X3.  Where the pools of an environment are listed.  When the
    assignments of each can be listed, ListPools maps every pool listed,
    and no other, to its assignments, and PoolExists answers whether the
    pool is listed.  When the assignments of one pool cannot be listed,
    ListPools returns that error, and PoolExists answers false with that
    error for every pool, the listed ones too. *)
Theorem PoolExists_spec (b : B) (env : string) (matches : list string) :
  Members b (PathJoin [env; "pools"; "*"]) = (matches, None) ->
  ((forall p, p ∈ matches -> (ListAssignments b env p).2 = None) ->
     exists pools,
       ListPools b env = (pools, None) /\
       (forall pool,
          pools !! pool =
          if decide (pool ∈ matches) then Some (ListAssignments b env pool).1 else None) /\
       (forall pool, PoolExists b env pool = (bool_decide (pool ∈ matches), None))) /\
  (forall pre p post e,
     matches = pre ++ p :: post ->
     (forall q, q ∈ pre -> (ListAssignments b env q).2 = None) ->
     (ListAssignments b env p).2 = Some e ->
     (ListPools b env).2 = Some e /\
     forall pool, PoolExists b env pool = (false, Some e)).
Proof.
  intros Hmembers. split.
  - intros Hok. destruct (ListPools_loop_listed b env matches ∅ Hok) as (pools & Hloop & Hpools).
    assert (ListPools b env = (pools, None)) as Hlist.
    { unfold ListPools. by rewrite Hmembers. }
    exists pools. split; [done |]. split; [done |].
    intros pool. unfold PoolExists. rewrite Hlist, Hpools.
    destruct (decide (pool ∈ matches)) as [Hin|Hnin].
    + by rewrite (bool_decide_eq_true_2 _ Hin).
    + by rewrite (bool_decide_eq_false_2 _ Hnin).
  - intros pre p post e -> Hok Hp.
    pose proof (ListPools_loop_fails b env pre post p e ∅ Hok Hp) as Hfail.
    assert ((ListPools b env).2 = Some e) as Hlist.
    { unfold ListPools. by rewrite Hmembers. }
    split; [done |]. intros pool. unfold PoolExists.
    destruct (ListPools b env) as [pools err]. simpl in Hlist. by subst err.
Qed.

(** X4.  AssignApp writes nothing and sends nothing unless the application
    and the pool exist.  For an application without a key it answers false
    and no error.  For one with a key, it answers that the pool does not
    exist when the pool is not listed, and also when the existence of the
    pool cannot be told, whatever the error was.  Otherwise it adds the
    application to the pool's set, and when that does not fail it notifies
    of a restart, also when the application was a member already, and
    answers whether a member was added. *)
Theorem AssignApp_spec (b : B) (app env pool : string) :
  (forall err, Keys b (PathJoin [env; app; "*"]) = ([], err) ->
     AssignApp b app env pool = ((false, err), b)) /\
  (forall key keys exists_ err,
     Keys b (PathJoin [env; app; "*"]) = (key :: keys, None) ->
     PoolExists b env pool = (exists_, err) ->
     (exists_ = false \/ err <> None) ->
     AssignApp b app env pool =
       ((false, Some (ErrMsg ("pool " +:+ pool +:+ " does not exist"))), b)) /\
  (forall key keys added err b1,
     Keys b (PathJoin [env; app; "*"]) = (key :: keys, None) ->
     PoolExists b env pool = (true, None) ->
     AddMember b (PathJoin [env; "pools"; pool]) app = ((added, err), b1) ->
     AssignApp b app env pool =
       match err with
       | Some e => ((false, Some e), b1)
       | None =>
           let '(nerr, b2) := NotifyRestart b1 app env in ((added =? 1, nerr), b2)
       end).
Proof.
  split; [| split].
  - intros err Hkeys. unfold AssignApp, AppExists. rewrite Hkeys. by destruct err.
  - intros key keys exists_ err Hkeys Hpool Hno. unfold AssignApp, AppExists.
    rewrite Hkeys, Hpool. simpl.
    destruct Hno as [-> | Herr]; [done |]. destruct err; [| done]. by rewrite orb_true_r.
  - intros key keys added err b1 Hkeys Hpool Hadd. unfold AssignApp, AppExists.
    rewrite Hkeys, Hpool, Hadd. simpl. by destruct err.
Qed.

End environments.

Lemma ListEnvs_spec_witness :
  exists envs,
    @Registry.ListEnvs _ MemBackend twoEnvStore = (envs, None) /\
    NoDup envs /\ "prod" ∈ envs /\ "stage" ∈ envs /\ length envs = 2%nat.
Proof.
  pose proof (@ListEnvs_spec _ MemBackend twoEnvStore
                (Keys twoEnvStore (PathJoin ["*"; "*"; "environment"])).1 None) as Hspec.
  destruct Hspec as (envs & Hlist & Hnd & Hmem); [vm_compute; reflexivity |].
  exists envs. split; [exact Hlist |]. split; [exact Hnd |].
  split; [| split].
  - apply Hmem. exists "prod/web/environment". split; [| reflexivity].
    apply list_elem_of_In. vm_compute. tauto.
  - apply Hmem. exists "stage/web/environment". split; [| reflexivity].
    apply list_elem_of_In. vm_compute. tauto.
  - revert Hlist. vm_compute. intros [= <-]. reflexivity.
Defined.

Lemma PoolExists_spec_witness :
  Members poolStore (PathJoin ["prod"; "pools"; "*"]) = (["web"], None) /\
  @Registry.PoolExists _ MemBackend poolStore "prod" "web" = (true, None) /\
  @Registry.PoolExists _ MemBackend poolStore "prod" "db" = (false, None).
Proof.
  assert (Members poolStore (PathJoin ["prod"; "pools"; "*"]) = (["web"], None)) as Hmembers
    by (vm_compute; reflexivity).
  destruct (@PoolExists_spec _ MemBackend poolStore "prod" ["web"] Hmembers) as [Hlisted _].
  destruct Hlisted as (pools & _ & _ & Hexists).
  - intros p ->%list_elem_of_singleton. vm_compute. reflexivity.
  - split; [exact Hmembers |]. split.
    + rewrite (Hexists "web"). reflexivity.
    + rewrite (Hexists "db"). reflexivity.
Defined.

Section listing_apps.
Import Registry.
Context {B : Type} `{!RegistryBackend B} `{!ConfigStore B}.

Lemma ListApps_loop_configured (b : B) (env : string) (keys : list string)
    (appList : list ServiceConfig) :
  allConfigured b env keys ->
  ListApps_loop b env keys appList = Returned (appList ++ omap (configAt b env) keys, None).
Proof.
  revert appList. induction keys as [|key keys IH]; intros appList Hall.
  - simpl. by rewrite app_nil_r.
  - assert (allConfigured b env keys) as Hall' by (intros k Hk; apply Hall; by right).
    cbn [omap list_omap]. unfold configAt at 1. destruct (appKey key) eqn:Hkey.
    + rewrite ListApps_loop_step by done.
      destruct (Hall key (or_introl eq_refl) Hkey) as (cfg & Hcfg). rewrite Hcfg. simpl.
      rewrite IH by done. by rewrite <- app_assoc.
    + rewrite ListApps_loop_skip by done. by apply IH.
Qed.

Lemma ListApps_loop_panics (b : B) (env : string) (pre : list string) (key : string)
    (post : list string) (appList : list ServiceConfig) :
  allConfigured b env pre ->
  appKey key = true ->
  GetServiceConfig b (appOf key) env = (None, None) ->
  ListApps_loop b env (pre ++ key :: post) appList = Panicked "nil pointer dereference".
Proof.
  intros Hpre Hkey Hnil. revert appList.
  induction pre as [|k pre IH]; intros appList.
  - simpl app. rewrite ListApps_loop_step by done. by rewrite Hnil.
  - assert (allConfigured b env pre) as Hpre' by (intros x Hx; apply Hpre; by right).
    simpl app. destruct (appKey k) eqn:Hk.
    + rewrite ListApps_loop_step by done.
      destruct (Hpre k (or_introl eq_refl) Hk) as (cfg & Hcfg). rewrite Hcfg. by apply IH.
    + rewrite ListApps_loop_skip by done. by apply IH.
Qed.

(** X19.  ListApps returns the error of a failed listing of the keys.
    Of the keys listed it passes over those that are not an
    application's, and when every application of a key has its
    configuration it returns these configurations, in the order of the
    keys.  When the configuration of an application of a key is not
    there, and reading it gives no error, the call panics. *)
Theorem ListApps_spec (b : B) (env : string) :
  (forall keys e,
     Keys b (PathJoin [env; "*"; "environment"]) = (keys, Some e) ->
     ListApps b env = Returned ([], Some e)) /\
  (forall keys,
     Keys b (PathJoin [env; "*"; "environment"]) = (keys, None) ->
     allConfigured b env keys ->
     ListApps b env = Returned (omap (configAt b env) keys, None)) /\
  (forall pre key post,
     Keys b (PathJoin [env; "*"; "environment"]) = (pre ++ key :: post, None) ->
     allConfigured b env pre ->
     appKey key = true ->
     GetServiceConfig b (appOf key) env = (None, None) ->
     exists why, ListApps b env = Panicked why).
Proof.
  split; [| split].
  - intros keys e Hkeys. unfold ListApps. by rewrite Hkeys.
  - intros keys Hkeys Hall. unfold ListApps. rewrite Hkeys.
    by rewrite ListApps_loop_configured.
  - intros pre key post Hkeys Hpre Hkey Hnil. unfold ListApps. rewrite Hkeys.
    eexists. by apply ListApps_loop_panics.
Qed.

End listing_apps.

Section deleting_apps.
Import Registry.
Context {B : Type} `{!RegistryBackend B} `{!ConfigStore B} `{!ConfigRemoval B}.

(** X5.  Where the pools of the environment and their assignments can be
    listed.  DeleteApp refuses an application that is assigned to a pool:
    it answers false with an error that names a pool to which the
    application is assigned, and leaves the backend as it is.  For an
    application assigned to no pool, it returns the error of the reading of
    the configuration; answers true, leaving the backend as it is, when
    there is no configuration; and deletes the configuration
    otherwise. *)
Theorem DeleteApp_guard (b : B) (app env : string) (matches : list string) :
  Members b (PathJoin [env; "pools"; "*"]) = (matches, None) ->
  (forall p, p ∈ matches -> (ListAssignments b env p).2 = None) ->
  ((exists pool, pool ∈ matches /\ app ∈ (ListAssignments b env pool).1) ->
     exists pool,
       pool ∈ matches /\ app ∈ (ListAssignments b env pool).1 /\
       DeleteApp b app env =
         ((false, Some (ErrMsg ("app is assigned to pool " +:+ pool))), b)) /\
  ((forall pool, pool ∈ matches -> app ∉ (ListAssignments b env pool).1) ->
     DeleteApp b app env =
       match GetServiceConfig b app env with
       | (_, Some e) => ((false, Some e), b)
       | (None, None) => ((true, None), b)
       | (Some svcCfg, None) => DeleteServiceConfig b svcCfg env
       end).
Proof.
  intros Hmembers Hok.
  destruct (ListPools_loop_listed b env matches ∅ Hok) as (pools & Hloop & Hpools).
  assert (ListPools b env = (pools, None)) as Hlist.
  { unfold ListPools. by rewrite Hmembers. }
  assert (forall pool apps, (pool, apps) ∈ map_to_list pools <->
                            pool ∈ matches /\ apps = (ListAssignments b env pool).1) as Hentries.
  { intros pool apps. rewrite elem_of_map_to_list, Hpools.
    destruct (decide (pool ∈ matches)) as [Hin|Hnin].
    - split; [intros [= <-]; done | intros [_ ->]; done].
    - rewrite lookup_empty. split; [done | intros [? _]; done]. }
  unfold DeleteApp. rewrite Hlist. split.
  - intros (pool & Hin & Happ).
    destruct (List.find _ (map_to_list pools)) as [[pool' apps']|] eqn:Hfind.
    + apply find_some in Hfind as [Hentry Hfound]. simpl in Hfound.
      apply list_elem_of_In, Hentries in Hentry as [Hin' ->].
      apply StringInSlice_elem_of in Hfound. by exists pool'.
    + exfalso. eapply find_none in Hfind.
      2: { apply list_elem_of_In, Hentries. split; [exact Hin | reflexivity]. }
      simpl in Hfind. apply StringInSlice_elem_of in Happ. congruence.
  - intros Hnone.
    destruct (List.find _ (map_to_list pools)) as [[pool' apps']|] eqn:Hfind; [| done].
    exfalso. apply find_some in Hfind as [Hentry Hfound]. simpl in Hfound.
    apply list_elem_of_In, Hentries in Hentry as [Hin' ->].
    apply StringInSlice_elem_of in Hfound. by apply (Hnone pool').
Qed.

End deleting_apps.

Lemma DeleteApp_guard_witness :
  exists pool,
    @Registry.DeleteApp _ MemBackend (@Sample.store Sample.text) Sample.removal
      poolStore "api" "prod"
    = ((false, Some (ErrMsg ("app is assigned to pool " +:+ pool))), poolStore).
Proof.
  assert (Members poolStore (PathJoin ["prod"; "pools"; "*"]) = (["web"], None)) as Hmembers
    by (vm_compute; reflexivity).
  destruct (@DeleteApp_guard _ MemBackend (@Sample.store Sample.text) Sample.removal
              poolStore "api" "prod" ["web"] Hmembers) as [Hrefuses _].
  - intros p ->%list_elem_of_singleton. vm_compute. reflexivity.
  - destruct Hrefuses as (pool & _ & _ & Hcall).
    + exists "web". split; [apply list_elem_of_here |].
      apply list_elem_of_In. vm_compute. tauto.
    + exists pool. exact Hcall.
Defined.

(** ** The environment of a container *)

Section container_environment.
Import Json Registration.

Lemma Index_entry (k v : string) :
  plainName k -> Index (entry (k, v)) "="%char = Some (String.length k).
Proof.
  unfold plainName, entry. simpl. induction k as [|c k IH]; simpl.
  - done.
  - destruct (Ascii.eqb c "=") eqn:Hc; [done |].
    destruct (Index k "=") eqn:Hk; [done |]. intros _. by rewrite (IH eq_refl).
Qed.

Lemma take_entry (k v : string) : take (String.length k) (entry (k, v)) = k.
Proof.
  unfold entry. simpl. induction k as [|c k IH]; [done |].
  rewrite append_cons. simpl. by rewrite IH.
Qed.

Lemma drop_entry (k v : string) : drop (S (String.length k)) (entry (k, v)) = v.
Proof.
  unfold entry. simpl. induction k as [|c k IH]; [done |].
  rewrite append_cons. exact IH.
Qed.

Lemma EnvFor_loop_entries (kvs : list (string * string)) (env : gmap string string) :
  Forall (fun kv => plainName kv.1) kvs ->
  EnvFor_loop (map entry kvs) env = Returned (list_to_map (rev kvs) ∪ env).
Proof.
  revert env. induction kvs as [|[k v] kvs IH]; intros env Hall.
  - simpl. by rewrite (left_id_L ∅ (∪)).
  - apply Forall_cons in Hall as [Hk Hall]. simpl in Hk.
    cbn [map EnvFor_loop]. rewrite (Index_entry k v Hk), take_entry, drop_entry.
    rewrite (IH _ Hall). f_equal. simpl. rewrite list_to_map_app. simpl.
    rewrite <- (assoc_L (∪)). f_equal.
    by rewrite <- insert_union_l, (left_id_L ∅ (∪)).
Qed.

Lemma EnvFor_loop_panics (items : list string) (env : gmap string string) :
  (exists item, item ∈ items /\ Index item "="%char = None) ->
  exists why, EnvFor_loop items env = Panicked why.
Proof.
  revert env. induction items as [|item items IH]; intros env (bad & Hin & Hbad).
  - by apply elem_of_nil in Hin.
  - simpl. destruct (Index item "=") as [sep|] eqn:Hsep; [| by eexists].
    apply IH. exists bad. split; [| done].
    apply elem_of_cons in Hin as [-> | Hin]; [congruence | done].
Qed.

Lemma EnvFor_loop_returns (items : list string) (env : gmap string string) :
  (forall item, item ∈ items -> Index item "="%char <> None) ->
  exists env', EnvFor_loop items env = Returned env'.
Proof.
  revert env. induction items as [|item items IH]; intros env Hall; [by eexists |].
  simpl. destruct (Index item "=") as [sep|] eqn:Hsep.
  - apply IH. intros i Hi. apply Hall. by right.
  - exfalso. by apply (Hall item (list_elem_of_here _ _)).
Qed.

(** X6.  EnvFor panics when an entry of the container's environment has no
    [=], and returns otherwise.  Of entries made of a name without [=], an
    [=] and a value, it returns the map of the names to the values, the
    value of a later entry taking the place of an earlier one of the same
    name; the value may hold an [=]. *)
Theorem EnvFor_spec (container : Docker.Container) :
  ((exists item, item ∈ Docker.Env (Docker.ContainerConfig container) /\
                 Index item "="%char = None) ->
     exists why, EnvFor container = Panicked why) /\
  ((forall item, item ∈ Docker.Env (Docker.ContainerConfig container) ->
                 Index item "="%char <> None) ->
     exists environment, EnvFor container = Returned environment) /\
  (forall kvs,
     Docker.Env (Docker.ContainerConfig container) = map entry kvs ->
     Forall (fun kv => plainName kv.1) kvs ->
     EnvFor container = Returned (list_to_map (rev kvs))).
Proof.
  unfold EnvFor. split; [apply EnvFor_loop_panics |]. split; [apply EnvFor_loop_returns |].
  intros kvs -> Hall. by rewrite (EnvFor_loop_entries kvs ∅ Hall), (right_id_L ∅ (∪)).
Qed.

End container_environment.

(** ** The life of a registration *)

Section registration_life.
Import Json Registration.
Context {B : Type} `{!RegistryBackend B} `{!JSONText} `{!Sscanf}.
#[local] Arguments PathJoin : simpl never.

(** What a call of RegisterService that returns a registration has done,
    and the registration, field by field. *)
Lemma RegisterService_inv (b b2 : B) (TTL : Z) (now : Docker.Time)
    (env pool hostIP : string) (container : Docker.Container) (reg : ServiceRegistration) :
  RegisterService b TTL now env pool hostIP container = Returned ((Some reg, None), b2) ->
  exists environment reg0 started x b1 y,
    EnvFor container = Returned environment /\
    (12 <= String.length (Docker.ID container))%nat /\
    envOf environment "GALAXY_APP" <> "" /\
    reg = setExpires (now + wrap64 (wrap64 TTL * 10 ^ 9)) reg0 /\
    timeText (Docker.Created container) = Some started /\
    Set_ b (PathJoin [env; pool; "hosts"; hostIP; envOf environment "GALAXY_APP";
                      take 12 (Docker.ID container)])
      "location" (jsonText (document started reg0)) = ((x, None), b1) /\
    Expire b1 (PathJoin [env; pool; "hosts"; hostIP; envOf environment "GALAXY_APP";
                         take 12 (Docker.ID container)]) TTL = ((y, None), b2) /\
    Name reg0 = envOf environment "GALAXY_APP" /\
    ContainerID reg0 = Docker.ID container /\
    ContainerName reg0 = Docker.Name container /\
    Image reg0 = Docker.Image (Docker.ContainerConfig container) /\
    ImageId reg0 = Docker.Image (Docker.ContainerConfig container) /\
    StartedAt reg0 = Docker.Created container /\
    Port reg0 = envOf environment "GALAXY_PORT" /\
    VirtualHosts reg0 =
      (if notBlank (envOf environment "VIRTUAL_HOST")
       then Some (Split (envOf environment "VIRTUAL_HOST") ","%char) else None) /\
    ErrorPages reg0 =
      (if bool_decide (filter (fun kv => Is_true (isVhostCode kv.1)) environment = ∅)
       then None
       else Some (filter (fun kv => Is_true (isVhostCode kv.1)) environment)) /\
    Path reg0 = "" /\ Expires reg0 = Docker.zeroTime /\
    addressOf reg0 = addressOf (newServiceRegistration container hostIP).
Proof.
  unfold RegisterService.
  destruct (EnvFor container) as [environment|why] eqn:Henv; [| done]. unfold obind at 1.
  unfold slice_to. destruct (12 <=? String.length (Docker.ID container))%nat eqn:Hid; [| done].
  unfold obind. apply Nat.leb_le in Hid.
  destruct (String.eqb (envOf environment "GALAXY_APP") "") eqn:Hname; [done |].
  apply String.eqb_neq in Hname.
  set (path := PathJoin _) in *.
  set (reg0 := setPort _ _).
  assert (StartedAt reg0 = Docker.Created container) as Hs.
  { subst reg0. unfold newServiceRegistration.
    destruct (firstBound _) as [externalPort internalPort].
    destruct (negb _ && negb _), (notBlank _), (bool_decide _); reflexivity. }
  unfold Marshal. rewrite Hs.
  destruct (timeText (Docker.Created container)) as [started|] eqn:Htime; [| done].
  destruct (Set_ b path "location" _) as [[x [e|]] b1] eqn:HSet; [done |].
  destruct (Expire b1 path TTL) as [[y [e|]] b2'] eqn:HExp; [done |].
  intros [= <- <-].
  exists environment, reg0, started, x, b1, y.
  split; [done |]. split; [done |]. split; [done |]. split; [done |]. split; [done |].
  split; [done |]. split; [done |].
  subst reg0. unfold newServiceRegistration.
  destruct (firstBound _) as [externalPort internalPort].
  destruct (negb _ && negb _), (notBlank _), (bool_decide _); done.
Qed.

(** Decoding neither reads nor writes [Path]. *)
Lemma decodeMember_setPath (k : string) (v : json) (path : string) (r : ServiceRegistration) :
  decodeMember k v (setPath path r) =
  match decodeMember k v r with
  | inl r' => inl (setPath path r')
  | inr e => inr e
  end.
Proof.
  destruct r. unfold decodeMember. cbn [setPath Name ExternalIP ExternalPort InternalIP
    InternalPort ContainerID ContainerName Image ImageId StartedAt VirtualHosts Port
    ErrorPages].
  repeat (destruct (String.eqb (ToUpper k) _);
          [unfold assign, intoString, intoTime, intoStrings, intoMap;
           repeat case_match; reflexivity |]).
  reflexivity.
Qed.

Lemma decodeMembers_setPath (members : list (string * json)) (path : string)
    (r : ServiceRegistration) :
  decodeMembers members (setPath path r) =
  match decodeMembers members r with
  | inl r' => inl (setPath path r')
  | inr e => inr e
  end.
Proof.
  revert r. induction members as [|[k v] members IH]; intros r; [done |].
  simpl. rewrite decodeMember_setPath. destruct (decodeMember k v r); [apply IH | done].
Qed.

Lemma document_setExpires (started : string) (t : Docker.Time) (r : ServiceRegistration) :
  document started (setExpires t r) = document started r.
Proof. by destruct r. Qed.


(** X8.  What was registered is read back, where the backend gives back
    the text written and the lease, and the text layer reads back the time
    and the document it wrote: GetServiceRegistration then returns the
    registration that RegisterService returned, with its path set and its
    expiry taken from the lease, and IsRegistered answers true. *)
Theorem RegisterService_read_back (b b2 : B) (TTL ttl : Z) (now now' : Docker.Time)
    (env pool hostIP : string) (container : Docker.Container) (reg : ServiceRegistration)
    (started : string) :
  RegisterService b TTL now env pool hostIP container = Returned ((Some reg, None), b2) ->
  timeText (Docker.Created container) = Some started ->
  timeParse started = Some (Docker.Created container) ->
  jsonParse (jsonText (document started reg)) = Some (document started reg) ->
  jsonText (document started reg) <> "" ->
  Get b2 (PathJoin [env; pool; "hosts"; hostIP; Name reg; take 12 (Docker.ID container)])
    "location" = (jsonText (document started reg), None) ->
  Ttl b2 (PathJoin [env; pool; "hosts"; hostIP; Name reg; take 12 (Docker.ID container)])
    = (ttl, None) ->
  GetServiceRegistration b2 now' env pool hostIP container =
    Returned
      (Some (setPath (PathJoin [env; pool; "hosts"; hostIP; Name reg;
                                take 12 (Docker.ID container)])
               (setExpires (now' + wrap64 (ttl * 10 ^ 9)) reg)), None) /\
  IsRegistered b2 now' env pool hostIP container = Returned (true, None).
Proof.
  intros Hcall Htime Hparse Hjson Htext Hget Httl.
  destruct (RegisterService_inv _ _ _ _ _ _ _ _ _ Hcall)
    as (environment & reg0 & started' & x & b1 & y & Henv & Hid & Hname & -> & Htime' & HSet &
        HExp & Hn & Hci & Hcn & Him & Hii & Hsa & Hpo & Hvh & Hep & Hpa & Hex & Haddr).
  assert (Name (setExpires (now + wrap64 (wrap64 TTL * 10 ^ 9)) reg0)
          = envOf environment "GALAXY_APP") as Hn' by (by destruct reg0).
  rewrite Hn' in *. rewrite document_setExpires in *.
  set (path := PathJoin _) in *.
  assert (GetServiceRegistration b2 now' env pool hostIP container =
          Returned (Some (setPath path (setExpires (now' + wrap64 (ttl * 10 ^ 9))
                                          (setExpires (now + wrap64 (wrap64 TTL * 10 ^ 9)) reg0))),
                    None)) as Hread.
  { unfold GetServiceRegistration. rewrite Henv. unfold obind at 1.
    unfold slice_to. apply Nat.leb_le in Hid. rewrite Hid. unfold obind.
    apply String.eqb_neq in Hname. rewrite Hname. fold path. rewrite Hget.
    apply String.eqb_neq in Htext. rewrite Htext.
    unfold Unmarshal. rewrite Hjson.
    destruct (decodeMembers_document started reg0) as (members & Hdoc & Hdecode).
    { by rewrite Hsa. }
    rewrite Hdoc, decodeMembers_setPath, Hdecode, Httl.
    do 3 f_equal. unfold decoded.
    assert (decodedPages (ErrorPages reg0) = ErrorPages reg0) as ->.
    { rewrite Hep. destruct (bool_decide _) eqn:Hempty; [done |]. simpl. by rewrite Hempty. }
    by destruct reg0. }
  split; [exact Hread |]. unfold IsRegistered. by rewrite Hread.
Qed.

(** X9.  A call of UnRegisterService that returns either has found, under
    the container's key, a registration of this very container, has asked
    the backend to delete that key, and returns the registration with the
    error of the deletion; or it leaves the backend as it is, and returns
    no registration or an error.  So the registration of another container
    whose id begins with the same twelve bytes is not deleted. *)
Theorem UnRegisterService_guard (b b' : B) (now : Docker.Time)
    (env pool hostIP : string) (container : Docker.Container)
    (res : option ServiceRegistration) (err : option error) :
  UnRegisterService b now env pool hostIP container = Returned ((res, err), b') ->
  (exists reg environment n,
     GetServiceRegistration b now env pool hostIP container = Returned (Some reg, None) /\
     ContainerID reg = Docker.ID container /\
     EnvFor container = Returned environment /\
     Delete b (PathJoin [env; pool; "hosts"; hostIP; envOf environment "GALAXY_APP";
                         take 12 (Docker.ID container)]) = ((n, err), b') /\
     res = Some reg) \/
  (b' = b /\ (res = None \/ err <> None)).
Proof.
  unfold UnRegisterService.
  destruct (EnvFor container) as [environment|why] eqn:Henv; [| done]. unfold obind at 1.
  unfold slice_to. destruct (12 <=? String.length (Docker.ID container))%nat; [| done].
  unfold obind at 1.
  destruct (String.eqb (envOf environment "GALAXY_APP") "").
  { intros [= <- <- <-]. right. split; [done | by left]. }
  destruct (GetServiceRegistration b now env pool hostIP container)
    as [[registration gerr]|why] eqn:Hget; [| done].
  simpl. destruct gerr as [e|].
  { intros [= <- <- <-]. right. split; [done | by right]. }
  destruct registration as [reg|].
  2: { intros [= <- <- <-]. right. split; [done | by left]. }
  destruct (String.eqb (ContainerID reg) (Docker.ID container)) eqn:Hsame; simpl.
  - destruct (Delete b _) as [[n derr] b1] eqn:Hdel. intros [= <- <- <-].
    left. exists reg, environment, n. apply String.eqb_eq in Hsame. done.
  - intros [= <- <- <-]. right. split; [done | by left].
Qed.

(** X10.  The three calls on a container's registration stop before they
    reach the backend: they panic when an entry of the container's
    environment has no [=], and when the container's id has less than
    twelve bytes; and when GALAXY_APP is not set, or empty, they return
    the error that says so, with the first twelve bytes of the id, and
    leave the backend as it is. *)
Theorem registration_needs_name (b : B) (TTL : Z) (now : Docker.Time)
    (env pool hostIP : string) (container : Docker.Container) :
  ((exists item, item ∈ Docker.Env (Docker.ContainerConfig container) /\
                 Index item "="%char = None) ->
     (exists why, RegisterService b TTL now env pool hostIP container = Panicked why) /\
     (exists why, GetServiceRegistration b now env pool hostIP container = Panicked why) /\
     (exists why, UnRegisterService b now env pool hostIP container = Panicked why) /\
     (exists why, IsRegistered b now env pool hostIP container = Panicked why)) /\
  (forall environment,
     EnvFor container = Returned environment ->
     (String.length (Docker.ID container) < 12)%nat ->
     (exists why, RegisterService b TTL now env pool hostIP container = Panicked why) /\
     (exists why, GetServiceRegistration b now env pool hostIP container = Panicked why) /\
     (exists why, UnRegisterService b now env pool hostIP container = Panicked why) /\
     (exists why, IsRegistered b now env pool hostIP container = Panicked why)) /\
  (forall environment,
     EnvFor container = Returned environment ->
     (12 <= String.length (Docker.ID container))%nat ->
     envOf environment "GALAXY_APP" = "" ->
     let err := ErrMsg ("GALAXY_APP not set on container " +:+ take 12 (Docker.ID container)) in
     RegisterService b TTL now env pool hostIP container = Returned ((None, Some err), b) /\
     GetServiceRegistration b now env pool hostIP container = Returned (None, Some err) /\
     UnRegisterService b now env pool hostIP container = Returned ((None, Some err), b) /\
     IsRegistered b now env pool hostIP container = Returned (false, Some err)).
Proof.
  split; [| split].
  - intros Hbad. destruct (EnvFor_loop_panics _ ∅ Hbad) as [why Hpanic].
    unfold RegisterService, GetServiceRegistration, UnRegisterService, IsRegistered,
      GetServiceRegistration, EnvFor. rewrite Hpanic. simpl. by repeat split; eexists.
  - intros environment Henv Hshort.
    unfold RegisterService, GetServiceRegistration, UnRegisterService, IsRegistered,
      GetServiceRegistration. rewrite Henv. unfold obind at 1 3 5 8. unfold slice_to.
    apply Nat.leb_gt in Hshort. rewrite Hshort. simpl. by repeat split; eexists.
  - intros environment Henv Hid Hname err.
    unfold RegisterService, GetServiceRegistration, UnRegisterService, IsRegistered,
      GetServiceRegistration. rewrite Henv. unfold obind at 1 3 5 8. unfold slice_to.
    apply Nat.leb_le in Hid. rewrite Hid. unfold obind. by rewrite Hname.
Qed.

End registration_life.


Lemma RegisterService_read_back_witness :
  exists reg,
    @Registration.GetServiceRegistration _ MemBackend Sample.text
      registeredStore (1400000002 * 10 ^ 9) "prod" "web" "10.0.0.5"
      (webContainer [("8080/tcp", [published "49153"])])
    = Returned (Some reg, None) /\
    Registration.Equals reg webRegistered = true /\
    Registration.Path reg = "prod/web/hosts/10.0.0.5/web/0123456789ab" /\
    Registration.Expires reg = 1400000062 * 10 ^ 9.
Proof.
  assert (@Registration.RegisterService _ MemBackend Sample.text Sample.scan
            emptyStore 60 (1400000001 * 10 ^ 9) "prod" "web" "10.0.0.5"
            (webContainer [("8080/tcp", [published "49153"])])
          = Returned ((Some webRegistered, None), registeredStore)) as Hcall
    by (vm_compute; reflexivity).
  destruct (@RegisterService_read_back _ MemBackend Sample.text Sample.scan
              emptyStore registeredStore 60 60 (1400000001 * 10 ^ 9) (1400000002 * 10 ^ 9)
              "prod" "web" "10.0.0.5" (webContainer [("8080/tcp", [published "49153"])])
              webRegistered "1400000000000000000" Hcall) as [Hread _].
  - vm_compute. reflexivity.
  - vm_compute. reflexivity.
  - vm_compute. reflexivity.
  - vm_compute. discriminate.
  - vm_compute. reflexivity.
  - vm_compute. reflexivity.
  - eexists. split; [exact Hread |]. split; [vm_compute; reflexivity |].
    split; vm_compute; reflexivity.
Defined.

Lemma UnRegisterService_guard_witness :
  exists res err b',
    @Registration.UnRegisterService _ MemBackend Sample.text
      registeredStore (1400000002 * 10 ^ 9) "prod" "web" "10.0.0.5"
      (webContainer [("8080/tcp", [published "49153"])])
    = Returned ((res, err), b') /\
    err = None /\
    Get b' "prod/web/hosts/10.0.0.5/web/0123456789ab" "location" = ("", None) /\
    ((exists reg environment n,
        @Registration.GetServiceRegistration _ MemBackend Sample.text
          registeredStore (1400000002 * 10 ^ 9) "prod" "web" "10.0.0.5"
          (webContainer [("8080/tcp", [published "49153"])])
        = Returned (Some reg, None) /\
        Registration.ContainerID reg
          = Docker.ID (webContainer [("8080/tcp", [published "49153"])]) /\
        Registration.EnvFor (webContainer [("8080/tcp", [published "49153"])])
          = Returned environment /\
        Delete registeredStore
          (PathJoin ["prod"; "web"; "hosts"; "10.0.0.5";
                     Registration.envOf environment "GALAXY_APP";
                     take 12 (Docker.ID (webContainer [("8080/tcp", [published "49153"])]))])
        = ((n, err), b') /\
        res = Some reg) \/
     (b' = registeredStore /\ (res = None \/ err <> None))).
Proof.
  assert (exists res err b',
            @Registration.UnRegisterService _ MemBackend Sample.text
              registeredStore (1400000002 * 10 ^ 9) "prod" "web" "10.0.0.5"
              (webContainer [("8080/tcp", [published "49153"])])
            = Returned ((res, err), b') /\
            err = None /\
            Get b' "prod/web/hosts/10.0.0.5/web/0123456789ab" "location" = ("", None))
    as (res & err & b' & Hcall & Herr & Hgone)
    by (eexists _, _, _; split; [vm_compute; reflexivity |];
        split; vm_compute; reflexivity).
  exists res, err, b'. split; [exact Hcall |]. split; [exact Herr |]. split; [exact Hgone |].
  exact (@UnRegisterService_guard _ MemBackend Sample.text _ _ _ _ _ _ _ _ _ Hcall).
Defined.

Section registration_addresses.
Import Json Registration.

(** X11.  Equals is an equivalence of registrations, that of having the
    same four address fields: it holds of registrations of different
    containers and names.  Registrations that are equal have the same
    external address and the same internal address. *)
Theorem Equals_equivalence (r s t : ServiceRegistration) :
  Equals r r = true /\
  Equals r s = Equals s r /\
  (Equals r s = true -> Equals s t = true -> Equals r t = true) /\
  (Equals r s = true <-> addressOf r = addressOf s) /\
  (Equals r s = true -> ExternalAddr r = ExternalAddr s /\ InternalAddr r = InternalAddr s).
Proof.
  assert (forall a b, Equals a b = true <-> addressOf a = addressOf b) as Hiff.
  { intros a b. unfold Equals, addressOf. rewrite !andb_true_iff, !String.eqb_eq.
    split; [by intros [[[-> ->] ->] ->] | by intros [= -> -> -> ->]]. }
  split; [by apply Hiff |]. split.
  { unfold Equals. by rewrite !(String.eqb_sym (ExternalIP r)), !(String.eqb_sym (ExternalPort r)),
      !(String.eqb_sym (InternalIP r)), !(String.eqb_sym (InternalPort r)). }
  split; [rewrite !Hiff; congruence |]. split; [apply Hiff |].
  intros [= H1 H2 H3 H4]%Hiff. unfold ExternalAddr, InternalAddr. by rewrite H1, H2, H3, H4.
Qed.

End registration_addresses.

(** ** The containers that StopAllButLatest stops *)

Section culling.
Import Registry Runtime.
Context {B : Type} `{!RegistryBackend B} `{!ConfigStore B} `{!ContainerNaming} `{!Utils}.

Lemma update_descends (id : string) (r : bool) (cs : list Docker.Container)
    (c : Docker.Container) :
  In c (Docker.update id (Docker.setRunning r) cs) ->
  exists c0, In c0 cs /\ Docker.ID c0 = Docker.ID c /\ Docker.Name c0 = Docker.Name c.
Proof.
  induction cs as [|x cs IH]; [done |]. simpl.
  destruct (Docker.isID id x).
  - intros [Heq | Hin]; [exists x; subst c; by split; [left |] | exists c; by split; [right |]].
  - intros [Heq | Hin]; [exists c; by split; [left |] |].
    destruct (IH Hin) as (c0 & Hc0 & Hids). exists c0. by split; [right |].
Qed.

Lemma remove_descends (id : string) (cs : list Docker.Container) (c : Docker.Container) :
  In c (Docker.remove id cs) -> In c cs.
Proof.
  induction cs as [|x cs IH]; [done |]. simpl.
  destruct (Docker.isID id x); [by right |].
  intros [Heq | Hin]; [by left | right; by apply IH].
Qed.

Lemma StopContainer_descends (e e1 : Docker.Engine) (id : string) (timeout : Z)
    (r : Docker.stopped) (c : Docker.Container) :
  Docker.StopContainer e id timeout = (r, e1) ->
  In c (Docker.containers e1) ->
  exists c0, In c0 (Docker.containers e) /\
             Docker.ID c0 = Docker.ID c /\ Docker.Name c0 = Docker.Name c.
Proof.
  unfold Docker.StopContainer.
  destruct (negb (Docker.reachable e)); [intros [= <- <-] Hin; by exists c |].
  destruct (List.find (Docker.isID id) (Docker.containers e)) as [x|];
    [| intros [= <- <-] Hin; by exists c].
  destruct (bool_decide _); [intros [= <- <-] Hin; by exists c |].
  destruct (negb (Docker.Running (Docker.ContainerState x)));
    [intros [= <- <-] Hin; by exists c |].
  intros [= <- <-]. simpl. apply update_descends.
Qed.

Lemma RemoveContainer_descends (e e1 : Docker.Engine) (id : string) (rv : bool)
    (err : option error) (c : Docker.Container) :
  Docker.RemoveContainer e id rv = (err, e1) ->
  In c (Docker.containers e1) -> In c (Docker.containers e).
Proof.
  unfold Docker.RemoveContainer.
  destruct (negb (Docker.reachable e)); [by intros [= <- <-] |].
  destruct (List.find (Docker.isID id) (Docker.containers e)) as [x|];
    [| by intros [= <- <-]].
  destruct (Docker.Running (Docker.ContainerState x)); [by intros [= <- <-] |].
  intros [= <- <-]. simpl. apply remove_descends.
Qed.

Lemma culled_refl (s : ServiceRuntime B) (now stopCutoff : Z) : culled s now stopCutoff s.
Proof.
  split; [done | intros c Hc; by exists c |].
  exists []. split; [by rewrite app_nil_r | by intros c r []].
Qed.

Lemma culled_episode (s0 s : ServiceRuntime B) (now stopCutoff : Z) (e1 : Docker.Engine)
    (c0 : Docker.Container) (removed : bool) (s1 : ServiceRuntime B) :
  culled s0 now stopCutoff s ->
  superseded s0 now stopCutoff c0 ->
  backend s1 = backend s ->
  (forall c, In c (Docker.containers (engine s1)) ->
     exists c', In c' (Docker.containers (engine s)) /\
                Docker.ID c' = Docker.ID c /\ Docker.Name c' = Docker.Name c) ->
  Docker.calls (engine s1) = Docker.calls (engine s) ++ episode (c0, removed) ->
  culled s0 now stopCutoff s1.
Proof.
  intros [Hb Hdesc (episodes & Hcalls & Hgood)] Hsup Hb1 Hdesc1 Hcalls1. split.
  - by rewrite Hb1.
  - intros c Hc. destruct (Hdesc1 c Hc) as (c' & Hc' & Hid & Hn).
    destruct (Hdesc c' Hc') as (c'' & Hc'' & Hid' & Hn'). exists c''.
    split; [done |]. split; congruence.
  - exists (episodes ++ [(c0, removed)]). split.
    + rewrite Hcalls1, Hcalls, flat_map_app, <- app_assoc. simpl. by rewrite app_nil_r.
    + intros c r [Hin | [[= <- <-] | []]]%in_app_or; [by eapply Hgood | done].
Qed.

(** The body of the inner loop, for a container that was listed. *)
Lemma reap_culled (s0 s s1 : ServiceRuntime B) (now stopCutoff : Z)
    (serviceConfigs : list ServiceConfig) (serviceConfig : ServiceConfig)
    (registry repository tag : string) (latestContainer : option Docker.Container)
    (c0 : Docker.Container) :
  culled s0 now stopCutoff s ->
  reaped s0 s ->
  ListApps (backend s0) "" = Returned (serviceConfigs, None) ->
  In serviceConfig serviceConfigs ->
  SplitDockerImage (Version serviceConfig) = (registry, repository, tag) ->
  In c0 (Docker.containers (engine s0)) ->
  Docker.Running (Docker.ContainerState c0) = true ->
  (forall latest, latestContainer = Some latest ->
     exists latest0, In latest0 (Docker.containers (engine s0)) /\
                     answersTo (ContainerName serviceConfig) latest0 /\
                     Docker.ID latest0 = Docker.ID latest) ->
  reap s serviceConfig registry repository latestContainer now stopCutoff (Docker.listed c0)
    = Returned s1 ->
  culled s0 now stopCutoff s1.
Proof.
  intros Hculled Hreaped Hlist Hcfg Hsplit Hc0 Hrun Hlatest. unfold reap.
  cbn [Docker.listed Docker.apiNames Docker.apiImage Docker.apiID Docker.apiCreated].
  destruct (String.eqb (Docker.Name c0) "") eqn:Hname; [by intros [= <-] |].
  apply String.eqb_neq in Hname.
  destruct (IsContainerVersion _ _) eqn:Hversion; simpl; [| by intros [= <-]].
  destruct (SplitDockerImage (Docker.Image _)) as [[containerReg containerRepo] ctag] eqn:Himg.
  destruct (String.eqb containerReg registry && String.eqb containerRepo repository) eqn:Hrepo;
    simpl; [| by intros [= <-]].
  apply andb_prop in Hrepo as [->%String.eqb_eq ->%String.eqb_eq].
  destruct latestContainer as [latest|]; [| done].
  destruct (Hlatest latest eq_refl) as (latest0 & Hl0 & Hanswers & Hlid).
  destruct (String.eqb (Docker.ID c0) (Docker.ID latest)) eqn:Hsame; simpl; [by intros [= <-] |].
  apply String.eqb_neq in Hsame.
  destruct (Docker.Unix (Docker.Created c0) <? wrap64 (now - stopCutoff)) eqn:Hold; simpl;
    [| by intros [= <-]].
  apply Z.ltb_lt in Hold.
  destruct (blacklisted s (Docker.ID c0)) eqn:Hbl; [by intros [= <-] |].
  unfold slice_to. destruct (12 <=? String.length (Docker.ID c0))%nat; simpl; [| done].
  assert (superseded s0 now stopCutoff c0) as Hsup.
  { split; [done |]. split; [done |]. split; [done |].
    split; [by eapply not_blacklisted_before |]. split; [done |].
    exists serviceConfigs, serviceConfig, latest0.
    split; [done |]. split; [done |]. split; [done |].
    split; [by rewrite Himg, Hsplit |]. split; [done |]. split; [done |]. congruence. }
  destruct (Docker.StopContainer (engine s) (Docker.ID c0) 10) as [result e1] eqn:Hstop.
  destruct (StopContainer_effect _ _ _ _ _ Hstop) as (Hcalls & _).
  pose proof (fun c => StopContainer_descends _ _ _ _ _ c Hstop) as Hdesc.
  destruct result as [[e|]|].
  - intros [= <-]. by apply (culled_episode s0 s now stopCutoff e1 c0 false).
  - destruct (Docker.RemoveContainer e1 (Docker.ID c0) true) as [rerr e2] eqn:Hremove.
    destruct (RemoveContainer_effect _ _ _ _ _ Hremove) as (Hcalls2 & _).
    intros [= <-]. apply (culled_episode s0 s now stopCutoff e2 c0 true); try done.
    + intros c Hc. apply Hdesc. by eapply RemoveContainer_descends.
    + simpl. by rewrite Hcalls2, Hcalls, <- app_assoc.
  - intros [= <-]. by apply (culled_episode s0 s now stopCutoff e1 c0 false).
Qed.

(** The inner loop, over containers that were listed. *)
Lemma reapAll_culled (cs : list Docker.Container) (s0 s s1 : ServiceRuntime B)
    (now stopCutoff : Z) (serviceConfigs : list ServiceConfig) (serviceConfig : ServiceConfig)
    (registry repository tag : string) (latestContainer : option Docker.Container) :
  culled s0 now stopCutoff s ->
  reaped s0 s ->
  ListApps (backend s0) "" = Returned (serviceConfigs, None) ->
  In serviceConfig serviceConfigs ->
  SplitDockerImage (Version serviceConfig) = (registry, repository, tag) ->
  (forall c0, In c0 cs ->
     In c0 (Docker.containers (engine s0)) /\ Docker.Running (Docker.ContainerState c0) = true) ->
  (forall latest, latestContainer = Some latest ->
     exists latest0, In latest0 (Docker.containers (engine s0)) /\
                     answersTo (ContainerName serviceConfig) latest0 /\
                     Docker.ID latest0 = Docker.ID latest) ->
  reapAll s serviceConfig registry repository latestContainer now stopCutoff
    (map Docker.listed cs) = Returned s1 ->
  culled s0 now stopCutoff s1 /\ reaped s0 s1.
Proof.
  intros Hculled Hreaped Hlist Hcfg Hsplit Hcs Hlatest. revert s Hculled Hreaped.
  induction cs as [|c0 cs IH]; intros s Hculled Hreaped.
  - by intros [= <-].
  - cbn [map reapAll].
    destruct (reap s serviceConfig registry repository latestContainer now stopCutoff
                (Docker.listed c0)) as [s'|why] eqn:Hreap; simpl; [| done].
    destruct (Hcs c0 (or_introl eq_refl)) as [Hc0 Hrun].
    apply IH.
    + intros c Hc. apply Hcs. by right.
    + by eapply reap_culled.
    + eapply reaped_trans; [done | by eapply reap_reaped].
Qed.

Lemma InspectContainer_answers (e : Docker.Engine) (x : string) (c : Docker.Container)
    (err : option error) :
  Docker.InspectContainer e x = (Some c, err) ->
  In c (Docker.containers e) /\ answersTo x c.
Proof.
  unfold Docker.InspectContainer. destruct (negb (Docker.reachable e)); [done |].
  unfold Docker.resolve.
  destruct (List.find (Docker.isID x) (Docker.containers e)) as [c1|] eqn:Hid.
  - intros [= <- <-]. apply find_some in Hid as [Hin Hid]. split; [done |].
    left. by apply String.eqb_eq.
  - destruct (List.find (Docker.isName x) (Docker.containers e)) as [c1|] eqn:Hn; [| done].
    intros [= <- <-]. apply find_some in Hn as [Hin Hn]. split; [done |].
    right. by apply String.eqb_eq.
Qed.

(** The outer loop. *)
Lemma StopAllButLatest_loop_culled (todo : list ServiceConfig) (cs : list Docker.Container)
    (s0 s s1 : ServiceRuntime B) (now stopCutoff : Z) (serviceConfigs : list ServiceConfig) :
  culled s0 now stopCutoff s ->
  reaped s0 s ->
  ListApps (backend s0) "" = Returned (serviceConfigs, None) ->
  (forall serviceConfig, In serviceConfig todo -> In serviceConfig serviceConfigs) ->
  (forall c0, In c0 cs ->
     In c0 (Docker.containers (engine s0)) /\ Docker.Running (Docker.ContainerState c0) = true) ->
  StopAllButLatest_loop s todo (map Docker.listed cs) now stopCutoff = Returned s1 ->
  culled s0 now stopCutoff s1.
Proof.
  intros Hculled Hreaped Hlist Htodo Hcs. revert s Hculled Hreaped.
  induction todo as [|serviceConfig todo IH]; intros s Hculled Hreaped.
  - by intros [= <-].
  - cbn [StopAllButLatest_loop].
    destruct (SplitDockerImage (Version serviceConfig)) as [[registry repository] tag] eqn:Hsplit.
    destruct (Docker.InspectContainer (engine s) (ContainerName serviceConfig))
      as [latestContainer err] eqn:Hinspect.
    assert (forall c, In c todo -> In c serviceConfigs) as Htodo'
      by (intros c Hc; apply Htodo; by right).
    destruct (negb (isNil err) && isNoSuchContainer err); [by apply IH |].
    destruct (reapAll s serviceConfig registry repository latestContainer now stopCutoff
                (map Docker.listed cs)) as [s'|why] eqn:Hreap; simpl; [| done].
    destruct (reapAll_culled cs s0 s s' now stopCutoff serviceConfigs serviceConfig
                registry repository tag latestContainer) as [Hculled' Hreaped']; try done.
    { apply Htodo. by left. }
    { intros latest ->. apply InspectContainer_answers in Hinspect as [Hin Hanswers].
      destruct (culled_descends _ _ _ _ Hculled latest Hin) as (latest0 & Hl0 & Hid & Hn).
      exists latest0. split; [done |]. split; [| done].
      destruct Hanswers as [Ha | Ha]; [left | right]; congruence. }
    by apply IH.
Qed.

(** What a call of StopAllButLatest that returns has asked the engine. *)
Lemma StopAllButLatest_culled (s s1 : ServiceRuntime B) (now stopCutoff : Z)
    (err : option error) :
  StopAllButLatest s now stopCutoff = Returned (err, s1) ->
  culled s now stopCutoff s1.
Proof.
  unfold StopAllButLatest.
  destruct (ListApps (backend s) "") as [[serviceConfigs lerr]|why] eqn:Hlist; simpl; [| done].
  destruct lerr as [e|]; [intros [= <- <-]; apply culled_refl |].
  unfold Docker.ListContainers.
  destruct (negb (Docker.reachable (engine s))); [intros [= <- <-]; apply culled_refl |].
  cbn [orb].
  destruct (StopAllButLatest_loop s serviceConfigs _ now stopCutoff) as [s'|why] eqn:Hloop;
    simpl; [| done].
  intros [= <- <-].
  eapply (StopAllButLatest_loop_culled serviceConfigs); try done.
  - apply culled_refl.
  - apply reaped_refl.
  - intros c0 [Hin Hrun]%filter_In. done.
Qed.


(** X13.  When no container answers to the name of the version of any
    configuration listed, a call of StopAllButLatest that returns asks the
    engine nothing: the containers of earlier versions are left
    running. *)
Theorem StopAllButLatest_without_latest (s s1 : ServiceRuntime B) (now stopCutoff : Z)
    (err : option error) :
  StopAllButLatest s now stopCutoff = Returned (err, s1) ->
  (forall serviceConfigs serviceConfig latest,
     ListApps (backend s) "" = Returned (serviceConfigs, None) ->
     In serviceConfig serviceConfigs ->
     In latest (Docker.containers (engine s)) ->
     ~ answersTo (ContainerName serviceConfig) latest) ->
  Docker.calls (engine s1) = Docker.calls (engine s).
Proof.
  intros Hcall Hnone.
  apply StopAllButLatest_culled in Hcall as [_ _ (episodes & Hcalls & Hgood)].
  destruct episodes as [|[c r] episodes]; [by rewrite Hcalls, app_nil_r |].
  exfalso. destruct (Hgood c r (or_introl eq_refl))
    as (_ & _ & _ & _ & _ & configs & cfg & latest & Hlist & Hcfg & _ & _ & Hl & Ha & _).
  by apply (Hnone configs cfg latest).
Qed.

End culling.


Lemma StopAllButLatest_without_latest_witness :
  exists s1,
    stopAllButLatest (runtimeOf (engineWith [oldWeb] ∅) (watchedStore (webConfig 2)))
      1400000100 10 = Returned (None, s1) /\
    Docker.calls (Runtime.engine s1) = [].
Proof.
  assert (exists s1,
            stopAllButLatest (runtimeOf (engineWith [oldWeb] ∅) (watchedStore (webConfig 2)))
              1400000100 10 = Returned (None, s1)) as (s1 & Hcall)
    by (eexists; vm_compute; reflexivity).
  exists s1. split; [exact Hcall |].
  apply (@StopAllButLatest_without_latest _ MemBackend (@Sample.store Sample.text)
           Sample.naming Sample.utils _ _ _ _ _ Hcall).
  intros serviceConfigs serviceConfig latest Hlist Hcfg Hin Hanswers.
  vm_compute in Hlist. injection Hlist as <-.
  destruct Hcfg as [<- | []]. destruct Hin as [<- | []].
  destruct Hanswers as [H | H]; vm_compute in H; discriminate H.
Defined.

(** ** Containers that are there already, and images that crash *)

Section restarting.
Import Registry Runtime.
Context {B : Type} `{!RegistryBackend B} `{!ConfigStore B} `{!ContainerNaming} `{!Utils}.
#[local] Arguments Start_poll : simpl never.

(** StartContainer on a container that is there. *)
Lemma StartContainer_found (e : Docker.Engine) (id : string) (c : Docker.Container) :
  Docker.reachable e = true ->
  List.find (Docker.isID id) (Docker.containers e) = Some c ->
  exists e3,
    Docker.StartContainer e id = (None, e3) /\
    Docker.reachable e3 = true /\
    Docker.calls e3 = Docker.calls e ++ [Docker.StartCall id] /\
    Docker.containers e3 =
      Docker.update id
        (Docker.setRunning
           (negb (bool_decide (Docker.Image (Docker.ContainerConfig c) ∈ Docker.crashing e))))
        (Docker.containers e).
Proof.
  intros Hr Hfind. unfold Docker.StartContainer. rewrite Hr, Hfind. simpl.
  eexists. split; [reflexivity |]. split; [exact Hr |]. split; reflexivity.
Qed.

(** X14.  StartIfNotRunning looks at the name, not at the state: when the
    engine answers the name of the configuration with a container of that
    name, the call reports no change and returns that container, and
    leaves the runtime and the engine as they are, also when the container
    does not run. *)
Theorem StartIfNotRunning_existing (s : ServiceRuntime B) (serviceConfig : ServiceConfig)
    (c : Docker.Container) :
  Docker.InspectContainer (engine s) (ContainerName serviceConfig) = (Some c, None) ->
  Docker.Name c = "/" +:+ ContainerName serviceConfig ->
  StartIfNotRunning s serviceConfig = Returned ((false, Some c, None), s).
Proof.
  intros Hinspect Hname. unfold StartIfNotRunning. rewrite Hinspect. simpl.
  rewrite Hname, TrimPrefix_slash.
  change ("/" +:+ ContainerName serviceConfig) with (String slash (ContainerName serviceConfig)).
  by rewrite string_cons_neq, andb_false_r, String.eqb_refl.
Qed.

(** X15.  An image that crashes: where no container has the name of the
    configuration, the image is local, the registry lists its applications
    and the engine has an id to give, StartIfNotRunning creates the
    container and starts it, finds it not running, and returns the error
    that the container stopped unexpectedly, with no container.  The
    container is left behind, stopped: the engine was asked to create and
    to start, and nothing else.  The next call then finds the name taken,
    reports no change and no error, and asks the engine nothing. *)
Theorem StartIfNotRunning_crashing (s : ServiceRuntime B) (serviceConfig : ServiceConfig)
    (img : Docker.LocalImage) (serviceConfigs : list ServiceConfig)
    (id : string) (ids : list string) :
  Docker.InspectContainer (engine s) (ContainerName serviceConfig)
    = (None, Some (NoSuchContainer (ContainerName serviceConfig))) ->
  ContainerName serviceConfig <> "" ->
  freshId (engine s) = true ->
  Docker.images (engine s) !! Version serviceConfig = Some img ->
  Version serviceConfig ∈ Docker.crashing (engine s) ->
  ListApps (backend s) "" = Returned (serviceConfigs, None) ->
  Docker.idSupply (engine s) = id :: ids ->
  exists s1 c envVars,
    StartIfNotRunning s serviceConfig =
      Returned ((true, None, Some (ErrMsg "Container stopped unexpectedly")), s1) /\
    Docker.containers (engine s1) = Docker.containers (engine s) ++ [c] /\
    Docker.ID c = id /\
    Docker.Name c = "/" +:+ ContainerName serviceConfig /\
    Docker.Running (Docker.ContainerState c) = false /\
    Docker.calls (engine s1) =
      Docker.calls (engine s) ++
      [Docker.CreateCall (ContainerName serviceConfig) (Version serviceConfig) envVars;
       Docker.StartCall id] /\
    StartIfNotRunning s1 serviceConfig = Returned ((false, Some c, None), s1).
Proof.
  intros Hnone Hname Hfresh Himg Hcrash Hlist Hids.
  destruct (InspectContainer_none _ _ _ Hnone eq_refl) as [Hreach Hres].
  apply resolve_none in Hres as [HfindID HfindName].
  set (cn := ContainerName serviceConfig) in *.
  set (config := {| Docker.Image := Version serviceConfig;
                    Docker.Env := envVarsOf (shuttleHost s) serviceConfig serviceConfigs |}).
  destruct (CreateContainer_returns (engine s) cn config id ids img Hreach Himg HfindName Hids)
    as (e2 & Hcreate & Hr2 & Hcs2 & Hcr2).
  set (c0 := fresh (engine s) id cn config) in *.
  assert (List.find (Docker.isID id) (Docker.containers (engine s)) = None) as Hfind.
  { apply find_none_forallb. unfold freshId in Hfresh. by rewrite Hids in Hfresh. }
  assert (Docker.isID id c0 = true) as Hid0 by apply String.eqb_refl.
  assert (List.find (Docker.isID id) (Docker.containers e2) = Some c0) as Hfind2.
  { by rewrite Hcs2, find_app_last, Hfind, Hid0. }
  destruct (StartContainer_found e2 id c0 Hr2 Hfind2) as (e3 & Hstart & Hr3 & Hcalls3 & Hcs3).
  assert (bool_decide (Docker.Image (Docker.ContainerConfig c0) ∈ Docker.crashing e2) = true)
    as Hup by (apply bool_decide_eq_true_2; by rewrite Hcr2).
  rewrite Hup in Hcs3. cbn [negb] in Hcs3.
  rewrite Hcs2, update_app_last in Hcs3 by done.
  set (c1 := Docker.setRunning false c0) in *.
  assert (Docker.InspectContainer e3 id = (Some c1, None)) as Hinspect.
  { unfold Docker.InspectContainer. rewrite Hr3, Hcs3. simpl.
    unfold Docker.resolve. rewrite find_app_last, Hfind.
    by assert (Docker.isID id c1 = true) as -> by apply String.eqb_refl. }
  assert (Docker.calls e2 =
          Docker.calls (engine s) ++
          [Docker.CreateCall cn (Version serviceConfig) (Docker.Env config)]) as Hcalls2.
  { destruct (CreateContainer_created _ _ _ _ _ Hcreate)
      as (id' & ids' & _ & _ & _ & _ & _ & _ & _ & Hcalls). exact Hcalls. }
  assert (Start s serviceConfig =
          Returned ((None, Some (ErrMsg "Container stopped unexpectedly")),
                    withEngine (withEngine s e2) e3)) as HStart.
  { unfold Start, PullImage, Docker.InspectImage. rewrite Hreach, Himg. simpl.
    rewrite Hlist. simpl. fold cn. rewrite Hnone. simpl. fold config. rewrite Hcreate.
    change (Docker.ID c0) with id. rewrite Hstart, Hinspect.
    unfold Start_poll. rewrite Hinspect. reflexivity. }
  exists (withEngine (withEngine s e2) e3), c1, (Docker.Env config).
  split.
  { unfold StartIfNotRunning. fold cn. by rewrite Hnone, HStart. }
  split; [done |]. split; [done |]. split.
  { simpl. apply String.eqb_neq in Hname. by rewrite Hname. }
  split; [done |]. split.
  { simpl. by rewrite Hcalls3, Hcalls2, <- app_assoc. }
  assert (Docker.Name c1 = "/" +:+ cn) as Hn1.
  { simpl. apply String.eqb_neq in Hname. by rewrite Hname. }
  unfold StartIfNotRunning. fold cn.
  assert (Docker.InspectContainer (engine (withEngine (withEngine s e2) e3)) cn
          = (Some c1, None)) as ->.
  { unfold Docker.InspectContainer. simpl. rewrite Hr3, Hcs3. simpl.
    unfold Docker.resolve. rewrite !find_app_last, HfindID, HfindName.
    destruct (Docker.isID cn c1); [done |].
    unfold Docker.isName. by rewrite Hn1, String.eqb_refl. }
  cbn [negb isNil isNoSuchContainer andb]. rewrite Hn1, TrimPrefix_slash.
  change ("/" +:+ cn) with (String slash cn).
  by rewrite string_cons_neq, andb_false_r, String.eqb_refl.
Qed.





(** X18.  Start of a configuration whose name the engine answers with a
    container, where the image is local and does not crash and the
    registry lists its applications: no container is created; the
    container that answered is started, and returned running. *)
Theorem Start_existing (s : ServiceRuntime B) (serviceConfig : ServiceConfig)
    (img : Docker.LocalImage) (serviceConfigs : list ServiceConfig) (c : Docker.Container) :
  Docker.InspectContainer (engine s) (ContainerName serviceConfig) = (Some c, None) ->
  List.find (Docker.isID (Docker.ID c)) (Docker.containers (engine s)) = Some c ->
  Docker.images (engine s) !! Version serviceConfig = Some img ->
  Docker.Image (Docker.ContainerConfig c) ∉ Docker.crashing (engine s) ->
  ListApps (backend s) "" = Returned (serviceConfigs, None) ->
  exists s1,
    Start s serviceConfig = Returned ((Some (Docker.setRunning true c), None), s1) /\
    Docker.calls (engine s1) = Docker.calls (engine s) ++ [Docker.StartCall (Docker.ID c)] /\
    Docker.containers (engine s1) =
      Docker.update (Docker.ID c) (Docker.setRunning true) (Docker.containers (engine s)).
Proof.
  intros Hinspect Hfind Himg Hcrash Hlist.
  assert (Docker.reachable (engine s) = true) as Hreach.
  { unfold Docker.InspectContainer in Hinspect. by destruct (Docker.reachable (engine s)). }
  destruct (StartContainer_found (engine s) (Docker.ID c) c Hreach Hfind)
    as (e3 & Hstart & Hr3 & Hcalls3 & Hcs3).
  rewrite (bool_decide_eq_false_2 _ Hcrash) in Hcs3. cbn [negb] in Hcs3.
  assert (Docker.InspectContainer e3 (Docker.ID c) = (Some (Docker.setRunning true c), None))
    as Hinspect3.
  { unfold Docker.InspectContainer. rewrite Hr3, Hcs3. simpl. unfold Docker.resolve.
    assert (List.find (Docker.isID (Docker.ID c))
              (Docker.update (Docker.ID c) (Docker.setRunning true)
                 (Docker.containers (engine s))) = Some (Docker.setRunning true c)) as ->; [| done].
    clear -Hfind. induction (Docker.containers (engine s)) as [|x cs IH]; [done |].
    simpl in *. destruct (Docker.isID (Docker.ID c) x) eqn:Hx.
    - injection Hfind as ->. simpl. unfold Docker.isID. simpl. by rewrite String.eqb_refl.
    - simpl. rewrite Hx. by apply IH. }
  exists (withEngine (withEngine s (engine s)) e3). split; [| by split].
  unfold Start, PullImage, Docker.InspectImage. rewrite Hreach, Himg. simpl.
  rewrite Hlist. simpl. rewrite Hinspect. simpl. rewrite Hstart, Hinspect3.
  by rewrite (Start_poll_returns _ _ _ _ Hinspect3 eq_refl).
Qed.

(** X16.  PullImage that has returned an image returns it again, from the
    runtime that it left, and leaves that runtime as it is: the engine is
    not asked to pull again. *)
Theorem PullImage_again (s s1 : ServiceRuntime B) (version : string) (img : Docker.LocalImage) :
  PullImage s version = Returned ((Some img, None), s1) ->
  PullImage s1 version = Returned ((Some img, None), s1).
Proof.
  unfold PullImage at 1.
  destruct (Docker.InspectImage (engine s) version) as [image [e|]] eqn:Hfirst; [done |].
  destruct image as [img0|].
  - intros [= <- <-]. unfold PullImage. by rewrite Hfirst.
  - destruct (pullRequest s version) as [[opts auth]|why]; simpl; [| done].
    destruct (Docker.PullImage (engine s) opts auth) as [[e|] e1]; [done |].
    intros [= Hsecond <-]. unfold PullImage. simpl. by rewrite Hsecond.
Qed.

End restarting.

Lemma StartIfNotRunning_existing_witness :
  Docker.Running (Docker.ContainerState stoppedWeb) = false /\
  startIfNotRunning (runtimeOf (engineWith [stoppedWeb] ∅) emptyStore) (webConfig 2)
    = Returned ((false, Some stoppedWeb, None),
                runtimeOf (engineWith [stoppedWeb] ∅) emptyStore).
Proof.
  split; [reflexivity |].
  apply (@StartIfNotRunning_existing _ MemBackend (@Sample.store Sample.text)
           Sample.naming Sample.utils).
  - vm_compute. reflexivity.
  - vm_compute. reflexivity.
Defined.

Lemma StartIfNotRunning_crashing_witness :
  exists s1 c,
    startIfNotRunning (runtimeOf crashingEngine emptyStore) (webConfig 2)
      = Returned ((true, None, Some (ErrMsg "Container stopped unexpectedly")), s1) /\
    Docker.containers (Runtime.engine s1) = [c] /\
    Docker.Running (Docker.ContainerState c) = false /\
    startIfNotRunning s1 (webConfig 2) = Returned ((false, Some c, None), s1).
Proof.
  destruct (@StartIfNotRunning_crashing _ MemBackend (@Sample.store Sample.text)
              Sample.naming Sample.utils (runtimeOf crashingEngine emptyStore) (webConfig 2)
              webImage [] "aaaaaaaaaaaa0001" [])
    as (s1 & c & envVars & Hcall & Hcs & _ & _ & Hstopped & _ & Hnext).
  - vm_compute. reflexivity.
  - vm_compute. discriminate.
  - vm_compute. reflexivity.
  - vm_compute. reflexivity.
  - vm_compute. reflexivity.
  - vm_compute. reflexivity.
  - reflexivity.
  - exists s1, c. split; [exact Hcall |]. split; [exact Hcs |].
    split; [exact Hstopped | exact Hnext].
Defined.


Lemma Start_existing_witness :
  exists s1,
    @Runtime.Start _ MemBackend (@Sample.store Sample.text) Sample.naming Sample.utils
      (runtimeOf (engineWith [stoppedWeb] webLocal) emptyStore) (webConfig 2)
      = Returned ((Some newWeb, None), s1) /\
    Docker.calls (Runtime.engine s1) = [Docker.StartCall "cccccccccccc0002"] /\
    Docker.containers (Runtime.engine s1) = [newWeb].
Proof.
  apply (@Start_existing _ MemBackend (@Sample.store Sample.text) Sample.naming Sample.utils
           (runtimeOf (engineWith [stoppedWeb] webLocal) emptyStore) (webConfig 2)
           webImage [] stoppedWeb).
  - vm_compute. reflexivity.
  - vm_compute. reflexivity.
  - vm_compute. reflexivity.
  - apply not_elem_of_empty.
  - vm_compute. reflexivity.
Defined.

Lemma PullImage_again_witness :
  exists s1,
    @Runtime.PullImage _ Sample.utils (runtimeOf (engineWith [] ∅) emptyStore)
      "registry.example.com/web:1" = Returned ((Some webImage, None), s1) /\
    Docker.calls (Runtime.engine s1) = [Docker.PullCall webPull deployAuth] /\
    @Runtime.PullImage _ Sample.utils s1 "registry.example.com/web:1"
      = Returned ((Some webImage, None), s1).
Proof.
  assert (exists s1,
            @Runtime.PullImage _ Sample.utils (runtimeOf (engineWith [] ∅) emptyStore)
              "registry.example.com/web:1" = Returned ((Some webImage, None), s1) /\
            Docker.calls (Runtime.engine s1) = [Docker.PullCall webPull deployAuth])
    as (s1 & Hcall & Hcalls) by (eexists; split; vm_compute; reflexivity).
  exists s1. split; [exact Hcall |]. split; [exact Hcalls |].
  exact (@PullImage_again _ Sample.utils _ _ _ _ Hcall).
Defined.

(** ** The commander *)

Section commander.
Import Commander.
Context {S C : Type} `{!AppConfig C} `{!Store S C} `{!Columnize}.

Lemma Split_not_nil (s : string) (sep : ascii) : Split s sep <> [].
Proof.
  destruct s as [|c s]; [done |]. simpl.
  destruct (Ascii.eqb c sep); [done |]. by destruct (Split s sep).
Qed.

Lemma Join_snoc (l : list string) (v sep : string) :
  l <> [] -> Join (l ++ [v]) sep = Join l sep +:+ sep +:+ v.
Proof.
  induction l as [|x l IH]; [done |]. intros _.
  destruct l as [|y l]; [done |].
  change ((x :: y :: l) ++ [v]) with (x :: (y :: l) ++ [v]).
  change (Join (x :: (y :: l) ++ [v]) sep) with (x +:+ sep +:+ Join ((y :: l) ++ [v]) sep).
  rewrite IH by done. rewrite Join_cons2. by rewrite !append_assoc.
Qed.

Lemma Join_Split (s : string) (sep : ascii) : Join (Split s sep) (String sep "") = s.
Proof.
  induction s as [|c s IH]; [done |]. simpl.
  pose proof (Split_not_nil s sep) as Hne.
  destruct (Ascii.eqb c sep) eqn:Hc.
  - apply Ascii.eqb_eq in Hc. subst c.
    destruct (Split s sep) as [|p ps] eqn:Hs; [done |].
    rewrite Join_cons2, IH. reflexivity.
  - destruct (Split s sep) as [|p ps] eqn:Hs; [done |].
    destruct ps as [|q ps].
    + simpl in *. by rewrite IH.
    + rewrite Join_cons2 in *. rewrite append_cons. by rewrite IH.
Qed.

Lemma RuntimeList_pools_spec (env pool : string) (appCfg : C) (pools columns : list string) :
  RuntimeList_pools env pool appCfg pools columns =
  columns ++ map (row env appCfg) (List.filter (selected pool) pools).
Proof.
  revert columns. induction pools as [|p pools IH]; intros columns.
  - simpl. by rewrite app_nil_r.
  - simpl. unfold selected at 1. rewrite (String.eqb_sym p pool).
    destruct (String.eqb pool ""); simpl.
    + rewrite IH. by rewrite <- app_assoc.
    + destruct (String.eqb pool p); simpl; [| apply IH].
      rewrite IH. by rewrite <- app_assoc.
Qed.

Lemma RuntimeList_apps_spec (app env pool : string) (appList : list C) (columns : list string) :
  RuntimeList_apps app env pool appList columns = columns ++ rowsOf app env pool appList.
Proof.
  revert columns. induction appList as [|appCfg appList IH]; intros columns.
  - simpl. by rewrite app_nil_r.
  - simpl. unfold selected at 1.
    destruct (String.eqb app ""); simpl.
    + rewrite IH, RuntimeList_pools_spec. by rewrite <- app_assoc.
    + destruct (String.eqb (AppName appCfg) app); simpl; [| apply IH].
      rewrite IH, RuntimeList_pools_spec. by rewrite <- app_assoc.
Qed.

Lemma RuntimeList_envs_listed (configStore : S) (app pool : string) (envs columns : list string) :
  (forall x, x ∈ envs -> (StoreListApps configStore x).2 = None) ->
  RuntimeList_envs configStore app pool envs columns =
  inl (columns ++
       flat_map (fun x => rowsOf app x pool (StoreListApps configStore x).1) envs).
Proof.
  revert columns. induction envs as [|env envs IH]; intros columns Hok.
  - simpl. by rewrite app_nil_r.
  - simpl. pose proof (Hok env (list_elem_of_here _ _)) as Henv.
    destruct (StoreListApps configStore env) as [appList err]. simpl in *. subst err.
    rewrite IH by (intros x Hx; apply Hok; by right).
    by rewrite RuntimeList_apps_spec, <- app_assoc.
Qed.

Lemma RuntimeList_envs_fails (configStore : S) (app pool : string) (pre post : list string)
    (env : string) (e : error) (columns : list string) :
  (forall x, x ∈ pre -> (StoreListApps configStore x).2 = None) ->
  (StoreListApps configStore env).2 = Some e ->
  RuntimeList_envs configStore app pool (pre ++ env :: post) columns = inr e.
Proof.
  revert columns. induction pre as [|x pre IH]; intros columns Hok Hfail.
  - simpl. destruct (StoreListApps configStore env) as [appList err]. simpl in *. by subst err.
  - simpl. pose proof (Hok x (list_elem_of_here _ _)) as Hx.
    destruct (StoreListApps configStore x) as [appList err]. simpl in *. subst err.
    apply IH; [| done]. intros y Hy. apply Hok. by right.
Qed.

(** X20.  RuntimeList lists the environment given, or every environment
    of the store when none is given.  When the applications of each can be
    listed, it writes one text to the log: the table of the heading and,
    environment by environment, a row for every pool selected of every
    application selected, an empty filter selecting all.  When the
    environments, or the applications of one of them, cannot be listed,
    it returns that error and writes nothing, whatever rows it had. *)
Theorem RuntimeList_spec (configStore : S) (app env pool : string) :
  let listing := if String.eqb env "" then StoreListEnvs configStore else ([env], None) in
  (forall envs e, listing = (envs, Some e) ->
     RuntimeList configStore app env pool = (Some e, [])) /\
  (forall envs,
     listing = (envs, None) ->
     (forall x, x ∈ envs -> (StoreListApps configStore x).2 = None) ->
     RuntimeList configStore app env pool =
       (None,
        [SimpleFormat
           ("ENV | NAME | POOL | PS | MEM | VHOSTS | PORT" ::
            flat_map (fun x => rowsOf app x pool (StoreListApps configStore x).1) envs)])) /\
  (forall pre x post e,
     listing = (pre ++ x :: post, None) ->
     (forall y, y ∈ pre -> (StoreListApps configStore y).2 = None) ->
     (StoreListApps configStore x).2 = Some e ->
     RuntimeList configStore app env pool = (Some e, [])).
Proof.
  intros listing. unfold RuntimeList. fold listing. split; [| split].
  - intros envs e ->. done.
  - intros envs -> Hok. by rewrite RuntimeList_envs_listed.
  - intros pre x post e -> Hok Hfail. by rewrite (RuntimeList_envs_fails _ _ _ _ _ _ e).
Qed.

(** X21.  RuntimeSet returns the error of the reading of the
    configuration, and does not write.  With a virtual host as its only
    option, it writes the configuration back as it read it when the
    virtual host is among the pieces between the commas of VIRTUAL_HOST;
    otherwise it sets VIRTUAL_HOST to the text it had, a comma and the
    virtual host, also when that text was empty, so that the first virtual
    host of an application comes after a comma.  With no option at all it
    writes the configuration back as it read it. *)
Theorem RuntimeSet_vhost (configStore : S) (app env pool : string) (options : RuntimeOptions) :
  (forall o e, GetApp configStore app env = (o, Some e) ->
     RuntimeSet configStore app env pool options = Returned ((false, Some e), configStore)) /\
  (forall cfg,
     GetApp configStore app env = (Some cfg, None) ->
     Ps options = 0 -> Memory options = "" -> Port options = "" ->
     RuntimeSet configStore app env pool options =
       Returned
         (UpdateApp configStore
            (if String.eqb (VirtualHost options) "" ||
                StringInSlice (VirtualHost options) (Split (envAt cfg "VIRTUAL_HOST") ","%char)
             then cfg
             else AppEnvSet cfg "VIRTUAL_HOST"
                    (envAt cfg "VIRTUAL_HOST" +:+ "," +:+ VirtualHost options))
            env)).
Proof.
  split.
  - intros o e Hget. unfold RuntimeSet. by rewrite Hget.
  - intros cfg Hget Hps Hmem Hport. unfold RuntimeSet. rewrite Hget, Hps, Hmem, Hport.
    cbn [Z.eqb negb andb String.eqb].
    destruct (String.eqb (VirtualHost options) ""); simpl; [done |].
    destruct (StringInSlice _ _); simpl; [done |].
    rewrite Join_snoc by apply Split_not_nil.
    change ","%string with (String ","%char "") at 1. by rewrite Join_Split.
Qed.

End commander.

(** ** The interactive shell *)

Section interactive_shell.
Import Registry Runtime.
Context {B : Type} `{!RegistryBackend B} `{!ConfigStore B} `{!ContainerNaming} `{!Utils}
  `{!Shell}.




End interactive_shell.
